(** * TicketBari server: booking, payment and catalogue handlers

    A shallow embedding of the request handlers of [src/index.js] (the Express
    application backed by four MongoDB collections) and the properties of the
    booking / inventory protocol proved about them.

    Modelling conventions
    - A collection is the list of its documents in insertion order (the order
      [find] without a sort and [findOne] traverse); [updateOne] rewrites the
      first document matching its query.
    - Documents are records.  Fields whose JavaScript type the handlers never
      constrain are [JsVal]s; a field that is absent reads as [JUndef], and a
      value written through the driver goes through [bson] (the driver stores
      [undefined] as [null]).
    - Numbers.  Prices, quantities and totals are JavaScript numbers, that
      is binary64 floating-point values.  The model covers the integer valued
      ones and writes each as the integer it denotes, in [Z]; an integer with
      more than 53 significant bits denotes no number.  Products and sums
      are rounded to the nearest double, ties to even ([round53]), as the
      multiplication of the handlers and the [$inc] of the database do; they
      are exact as long as the result stays within [2^53] in magnitude
      ([safe]).  Results beyond the largest finite double are out of the
      model's range.
    - Strings are sequences of ASCII characters: on those, [length], [trim],
      [toLowerCase], [toUpperCase] and the classes [\d] and [\s] of the
      regular expressions are what the definitions below compute.
    - [.sort] is modelled by a stable sort, so documents with equal keys come
      in collection order.  MongoDB promises no order among them: an
      equality between the results of two sorted reads is to be read up to
      the order of documents with equal keys.
    - [ObjectId.isValid x] / [new ObjectId(x)] are modelled by [RawId]: the raw
      parameter either denotes an object id or it does not.  Fresh [_id]s come
      from a counter kept in the store.
    - [verifyJWT] is the external identity verifier: a request carries the
      outcome of the token check, [Some email] or [None].  The 401 answer is
      modelled by its status and message; the verifier's error object, which
      the body also carries after a failed verification, is left out.
    - Clock readings ([new Date().toISOString()], [Date.now()]) and the draws
      of [Math.random()] are inputs of the handler that performs them; a draw
      is a double in [0, 1), given by its numerator and the exponent of its
      power-of-two denominator ([Draw]).
    - The partial unique index created at start-up on
      [{ticketId, seatNumber}] for [bookingStatus] in [pending, confirmed] is
      checked by every insert and update of the bookings collection; a
      violation is the driver error with code 11000.
    - The five trip fields copied from ticket to booking to payment are
      grouped in the record [Trip]; display-only fields that no handler reads
      back ([ticketImage], [arrivalTime]) are left out.

    Coverage
    - Every route of [src/index.js] that writes to a collection is a
      constructor of [Request]; the three catalogue lists, the read by id,
      the transaction history and the vendor's revenue report are modelled as
      functions of the store.
    - The [POST /user] and [POST /bookings] handlers of the earlier revisions
      kept in [src/unnamed] are modelled beside the current ones, under names
      of their own.
    - Not modelled: [calculateArrivalTime] (its result is display-only and
      depends on JavaScript number parsing), [POST /create-payment-intent]
      (a call to the payment provider that touches no collection), and the
      remaining read-only listings. *)

From Stdlib Require Import ZArith String Ascii DecimalString Lia.
From stdpp Require Import base decidable list sorting strings.

Local Open Scope string_scope.
Local Open Scope Z_scope.
Local Open Scope list_scope.

(** ** JavaScript values *)

Inductive JsVal : Type :=
  | JUndef
  | JNull
  | JBool (b : bool)
  | JNum (z : Z)
  | JStr (s : string).

#[global] Instance JsVal_eq_dec : EqDecision JsVal.
Proof. solve_decision. Defined.

(** [ToBoolean]. *)
Definition truthy (v : JsVal) : bool :=
  match v with
  | JUndef | JNull => false
  | JBool b => b
  | JNum z => negb (z =? 0)
  | JStr s => negb (bool_decide (s = ""))
  end.

(** [a || b]. *)
Definition js_or (a b : JsVal) : JsVal := if truthy a then a else b.

(** [a === b] on primitives. *)
Definition strict_eq (a b : JsVal) : bool := bool_decide (a = b).

(** What the driver stores for a JavaScript value. *)
Definition bson (v : JsVal) : JsVal :=
  match v with JUndef => JNull | _ => v end.

(** One field of a [$set] document built from a request body: a key the body
    does not carry leaves the stored field alone. *)
Definition set_field (old new : JsVal) : JsVal :=
  match new with JUndef => old | _ => new end.

(** ** Numbers *)

(** The double nearest to an integer, ties to even: integers below [2^53] in
    magnitude are doubles; a larger one keeps its 53 leading bits. *)
Definition round53 (z : Z) : Z :=
  let a := Z.abs z in
  if a <? 2 ^ 53 then z
  else
    let e := Z.log2 a - 52 in
    let q := Z.shiftr a e in
    let r := a - Z.shiftl q e in
    let half := Z.shiftl 1 (e - 1) in
    let q' := if r <? half then q
              else if half <? r then q + 1
              else if Z.even q then q else q + 1 in
    Z.sgn z * Z.shiftl q' e.

(** [x + y] and [x * y] on numbers, and the sum of [$inc]. *)
Definition js_add (x y : Z) : Z := round53 (x + y).
Definition js_mul (x y : Z) : Z := round53 (x * y).

(** The range in which every integer is a double. *)
Definition safe (z : Z) : Prop := Z.abs z <= 2 ^ 53.

(** A result of [Math.random()]: the double [mantissa / 2^scale]. *)
Record Draw : Type := mkDraw {
  mantissa : Z;
  scale : Z
}.

(** The doubles of [0, 1). *)
Definition unit_draw (r : Draw) : Prop :=
  0 <= mantissa r < 2 ^ 53 /\ mantissa r < 2 ^ scale r /\ 0 <= scale r <= 1074.

(** [Math.floor(r * n)] for a draw [r] and a small positive integer [n]: the
    product is rounded to a double before the floor is taken. *)
Definition floor_scaled (r : Draw) (n : Z) : Z :=
  Z.shiftr (round53 (mantissa r * n)) (scale r).

(** ** Strings *)

Definition lower_ascii (c : ascii) : ascii :=
  let n := nat_of_ascii c in
  if ((65 <=? n)%nat && (n <=? 90)%nat)%bool then ascii_of_nat (n + 32) else c.

Definition upper_ascii (c : ascii) : ascii :=
  let n := nat_of_ascii c in
  if ((97 <=? n)%nat && (n <=? 122)%nat)%bool then ascii_of_nat (n - 32) else c.

Fixpoint map_string (f : ascii -> ascii) (s : string) : string :=
  match s with
  | EmptyString => EmptyString
  | String c r => String (f c) (map_string f r)
  end.

Definition toLowerCase : string -> string := map_string lower_ascii.
Definition toUpperCase : string -> string := map_string upper_ascii.

Definition decimal (n : N) : string := NilEmpty.string_of_uint (N.to_uint n).

(** ** Identifiers and documents *)

Definition ObjectId := nat.

(** A raw id parameter: [Some o] when [ObjectId.isValid] accepts it, and then
    [new ObjectId(..)] is [o]. *)
Definition RawId := option ObjectId.

Record Trip : Type := mkTrip {
  title : JsVal;
  from : JsVal;
  to : JsVal;
  departureDate : JsVal;
  departureTime : JsVal
}.

Record Ticket : Type := mkTicket {
  t_id : ObjectId;
  t_vendorEmail : string;
  t_trip : Trip;
  t_transportType : JsVal;
  t_type : JsVal;
  t_price : Z;
  t_quantity : Z;
  t_verificationStatus : JsVal;
  t_isAdvertised : JsVal;
  t_isHidden : JsVal;
  t_createdAt : string
}.

Record User : Type := mkUser {
  u_id : ObjectId;
  u_email : string;
  u_role : JsVal;
  u_name : JsVal;
  u_phone : JsVal;
  u_location : JsVal;
  u_image : JsVal;
  u_created_at : JsVal;
  u_last_loggedIn : JsVal;
  u_updated_at : JsVal;
  u_isFraud : JsVal
}.

(** The [status] field of a booking: the external vocabulary. *)
Inductive Status : Type :=
  | StAccepted | StRejected | StPending | StPaid | StCancelled.

(** The [bookingStatus] field of a booking: the lifecycle state. *)
Inductive BookingStatus : Type :=
  | Pending | Confirmed | Cancelled.

#[global] Instance Status_eq_dec : EqDecision Status.
Proof. solve_decision. Defined.
#[global] Instance BookingStatus_eq_dec : EqDecision BookingStatus.
Proof. solve_decision. Defined.

Record Booking : Type := mkBooking {
  b_id : ObjectId;
  b_ticketId : ObjectId;
  b_userEmail : string;
  b_quantity : Z;
  b_unitPrice : Z;
  b_totalPrice : Z;
  b_trip : Trip;
  b_ticketType : string;
  b_seatNumber : JsVal;
  b_bookingReference : string;
  b_status : Status;
  b_bookingStatus : BookingStatus;
  b_transactionId : JsVal;
  b_paymentMethod : JsVal;
  b_paymentDate : JsVal;
  b_paidAt : JsVal;
  b_cancelledAt : JsVal;
  b_createdAt : string;
  b_updatedAt : string
}.

Record Payment : Type := mkPayment {
  p_id : ObjectId;
  p_userEmail : string;
  p_bookingId : ObjectId;
  p_transactionId : JsVal;
  p_amount : JsVal;
  p_trip : Trip;
  p_seatNumber : JsVal;
  p_bookingReference : string;
  p_paymentMethod : JsVal;
  p_paymentDate : string;
  p_status : string;
  p_createdAt : string
}.

#[global] Instance Trip_eq_dec : EqDecision Trip.
Proof. solve_decision. Defined.
#[global] Instance Ticket_eq_dec : EqDecision Ticket.
Proof. solve_decision. Defined.
#[global] Instance User_eq_dec : EqDecision User.
Proof. solve_decision. Defined.
#[global] Instance Booking_eq_dec : EqDecision Booking.
Proof. solve_decision. Defined.
#[global] Instance Payment_eq_dec : EqDecision Payment.
Proof. solve_decision. Defined.

(** The database: the four collections and the source of fresh [_id]s. *)
Record Store : Type := mkStore {
  tickets : list Ticket;
  users : list User;
  bookings : list Booking;
  payments : list Payment;
  nextId : ObjectId
}.

Definition emptyStore : Store := mkStore [] [] [] [] 0%nat.

Definition with_tickets (s : Store) (l : list Ticket) : Store :=
  mkStore l (users s) (bookings s) (payments s) (nextId s).
Definition with_users (s : Store) (l : list User) : Store :=
  mkStore (tickets s) l (bookings s) (payments s) (nextId s).
Definition with_bookings (s : Store) (l : list Booking) : Store :=
  mkStore (tickets s) (users s) l (payments s) (nextId s).
Definition with_payments (s : Store) (l : list Payment) : Store :=
  mkStore (tickets s) (users s) (bookings s) l (nextId s).
Definition bump (s : Store) : Store :=
  mkStore (tickets s) (users s) (bookings s) (payments s) (S (nextId s)).

(** ** Collection primitives *)

Section Collection.
Context {A : Type}.

(** [findOne(q)]: the first document satisfying the query. *)
Definition findOne (q : A -> bool) (l : list A) : option A := List.find q l.

(** [updateOne(q, u)]: rewrite the first document satisfying the query. *)
Fixpoint updateOne (q : A -> bool) (u : A -> A) (l : list A) : list A :=
  match l with
  | [] => []
  | x :: r => if q x then u x :: r else x :: updateOne q u r
  end.

(** [updateMany(q, u)]. *)
Definition updateMany (q : A -> bool) (u : A -> A) (l : list A) : list A :=
  List.map (fun x => if q x then u x else x) l.

(** [deleteOne(q)]. *)
Fixpoint deleteOne (q : A -> bool) (l : list A) : list A :=
  match l with
  | [] => []
  | x :: r => if q x then r else x :: deleteOne q r
  end.

(** [countDocuments(q)]. *)
Definition countDocuments (q : A -> bool) (l : list A) : nat :=
  length (List.filter q l).

(** [matchedCount] of an [updateOne]. *)
Definition matchedCount (q : A -> bool) (l : list A) : nat :=
  match findOne q l with Some _ => 1%nat | None => 0%nat end.

(** [.sort({key: -1})] on a string key: larger keys first.  The sort is
    stable: documents with equal keys stay in collection order, the one order
    among those MongoDB may return them in. *)
Definition sortDesc (key : A -> string) (l : list A) : list A :=
  merge_sort (fun a b => Is_true (String.leb (key b) (key a))) l.

End Collection.

(** ** Responses *)

(** The normalised row of [GET /user/transactions]. *)
Record Transaction : Type := mkTransaction {
  tr_id : ObjectId;
  tr_transactionId : JsVal;
  tr_ticketTitle : JsVal;
  tr_amount : JsVal;
  tr_paymentDate : JsVal;
  tr_status : JsVal;
  tr_paymentMethod : JsVal;
  tr_bookingReference : JsVal;
  tr_from : JsVal;
  tr_to : JsVal;
  tr_departureDate : JsVal;
  tr_seatNumber : JsVal
}.

Inductive Body : Type :=
  | Message (message : string)
  | MessageRole (message : string) (role : JsVal)
  | InsertResult (insertedId : ObjectId)
  | UpdateResult (matched : nat) (upsertedId : option ObjectId)
  | DeleteResult (deletedCount : nat)
  | Success
  | SuccessMessage (message : string)
  | Toggled (message : string) (isAdvertised : bool)
  | TicketDoc (t : Ticket)
  | TicketDocs (l : list Ticket)
  | UserDoc (u : User)
  | Transactions (l : list Transaction).

Record Response : Type := mkResponse {
  code : nat;
  body : Body
}.

Definition send (b : Body) : Response := mkResponse 200 b.
Definition reply (c : nat) (m : string) : Response := mkResponse c (Message m).

(** What a driver call or a method call can throw inside a handler. *)
Inductive Exn : Type :=
  | MongoServerError (errcode : N)
  | TypeError.

(** ** Middlewares *)

Definition byEmail (email : string) (u : User) : bool :=
  bool_decide (u_email u = email).

(** [user?.role]. *)
Definition roleOf (email : string) (s : Store) : JsVal :=
  match findOne (byEmail email) (users s) with
  | Some u => u_role u
  | None => JUndef
  end.

Definition unauthorized : Response := reply 401 "Unauthorized Access!".

(** [verifyADMIN]: [None] lets the request through. *)
Definition verifyADMIN (email : string) (s : Store) : option Response :=
  if strict_eq (roleOf email s) (JStr "admin") then None
  else Some (mkResponse 403 (MessageRole "Admin only Actions!" (roleOf email s))).

(** [verifyVENDOR]. *)
Definition verifyVENDOR (email : string) (s : Store) : option Response :=
  if strict_eq (roleOf email s) (JStr "vendor") then None
  else Some (mkResponse 403 (MessageRole "Vendor only Actions!" (roleOf email s))).

(** ** Helper functions of the server *)

(** [generateSeatNumber]; [r1] and [r2] are its two [Math.random()] draws. *)
Definition generateSeatNumber (r1 r2 : Draw) : string :=
  let row := floor_scaled r1 50 + 1 in
  let seat := ascii_of_N (Z.to_N (65 + floor_scaled r2 6)) in
  decimal (Z.to_N row) +:+ String seat "".

(** [generateBookingReference]; [now] is [Date.now()] and [rand36] is
    [Math.random().toString(36)]. *)
Definition generateBookingReference (now : N) (rand36 : string) : string :=
  "BK" +:+ decimal now +:+ toUpperCase (substring 2 6 rand36).

(** ** User routes *)

(** The body of [POST /user]. *)
Record UserBody : Type := mkUserBody {
  ub_email : string;
  ub_role : JsVal;
  ub_created_at : JsVal;
  ub_name : JsVal;
  ub_image : JsVal
}.

(** [POST /user].  [t1] and [t2] are the two clock readings. *)
Definition postUser (s : Store) (userData : UserBody) (t1 t2 : string)
  : Store * Response :=
  if bool_decide (ub_email userData = "") then (s, reply 400 "Email required")
  else
    let created_at := js_or (ub_created_at userData) (JStr t1) in
    let last_loggedIn := JStr t2 in
    let role := js_or (ub_role userData) (JStr "customer") in
    let query := byEmail (ub_email userData) in
    let existingUser := findOne query (users s) in
    let role := match existingUser with
                | Some u => u_role u
                | None => role
                end in
    let update (u : User) : User :=
      mkUser (u_id u) (ub_email userData) (bson role)
             (set_field (u_name u) (ub_name userData))
             (u_phone u) (u_location u)
             (set_field (u_image u) (ub_image userData))
             (bson created_at) last_loggedIn (u_updated_at u) (u_isFraud u) in
    match existingUser with
    | Some _ =>
        (with_users s (updateOne query update (users s)),
         send (UpdateResult 1 None))
    | None =>
        let fresh := mkUser (nextId s) (ub_email userData) JUndef JUndef JUndef
                            JUndef JUndef JUndef JUndef JUndef JUndef in
        (bump (with_users s (users s ++ [update fresh])),
         send (UpdateResult 0 (Some (nextId s))))
    end.

Definition is_space (c : ascii) : bool :=
  let n := nat_of_ascii c in
  ((9 <=? n)%nat && (n <=? 13)%nat || (n =? 32)%nat)%bool.

Fixpoint trimStart (s : string) : string :=
  match s with
  | String c r => if is_space c then trimStart r else s
  | EmptyString => EmptyString
  end.

Fixpoint trimEnd (s : string) : string :=
  match s with
  | EmptyString => EmptyString
  | String c r =>
      match trimEnd r with
      | EmptyString => if is_space c then EmptyString else String c EmptyString
      | r' => String c r'
      end
  end.

Definition trim (s : string) : string := trimEnd (trimStart s).

Definition is_digit (c : ascii) : bool :=
  let n := nat_of_ascii c in ((48 <=? n)%nat && (n <=? 57)%nat)%bool.

(** One character of the class [[\d\s-()]]. *)
Definition phone_char (c : ascii) : bool :=
  (is_digit c || is_space c
   || bool_decide (c = "-"%char) || bool_decide (c = "("%char)
   || bool_decide (c = ")"%char))%bool.

Fixpoint all_chars (p : ascii -> bool) (s : string) : bool :=
  match s with
  | EmptyString => true
  | String c r => (p c && all_chars p r)%bool
  end.

(** [/^\+?[\d\s-()]+$/.test(s)]. *)
Definition phone_regex (s : string) : bool :=
  let rest := match s with
              | String "+"%char r => r
              | _ => s
              end in
  (negb (bool_decide (rest = "")) && all_chars phone_char rest)%bool.

(** [/^\+?[\d\s-()]+$/.test(v)]: the value is converted to a string first.
    An integer below [10^21] in magnitude prints as its digits, with a minus
    sign when negative, and passes; a larger one prints in exponent notation
    and fails, as do [true], [false], [null] and [undefined]. *)
Definition phone_test (v : JsVal) : bool :=
  match v with
  | JStr s => phone_regex s
  | JNum z => Z.abs z <? 10 ^ 21
  | _ => false
  end.

(** The strings of the model's domain. *)
Definition is_ascii (s : string) : bool :=
  all_chars (fun c => (nat_of_ascii c <? 128)%nat) s.

(** A value that is not a string outside that domain. *)
Definition ascii_value (v : JsVal) : Prop :=
  match v with
  | JStr s => is_ascii s = true
  | _ => True
  end.

(** [v.trim()]: only strings have the method. *)
Definition js_trim (v : JsVal) : Exn + string :=
  match v with
  | JStr s => inr (trim s)
  | _ => inl TypeError
  end.

(** [v?.trim() || ""]. *)
Definition opt_trim (v : JsVal) : Exn + string :=
  match v with
  | JUndef | JNull => inr ""
  | _ => js_trim v
  end.

(** [PUT /user/profile].  [file] tells whether the upload middleware attached
    a file; [imageURL] is the body field of that name. *)
Definition putUserProfile (s : Store) (auth : option string)
    (name phone location : JsVal) (file : bool) (imageURL : JsVal)
    (t : string) : Store * Response :=
  match auth with
  | None => (s, unauthorized)
  | Some email =>
      let server_error := (s, reply 500 "Server error") in
      if negb (truthy name) then
        (s, reply 400 "Name must be at least 2 characters")
      else
        match js_trim name with
        | inl _ => server_error
        | inr trimmed =>
            if (String.length trimmed <? 2)%nat then
              (s, reply 400 "Name must be at least 2 characters")
            else if (truthy phone && negb (phone_test phone))%bool then
              (s, reply 400 "Invalid phone number format")
            else
              match opt_trim phone, opt_trim location with
              | inr ph, inr loc =>
                  let update (u : User) : User :=
                    mkUser (u_id u) (u_email u) (u_role u) (JStr trimmed)
                           (JStr ph) (JStr loc)
                           (if file then bson imageURL else u_image u)
                           (u_created_at u) (u_last_loggedIn u) (JStr t)
                           (u_isFraud u) in
                  match findOne (byEmail email) (users s) with
                  | None => (s, reply 404 "User not found")
                  | Some u =>
                      (with_users s (updateOne (byEmail email) update (users s)),
                       send (UserDoc (update u)))
                  end
              | _, _ => server_error
              end
        end
  end.

(** ** The bookings collection and its unique index *)

(** The [partialFilterExpression]: [bookingStatus] in [pending, confirmed]. *)
Definition active (b : Booking) : bool :=
  (bool_decide (b_bookingStatus b = Pending)
   || bool_decide (b_bookingStatus b = Confirmed))%bool.

(** The index entry of an active booking on ticket [T] and seat [S]. *)
Definition activeOn (T : ObjectId) (S : JsVal) (b : Booking) : bool :=
  (active b && bool_decide (b_ticketId b = T)
   && bool_decide (b_seatNumber b = S))%bool.

(** Would document [d] collide in the index with a document of [l]? *)
Definition duplicate_key (d : Booking) (l : list Booking) : bool :=
  (active d && existsb (activeOn (b_ticketId d) (b_seatNumber d)) l)%bool.

Definition byBookingId (id : ObjectId) (b : Booking) : bool :=
  bool_decide (b_id b = id).

(** [bookingsCollection.insertOne(d)]. *)
Definition insertBooking (d : Booking) (l : list Booking)
  : Exn + list Booking :=
  if duplicate_key d l then inl (MongoServerError 11000%N) else inr (l ++ [d]).

(** [bookingsCollection.updateOne({_id: id}, {$set: ..})]: the rewritten
    document is checked against the other documents of the collection. *)
Definition updateBooking (id : ObjectId) (u : Booking -> Booking)
    (l : list Booking) : Exn + list Booking :=
  match findOne (byBookingId id) l with
  | None => inr l
  | Some b =>
      if duplicate_key (u b) (List.filter (fun x => negb (byBookingId id x)) l)
      then inl (MongoServerError 11000%N)
      else inr (updateOne (byBookingId id) u l)
  end.

Definition byTicketId (id : ObjectId) (t : Ticket) : bool :=
  bool_decide (t_id t = id).

(** [(ticket.transportType || ticket.type || "bus").toLowerCase()]. *)
Definition ticketTypeOf (ticket : Ticket) : Exn + string :=
  match js_or (js_or (t_transportType ticket) (t_type ticket)) (JStr "bus") with
  | JStr x => inr (toLowerCase x)
  | _ => inl TypeError
  end.

(** What [POST /bookings] reads from the clock and the random source. *)
Record BookingEnv : Type := mkBookingEnv {
  e_now : N;
  e_rand36 : string;
  e_r1 : Draw;
  e_r2 : Draw;
  e_createdAt : string;
  e_updatedAt : string
}.

(** [seatNumber || generateSeatNumber()]. *)
Definition seatOf (seatNumber : JsVal) (env : BookingEnv) : JsVal :=
  js_or seatNumber (JStr (generateSeatNumber (e_r1 env) (e_r2 env))).

(** The booking object built by [POST /bookings]. *)
Definition newBooking (id ticketId : ObjectId) (ticket : Ticket)
    (email : string) (quantity : Z) (seatNumber : JsVal) (ticketType : string)
    (env : BookingEnv) : Booking :=
  let bookingReference := generateBookingReference (e_now env) (e_rand36 env) in
  let generatedSeatNumber := seatOf seatNumber env in
  {| b_id := id;
     b_ticketId := ticketId;
     b_userEmail := email;
     b_quantity := quantity;
     b_unitPrice := t_price ticket;
     b_totalPrice := js_mul (t_price ticket) quantity;
     b_trip := t_trip ticket;
     b_ticketType := ticketType;
     b_seatNumber := generatedSeatNumber;
     b_bookingReference := bookingReference;
     b_status := StPending;
     b_bookingStatus := Pending;
     b_transactionId := JNull;
     b_paymentMethod := JNull;
     b_paymentDate := JNull;
     b_paidAt := JUndef;
     b_cancelledAt := JUndef;
     b_createdAt := e_createdAt env;
     b_updatedAt := e_updatedAt env |}.

(** [POST /bookings]. *)
Definition createBooking (s : Store) (auth : option string) (ticketId : RawId)
    (quantity : Z) (seatNumber : JsVal) (env : BookingEnv) : Store * Response :=
  match auth with
  | None => (s, unauthorized)
  | Some email =>
      match ticketId with
      | None => (s, reply 400 "Invalid ticket ID")
      | Some tid =>
          match findOne (byTicketId tid) (tickets s) with
          | None => (s, reply 404 "Ticket not found")
          | Some ticket =>
              let attempt :=
                match ticketTypeOf ticket with
                | inl e => inl e
                | inr ticketType =>
                    insertBooking
                      (newBooking (nextId s) tid ticket email quantity
                                  seatNumber ticketType env)
                      (bookings s)
                end in
              match attempt with
              | inr l =>
                  (bump (with_bookings s l),
                   mkResponse 201 (InsertResult (nextId s)))
              | inl (MongoServerError 11000%N) =>
                  (s, reply 409 "Seat already booked. Please select another seat.")
              | inl _ => (s, reply 500 "Server error")
              end
          end
      end
  end.

(** The accepted values of the [status] body field of
    [PATCH /bookings/:id/status]. *)
Definition parseStatus (status : string) : option Status :=
  if bool_decide (status = "accepted") then Some StAccepted
  else if bool_decide (status = "rejected") then Some StRejected
  else if bool_decide (status = "pending") then Some StPending
  else if bool_decide (status = "paid") then Some StPaid
  else if bool_decide (status = "cancelled") then Some StCancelled
  else None.

Definition statusMap (status : Status) : BookingStatus :=
  match status with
  | StAccepted => Confirmed
  | StRejected => Cancelled
  | StPending => Pending
  | StPaid => Confirmed
  | StCancelled => Cancelled
  end.

Definition setStatus (st : Status) (bst : BookingStatus) (t : string)
    (b : Booking) : Booking :=
  mkBooking (b_id b) (b_ticketId b) (b_userEmail b) (b_quantity b)
            (b_unitPrice b) (b_totalPrice b) (b_trip b) (b_ticketType b)
            (b_seatNumber b) (b_bookingReference b) st bst
            (b_transactionId b) (b_paymentMethod b) (b_paymentDate b)
            (b_paidAt b) (b_cancelledAt b) (b_createdAt b) t.

(** [PATCH /bookings/:id/status]. *)
Definition updateBookingStatus (s : Store) (auth : option string) (id : RawId)
    (status : string) (t : string) : Store * Response :=
  match auth with
  | None => (s, unauthorized)
  | Some _ =>
      match id with
      | None => (s, reply 400 "Invalid booking ID")
      | Some bid =>
          match parseStatus status with
          | None => (s, reply 400 "Invalid status")
          | Some st =>
              match updateBooking bid (setStatus st (statusMap st) t) (bookings s) with
              | inr l =>
                  (with_bookings s l,
                   send (UpdateResult (matchedCount (byBookingId bid) (bookings s)) None))
              | inl _ => (s, reply 500 "Server error")
              end
          end
      end
  end.

(** ** Payments *)

(** The payment document built by [POST /payments]. *)
Definition newPayment (id : ObjectId) (email : string) (bookingId : ObjectId)
    (booking : Booking) (transactionId amount paymentMethod : JsVal)
    (paymentDate : string) : Payment :=
  {| p_id := id;
     p_userEmail := email;
     p_bookingId := bookingId;
     p_transactionId := bson transactionId;
     p_amount := bson amount;
     p_trip := b_trip booking;
     p_seatNumber := b_seatNumber booking;
     p_bookingReference := b_bookingReference booking;
     p_paymentMethod := js_or paymentMethod (JStr "Credit Card");
     p_paymentDate := paymentDate;
     p_status := "completed";
     p_createdAt := paymentDate |}.

(** The [$set] applied to the booking when it is settled. *)
Definition markPaid (transactionId paymentMethod : JsVal)
    (paymentDate : string) (b : Booking) : Booking :=
  mkBooking (b_id b) (b_ticketId b) (b_userEmail b) (b_quantity b)
            (b_unitPrice b) (b_totalPrice b) (b_trip b) (b_ticketType b)
            (b_seatNumber b) (b_bookingReference b) StPaid Confirmed
            (bson transactionId) (js_or paymentMethod (JStr "Credit Card"))
            (JStr paymentDate) (JStr paymentDate) (b_cancelledAt b)
            (b_createdAt b) paymentDate.

(** [{$inc: {quantity: d}}]. *)
Definition incQuantity (d : Z) (t : Ticket) : Ticket :=
  mkTicket (t_id t) (t_vendorEmail t) (t_trip t) (t_transportType t)
           (t_type t) (t_price t) (js_add (t_quantity t) d)
           (t_verificationStatus t)
           (t_isAdvertised t) (t_isHidden t) (t_createdAt t).

(** [POST /payments]. *)
Definition recordPayment (s : Store) (auth : option string) (bookingId : RawId)
    (transactionId amount paymentMethod : JsVal) (paymentDate : string)
  : Store * Response :=
  match auth with
  | None => (s, unauthorized)
  | Some email =>
      match bookingId with
      | None => (s, reply 400 "Invalid booking ID")
      | Some bid =>
          match findOne (byBookingId bid) (bookings s) with
          | None => (s, reply 404 "Booking not found")
          | Some booking =>
              if bool_decide (b_status booking = StPaid) then
                (s, reply 400 "Booking already paid")
              else if negb (strict_eq amount (JNum (b_totalPrice booking))) then
                (s, reply 400 "Payment amount mismatch")
              else
                let payment := newPayment (nextId s) email bid booking
                                          transactionId amount paymentMethod
                                          paymentDate in
                let s1 := bump (with_payments s (payments s ++ [payment])) in
                match updateBooking bid
                        (markPaid transactionId paymentMethod paymentDate)
                        (bookings s1) with
                | inl _ => (s1, reply 500 "Server error")
                | inr l =>
                    let s2 := with_bookings s1 l in
                    let s3 := with_tickets s2
                                (updateOne (byTicketId (b_ticketId booking))
                                           (incQuantity (- b_quantity booking))
                                           (tickets s2)) in
                    (s3, send Success)
                end
          end
      end
  end.

Definition normalizeTransaction (t : Payment) : Transaction :=
  {| tr_id := p_id t;
     tr_transactionId := p_transactionId t;
     tr_ticketTitle := js_or (title (p_trip t)) (JStr "Ticket Purchase");
     tr_amount := js_or (p_amount t) (JNum 0);
     tr_paymentDate := js_or (JStr (p_paymentDate t)) (JStr (p_createdAt t));
     tr_status := js_or (JStr (p_status t)) (JStr "completed");
     tr_paymentMethod := js_or (p_paymentMethod t) (JStr "N/A");
     tr_bookingReference := js_or (JStr (p_bookingReference t)) (JStr "");
     tr_from := js_or (from (p_trip t)) (JStr "");
     tr_to := js_or (to (p_trip t)) (JStr "");
     tr_departureDate := js_or (departureDate (p_trip t)) (JStr "");
     tr_seatNumber := js_or (p_seatNumber t) (JStr "") |}.

(** The rows [GET /user/transactions] sends to [email]. *)
Definition userTransactions (email : string) (s : Store) : list Transaction :=
  List.map normalizeTransaction
    (sortDesc p_paymentDate
       (List.filter (fun p => bool_decide (p_userEmail p = email)) (payments s))).

(** [GET /user/transactions]. *)
Definition getUserTransactions (s : Store) (auth : option string)
  : Store * Response :=
  match auth with
  | None => (s, unauthorized)
  | Some email => (s, send (Transactions (userTransactions email s)))
  end.

(** ** Cancellation *)

(** The [$set] applied by [DELETE /bookings/:id]. *)
Definition markCancelled (cancelledAt updatedAt : string) (b : Booking)
  : Booking :=
  mkBooking (b_id b) (b_ticketId b) (b_userEmail b) (b_quantity b)
            (b_unitPrice b) (b_totalPrice b) (b_trip b) (b_ticketType b)
            (b_seatNumber b) (b_bookingReference b) StCancelled Cancelled
            (b_transactionId b) (b_paymentMethod b) (b_paymentDate b)
            (b_paidAt b) (JStr cancelledAt) (b_createdAt b) updatedAt.

(** The guard of the quantity restoration:
    [booking.status === "paid" || booking.bookingStatus === "confirmed"]. *)
Definition wasPaid (booking : Booking) : bool :=
  (bool_decide (b_status booking = StPaid)
   || bool_decide (b_bookingStatus booking = Confirmed))%bool.

(** [DELETE /bookings/:id]. *)
Definition cancelBooking (s : Store) (auth : option string) (id : RawId)
    (t1 t2 : string) : Store * Response :=
  match auth with
  | None => (s, unauthorized)
  | Some email =>
      match id with
      | None => (s, reply 400 "Invalid booking ID")
      | Some bid =>
          match findOne (byBookingId bid) (bookings s) with
          | None => (s, reply 404 "Booking not found")
          | Some booking =>
              if negb (bool_decide (b_userEmail booking = email)) then
                (s, reply 403 "Not authorized")
              else
                match updateBooking bid (markCancelled t1 t2) (bookings s) with
                | inl _ => (s, reply 500 "Server error")
                | inr l =>
                    let s1 := with_bookings s l in
                    let s2 :=
                      if wasPaid booking then
                        with_tickets s1
                          (updateOne (byTicketId (b_ticketId booking))
                                     (incQuantity (b_quantity booking))
                                     (tickets s1))
                      else s1 in
                    (s2, mkResponse 200 (SuccessMessage "Booking cancelled successfully"))
                end
          end
      end
  end.

(** ** Public catalogue reads *)

(** [{verificationStatus: "approved", isHidden: {$ne: true}}]. *)
Definition publicFilter (t : Ticket) : bool :=
  (bool_decide (t_verificationStatus t = JStr "approved")
   && negb (bool_decide (t_isHidden t = JBool true)))%bool.

(** [{isAdvertised: true, verificationStatus: "approved"}]. *)
Definition advertisedFilter (t : Ticket) : bool :=
  (bool_decide (t_isAdvertised t = JBool true)
   && bool_decide (t_verificationStatus t = JStr "approved"))%bool.

(** [GET /tickets/all]. *)
Definition ticketsAll (s : Store) : Store * Response :=
  (s, send (TicketDocs (sortDesc t_createdAt (List.filter publicFilter (tickets s))))).

(** [GET /tickets/latest]. *)
Definition ticketsLatest (s : Store) : Store * Response :=
  (s, send (TicketDocs
              (take 8 (sortDesc t_createdAt (List.filter publicFilter (tickets s)))))).

(** [GET /tickets/advertised-home]. *)
Definition ticketsAdvertisedHome (s : Store) : Store * Response :=
  (s, send (TicketDocs
              (take 6 (List.filter
                         (fun t => (bool_decide (t_isAdvertised t = JBool true)
                                    && publicFilter t)%bool)
                         (tickets s))))).

(** [GET /tickets/:id]. *)
Definition ticketById (s : Store) (id : RawId) : Store * Response :=
  match id with
  | None => (s, reply 400 "Invalid ticket ID")
  | Some tid =>
      match findOne (byTicketId tid) (tickets s) with
      | None => (s, reply 400 "Ticket not found")
      | Some ticket => (s, send (TicketDoc ticket))
      end
  end.

(** ** Vendor routes *)

(** The body of [POST /tickets]. *)
Record TicketBody : Type := mkTicketBody {
  tb_trip : Trip;
  tb_transportType : JsVal;
  tb_type : JsVal;
  tb_price : Z;
  tb_quantity : Z;
  tb_isHidden : JsVal
}.

(** [POST /tickets]. *)
Definition postTicket (s : Store) (auth : option string)
    (ticketData : TicketBody) (t : string) : Store * Response :=
  match auth with
  | None => (s, unauthorized)
  | Some email =>
      match verifyVENDOR email s with
      | Some r => (s, r)
      | None =>
          let doc :=
            {| t_id := nextId s;
               t_vendorEmail := email;
               t_trip := tb_trip ticketData;
               t_transportType := tb_transportType ticketData;
               t_type := tb_type ticketData;
               t_price := tb_price ticketData;
               t_quantity := tb_quantity ticketData;
               t_verificationStatus := JStr "pending";
               t_isAdvertised := JBool false;
               t_isHidden := tb_isHidden ticketData;
               t_createdAt := t |} in
          (bump (with_tickets s (tickets s ++ [doc])),
           send (InsertResult (nextId s)))
      end
  end.

(** One key of the body of [PATCH /tickets/:id]. *)
Inductive TicketSet : Type :=
  | SetVendorEmail (v : string)
  | SetTitle (v : JsVal)
  | SetFrom (v : JsVal)
  | SetTo (v : JsVal)
  | SetDepartureDate (v : JsVal)
  | SetDepartureTime (v : JsVal)
  | SetTransportType (v : JsVal)
  | SetType (v : JsVal)
  | SetPrice (v : Z)
  | SetQuantity (v : Z)
  | SetVerificationStatus (v : JsVal)
  | SetIsAdvertised (v : JsVal)
  | SetIsHidden (v : JsVal)
  | SetCreatedAt (v : string).

Definition setTrip (f : Trip -> Trip) (t : Ticket) : Ticket :=
  mkTicket (t_id t) (t_vendorEmail t) (f (t_trip t)) (t_transportType t)
           (t_type t) (t_price t) (t_quantity t) (t_verificationStatus t)
           (t_isAdvertised t) (t_isHidden t) (t_createdAt t).

Definition setVerificationStatus (v : JsVal) (t : Ticket) : Ticket :=
  mkTicket (t_id t) (t_vendorEmail t) (t_trip t) (t_transportType t)
           (t_type t) (t_price t) (t_quantity t) v
           (t_isAdvertised t) (t_isHidden t) (t_createdAt t).

Definition setIsAdvertised (v : JsVal) (t : Ticket) : Ticket :=
  mkTicket (t_id t) (t_vendorEmail t) (t_trip t) (t_transportType t)
           (t_type t) (t_price t) (t_quantity t) (t_verificationStatus t)
           v (t_isHidden t) (t_createdAt t).

Definition setIsHidden (v : JsVal) (t : Ticket) : Ticket :=
  mkTicket (t_id t) (t_vendorEmail t) (t_trip t) (t_transportType t)
           (t_type t) (t_price t) (t_quantity t) (t_verificationStatus t)
           (t_isAdvertised t) v (t_createdAt t).

Definition applyTicketSet (t : Ticket) (k : TicketSet) : Ticket :=
  match k with
  | SetVendorEmail v =>
      mkTicket (t_id t) v (t_trip t) (t_transportType t) (t_type t) (t_price t)
               (t_quantity t) (t_verificationStatus t) (t_isAdvertised t)
               (t_isHidden t) (t_createdAt t)
  | SetTitle v =>
      setTrip (fun r => mkTrip v (from r) (to r) (departureDate r) (departureTime r)) t
  | SetFrom v =>
      setTrip (fun r => mkTrip (title r) v (to r) (departureDate r) (departureTime r)) t
  | SetTo v =>
      setTrip (fun r => mkTrip (title r) (from r) v (departureDate r) (departureTime r)) t
  | SetDepartureDate v =>
      setTrip (fun r => mkTrip (title r) (from r) (to r) v (departureTime r)) t
  | SetDepartureTime v =>
      setTrip (fun r => mkTrip (title r) (from r) (to r) (departureDate r) v) t
  | SetTransportType v =>
      mkTicket (t_id t) (t_vendorEmail t) (t_trip t) v (t_type t) (t_price t)
               (t_quantity t) (t_verificationStatus t) (t_isAdvertised t)
               (t_isHidden t) (t_createdAt t)
  | SetType v =>
      mkTicket (t_id t) (t_vendorEmail t) (t_trip t) (t_transportType t) v
               (t_price t) (t_quantity t) (t_verificationStatus t)
               (t_isAdvertised t) (t_isHidden t) (t_createdAt t)
  | SetPrice v =>
      mkTicket (t_id t) (t_vendorEmail t) (t_trip t) (t_transportType t)
               (t_type t) v (t_quantity t) (t_verificationStatus t)
               (t_isAdvertised t) (t_isHidden t) (t_createdAt t)
  | SetQuantity v =>
      mkTicket (t_id t) (t_vendorEmail t) (t_trip t) (t_transportType t)
               (t_type t) (t_price t) v (t_verificationStatus t)
               (t_isAdvertised t) (t_isHidden t) (t_createdAt t)
  | SetVerificationStatus v => setVerificationStatus v t
  | SetIsAdvertised v => setIsAdvertised v t
  | SetIsHidden v => setIsHidden v t
  | SetCreatedAt v =>
      mkTicket (t_id t) (t_vendorEmail t) (t_trip t) (t_transportType t)
               (t_type t) (t_price t) (t_quantity t) (t_verificationStatus t)
               (t_isAdvertised t) (t_isHidden t) v
  end.

(** [PATCH /tickets/:id]: [$set] of the whole body (minus [_id]). *)
Definition patchTicket (s : Store) (auth : option string) (id : RawId)
    (ticketData : list TicketSet) : Store * Response :=
  match auth with
  | None => (s, unauthorized)
  | Some email =>
      match verifyVENDOR email s with
      | Some r => (s, r)
      | None =>
          match id with
          | None => (s, reply 400 "Invalid ticket ID")
          | Some tid =>
              match findOne (byTicketId tid) (tickets s) with
              | None => (s, reply 404 "Ticket not found")
              | Some ticket =>
                  if negb (bool_decide (t_vendorEmail ticket = email)) then
                    (s, reply 403 "Not authorized")
                  else
                    (with_tickets s
                       (updateOne (byTicketId tid)
                                  (fun t => fold_left applyTicketSet ticketData t)
                                  (tickets s)),
                     send (UpdateResult 1 None))
              end
          end
      end
  end.

(** [DELETE /tickets/:id]. *)
Definition deleteTicket (s : Store) (auth : option string) (id : RawId)
  : Store * Response :=
  match auth with
  | None => (s, unauthorized)
  | Some email =>
      match verifyVENDOR email s with
      | Some r => (s, r)
      | None =>
          match id with
          | None => (s, reply 400 "Invalid ticket ID")
          | Some tid =>
              match findOne (byTicketId tid) (tickets s) with
              | None => (s, reply 404 "Ticket not found")
              | Some ticket =>
                  if negb (bool_decide (t_vendorEmail ticket = email)) then
                    (s, reply 403 "Not authorized")
                  else
                    (with_tickets s (deleteOne (byTicketId tid) (tickets s)),
                     send (DeleteResult 1))
              end
          end
      end
  end.

(** ** Admin routes *)

(** [PATCH /admin/tickets/:id/verify]. *)
Definition adminVerifyTicket (s : Store) (auth : option string) (id : RawId)
    (verificationStatus : string) : Store * Response :=
  match auth with
  | None => (s, unauthorized)
  | Some email =>
      match verifyADMIN email s with
      | Some r => (s, r)
      | None =>
          match id with
          | None => (s, reply 400 "Invalid ticket ID")
          | Some tid =>
              if negb (bool_decide (verificationStatus = "approved")
                       || bool_decide (verificationStatus = "rejected")) then
                (s, reply 400 "Invalid stats")
              else
                (with_tickets s
                   (updateOne (byTicketId tid)
                              (setVerificationStatus (JStr verificationStatus))
                              (tickets s)),
                 send (UpdateResult (matchedCount (byTicketId tid) (tickets s)) None))
          end
      end
  end.

Definition setRole (r : JsVal) (u : User) : User :=
  mkUser (u_id u) (u_email u) r (u_name u) (u_phone u) (u_location u)
         (u_image u) (u_created_at u) (u_last_loggedIn u) (u_updated_at u)
         (u_isFraud u).

Definition setFraud (u : User) : User :=
  mkUser (u_id u) (u_email u) (u_role u) (u_name u) (u_phone u) (u_location u)
         (u_image u) (u_created_at u) (u_last_loggedIn u) (u_updated_at u)
         (JBool true).

(** [PATCH /admin/users/:email/role]. *)
Definition adminSetRole (s : Store) (auth : option string) (email : string)
    (role : string) : Store * Response :=
  match auth with
  | None => (s, unauthorized)
  | Some admin =>
      match verifyADMIN admin s with
      | Some r => (s, r)
      | None =>
          if negb (bool_decide (role = "customer") || bool_decide (role = "vendor")
                   || bool_decide (role = "admin")) then
            (s, reply 400 "Invalid role")
          else
            (with_users s (updateOne (byEmail email) (setRole (JStr role)) (users s)),
             send (UpdateResult (matchedCount (byEmail email) (users s)) None))
      end
  end.

(** [PATCH /admin/users/:email/fraud]. *)
Definition adminMarkFraud (s : Store) (auth : option string) (email : string)
  : Store * Response :=
  match auth with
  | None => (s, unauthorized)
  | Some admin =>
      match verifyADMIN admin s with
      | Some r => (s, r)
      | None =>
          let s1 := with_users s (updateOne (byEmail email) setFraud (users s)) in
          let s2 := with_tickets s1
                      (updateMany (fun t => bool_decide (t_vendorEmail t = email))
                                  (setIsHidden (JBool true)) (tickets s1)) in
          (s2, send Success)
      end
  end.

(** [PATCH /admin/tickets/advertise/:id]. *)
Definition toggleAdvertise (s : Store) (auth : option string) (id : RawId)
  : Store * Response :=
  match auth with
  | None => (s, unauthorized)
  | Some email =>
      match verifyADMIN email s with
      | Some r => (s, r)
      | None =>
          match id with
          | None => (s, reply 400 "Invalid id")
          | Some tid =>
              match findOne (byTicketId tid) (tickets s) with
              | None => (s, reply 404 "Ticket not found")
              | Some ticket =>
                  if negb (strict_eq (t_verificationStatus ticket) (JStr "approved")) then
                    (s, reply 400 "Only approved tickets can be advertised")
                  else if (negb (truthy (t_isAdvertised ticket))
                           && (6 <=? countDocuments advertisedFilter (tickets s))%nat)%bool then
                    (s, reply 400 "Max 6 advertised")
                  else
                    (with_tickets s
                       (updateOne (byTicketId tid)
                                  (setIsAdvertised
                                     (JBool (negb (truthy (t_isAdvertised ticket)))))
                                  (tickets s)),
                     send (Toggled "Toggled advertise"
                                   (negb (truthy (t_isAdvertised ticket)))))
              end
          end
      end
  end.

(** ** The server as a transition system *)

Inductive Request : Type :=
  | PostUser (userData : UserBody) (t1 t2 : string)
  | PutUserProfile (auth : option string) (name phone location : JsVal)
      (file : bool) (imageURL : JsVal) (t : string)
  | PostBookings (auth : option string) (ticketId : RawId) (quantity : Z)
      (seatNumber : JsVal) (env : BookingEnv)
  | PatchBookingStatus (auth : option string) (id : RawId) (status : string)
      (t : string)
  | PostPayments (auth : option string) (bookingId : RawId)
      (transactionId amount paymentMethod : JsVal) (paymentDate : string)
  | GetUserTransactions (auth : option string)
  | DeleteBooking (auth : option string) (id : RawId) (t1 t2 : string)
  | GetTicketsAll
  | GetTicketsLatest
  | GetTicketsAdvertisedHome
  | GetTicketById (id : RawId)
  | PostTickets (auth : option string) (ticketData : TicketBody) (t : string)
  | PatchTicket (auth : option string) (id : RawId) (ticketData : list TicketSet)
  | DeleteTicket (auth : option string) (id : RawId)
  | PatchAdminVerify (auth : option string) (id : RawId)
      (verificationStatus : string)
  | PatchAdminRole (auth : option string) (email role : string)
  | PatchAdminFraud (auth : option string) (email : string)
  | PatchAdminAdvertise (auth : option string) (id : RawId).

(** Route dispatch. *)
Definition handle (s : Store) (r : Request) : Store * Response :=
  match r with
  | PostUser userData t1 t2 => postUser s userData t1 t2
  | PutUserProfile auth name phone location file imageURL t =>
      putUserProfile s auth name phone location file imageURL t
  | PostBookings auth ticketId quantity seatNumber env =>
      createBooking s auth ticketId quantity seatNumber env
  | PatchBookingStatus auth id status t => updateBookingStatus s auth id status t
  | PostPayments auth bookingId transactionId amount paymentMethod paymentDate =>
      recordPayment s auth bookingId transactionId amount paymentMethod paymentDate
  | GetUserTransactions auth => getUserTransactions s auth
  | DeleteBooking auth id t1 t2 => cancelBooking s auth id t1 t2
  | GetTicketsAll => ticketsAll s
  | GetTicketsLatest => ticketsLatest s
  | GetTicketsAdvertisedHome => ticketsAdvertisedHome s
  | GetTicketById id => ticketById s id
  | PostTickets auth ticketData t => postTicket s auth ticketData t
  | PatchTicket auth id ticketData => patchTicket s auth id ticketData
  | DeleteTicket auth id => deleteTicket s auth id
  | PatchAdminVerify auth id v => adminVerifyTicket s auth id v
  | PatchAdminRole auth email role => adminSetRole s auth email role
  | PatchAdminFraud auth email => adminMarkFraud s auth email
  | PatchAdminAdvertise auth id => toggleAdvertise s auth id
  end.

(** The store after a sequence of requests served one after the other. *)
Definition run (s : Store) (rs : list Request) : Store :=
  fold_left (fun s r => fst (handle s r)) rs s.

(** The stores the server can reach from the empty database. *)
Inductive reachable : Store -> Prop :=
  | reach_init : reachable emptyStore
  | reach_step s r : reachable s -> reachable (fst (handle s r)).

(** ** Properties of stores *)

(** At most one active booking per ticket and seat. *)
Definition seats_ok (l : list Booking) : Prop :=
  forall T S, (countDocuments (activeOn T S) l <= 1)%nat.

Definition no_double_booking (s : Store) : Prop := seats_ok (bookings s).

(** Another active booking holds the ticket seat of [b]. *)
Definition seat_taken_by_other (b : Booking) (s : Store) : bool :=
  existsb (fun x => activeOn (b_ticketId b) (b_seatNumber b) x
                    && negb (byBookingId (b_id b) x))%bool
          (bookings s).

(** The two status fields of a booking agree. *)
Definition consistent (b : Booking) : Prop :=
  b_bookingStatus b = statusMap (b_status b).

(** What every store the server builds satisfies. *)
Record Inv (s : Store) : Prop := mkInv {
  inv_fresh : Forall (fun b => (b_id b < nextId s)%nat) (bookings s);
  inv_nodup : List.NoDup (List.map b_id (bookings s));
  inv_seats : no_double_booking s;
  inv_status : Forall consistent (bookings s);
  inv_roles : Forall (fun u => u_role u <> JUndef) (users s)
}.

(** The number of tickets counted against the advertisement cap. *)
Definition advertisedCount (s : Store) : nat :=
  countDocuments advertisedFilter (tickets s).

Definition bookingById (id : ObjectId) (s : Store) : option Booking :=
  findOne (byBookingId id) (bookings s).

Definition lookupTicket (id : ObjectId) (s : Store) : option Ticket :=
  findOne (byTicketId id) (tickets s).

Definition quantityOf (id : ObjectId) (s : Store) : option Z :=
  option_map t_quantity (lookupTicket id s).

(** The store after the three writes of a settlement. *)
Definition settle (s : Store) (email : string) (bid : ObjectId) (b : Booking)
    (txn amount method : JsVal) (d : string) : Store :=
  mkStore
    (updateOne (byTicketId (b_ticketId b)) (incQuantity (- b_quantity b)) (tickets s))
    (users s)
    (updateOne (byBookingId bid) (markPaid txn method d) (bookings s))
    (payments s ++ [newPayment (nextId s) email bid b txn amount method d])
    (S (nextId s)).




(** One call of the advertise toggle: the token check outcome and the id. *)
Definition toggleRequest (c : option string * RawId) : Request :=
  PatchAdminAdvertise c.1 c.2.

Definition userByEmail (email : string) (s : Store) : option User :=
  findOne (byEmail email) (users s).

(** The one route that writes a role chosen by its caller. *)
Definition is_role_change (r : Request) : bool :=
  match r with
  | PatchAdminRole _ _ _ => true
  | _ => false
  end.

(** The lifecycle status of the booking with a given id. *)
Definition lifecycle (id : ObjectId) (s : Store) : option BookingStatus :=
  option_map b_bookingStatus (bookingById id s).

(** The routes that write an active [bookingStatus] on an existing booking. *)
Definition may_revive (r : Request) : bool :=
  match r with
  | PatchBookingStatus _ _ _ _ => true
  | PostPayments _ _ _ _ _ _ => true
  | _ => false
  end.

(** The tickets a response carries. *)
Definition returned (r : Response) : list Ticket :=
  match body r with
  | TicketDocs l => l
  | TicketDoc t => [t]
  | _ => []
  end.

(** Approved and not hidden. *)
Definition public (t : Ticket) : Prop :=
  t_verificationStatus t = JStr "approved" /\ t_isHidden t <> JBool true.

(** ** A worked scenario *)

Definition vendorBody : UserBody :=
  mkUserBody "vendor@x.io" (JStr "vendor") JUndef (JStr "Vera") JUndef.

Definition dhakaTrip : Trip :=
  mkTrip (JStr "Dhaka - Sylhet") (JStr "Dhaka") (JStr "Sylhet")
         (JStr "2026-01-10") (JStr "10:30 AM").

Definition dhakaBody : TicketBody :=
  mkTicketBody dhakaTrip (JStr "Bus") JUndef 20 10 JUndef.

Definition env0 : BookingEnv :=
  mkBookingEnv 1767000000000 "0.k3j9x2ab" (mkDraw 1 1) (mkDraw 1 1)
               "2026-01-01T10:00:00.000Z" "2026-01-01T10:00:00.001Z".

(** A vendor signs in and lists a ticket (price 20, quantity 10). *)
Definition listed : Store :=
  run emptyStore
    [PostUser vendorBody "2026-01-01T09:00:00.000Z" "2026-01-01T09:00:00.000Z";
     PostTickets (Some "vendor@x.io") dhakaBody "2026-01-01T09:30:00.000Z"].

(** A customer books two places on seat 12A. *)
Definition booked : Store :=
  run listed [PostBookings (Some "ann@x.io") (Some 1%nat) 2 (JStr "12A") env0].

(** The booking is settled with the computed total. *)
Definition settled : Store :=
  run booked
    [PostPayments (Some "ann@x.io") (Some 2%nat) (JStr "tx_1") (JNum 40) JUndef
                  "2026-01-02T08:00:00.000Z"].

(** The customer cancels the unpaid booking. *)
Definition cancelled : Store :=
  run booked
    [DeleteBooking (Some "ann@x.io") (Some 2%nat) "2026-01-02T08:00:00.000Z"
                   "2026-01-02T08:00:00.001Z"].

Definition adminBody : UserBody :=
  mkUserBody "root@x.io" (JStr "admin") JUndef (JStr "Root") JUndef.

(** An administrator signs in. *)
Definition staffed : Store :=
  run listed [PostUser adminBody "2026-01-01T09:40:00.000Z" "2026-01-01T09:40:00.000Z"].

(** The vendor lists six more tickets (ids 3 to 8) and the administrator
    approves all seven. *)
Definition fleet : Store :=
  run staffed
    (List.map (fun t => PostTickets (Some "vendor@x.io") dhakaBody t)
              ["t3"; "t4"; "t5"; "t6"; "t7"; "t8"] ++
     List.map (fun i => PatchAdminVerify (Some "root@x.io") (Some i) "approved")
              [1; 3; 4; 5; 6; 7; 8]%nat).

(** Six of them are advertised. *)
Definition capped : Store :=
  run fleet
    (List.map (fun i => toggleRequest (Some "root@x.io", Some i))
              [1; 3; 4; 5; 6; 7]%nat).


(** ** What the handlers write *)

(** The fields of a booking that no handler rewrites. *)
Definition core (b : Booking) :=
  (b_id b, b_ticketId b, b_userEmail b, b_quantity b, b_unitPrice b,
   b_totalPrice b, b_trip b, b_ticketType b, b_seatNumber b,
   b_bookingReference b, b_createdAt b).

(** The ways a request changes the bookings collection. *)
Inductive booking_write (l : list Booking) : list Booking -> Prop :=
  | bw_same : booking_write l l
  | bw_insert id tid ticket email q seat ty env :
      booking_write l (l ++ [newBooking id tid ticket email q seat ty env])
  | bw_update id u :
      (forall b, core (u b) = core b) ->
      booking_write l (updateOne (byBookingId id) u l).

(** A payment record agrees with the booking it names. *)
Definition payment_matches (s : Store) (p : Payment) : Prop :=
  exists b,
    bookingById (p_bookingId p) s = Some b /\
    p_amount p = JNum (b_totalPrice b) /\
    p_trip p = b_trip b /\
    p_seatNumber p = b_seatNumber b /\
    p_bookingReference p = b_bookingReference b.

(** The token check outcome a request carries; [None] for the routes that
    are not behind [verifyJWT]. *)
Definition requester (r : Request) : option (option string) :=
  match r with
  | PostUser _ _ _ => None
  | PutUserProfile auth _ _ _ _ _ _ => Some auth
  | PostBookings auth _ _ _ _ => Some auth
  | PatchBookingStatus auth _ _ _ => Some auth
  | PostPayments auth _ _ _ _ _ => Some auth
  | GetUserTransactions auth => Some auth
  | DeleteBooking auth _ _ _ => Some auth
  | GetTicketsAll | GetTicketsLatest | GetTicketsAdvertisedHome => None
  | GetTicketById _ => None
  | PostTickets auth _ _ => Some auth
  | PatchTicket auth _ _ => Some auth
  | DeleteTicket auth _ => Some auth
  | PatchAdminVerify auth _ _ => Some auth
  | PatchAdminRole auth _ _ => Some auth
  | PatchAdminFraud auth _ => Some auth
  | PatchAdminAdvertise auth _ => Some auth
  end.

(** The routes behind [verifyADMIN]. *)
Definition admin_route (r : Request) : bool :=
  match r with
  | PatchAdminVerify _ _ _ | PatchAdminRole _ _ _ | PatchAdminFraud _ _
  | PatchAdminAdvertise _ _ => true
  | _ => false
  end.

(** The routes behind [verifyVENDOR]. *)
Definition vendor_route (r : Request) : bool :=
  match r with
  | PostTickets _ _ _ | PatchTicket _ _ _ | DeleteTicket _ _ => true
  | _ => false
  end.

(** The ticket a vendor request is aimed at. *)
Definition target_ticket (r : Request) : option ObjectId :=
  match r with
  | PatchTicket _ (Some tid) _ | DeleteTicket _ (Some tid) => Some tid
  | _ => None
  end.

(** The documents of a collection carry distinct [_id]s, all handed out
    before [n]. *)
Definition fresh_ids {A} (id : A -> ObjectId) (n : ObjectId) (l : list A) : Prop :=
  Forall (fun x => (id x < n)%nat) l /\ List.NoDup (List.map id l).

(** A second vendor signs in after the first has listed a ticket. *)
Definition rivals : Store :=
  run listed
    [PostUser (mkUserBody "other@x.io" (JStr "vendor") JUndef JUndef JUndef)
              "2026-01-01T09:50:00.000Z" "2026-01-01T09:50:00.000Z"].

(** The vendor deletes the ticket the customer has booked. *)
Definition orphaned : Store :=
  run booked [DeleteTicket (Some "vendor@x.io") (Some 1%nat)].

(** The body a vendor sends to publish and advertise a ticket of their own. *)
Definition selfPublish : list TicketSet :=
  [SetVerificationStatus (JStr "approved"); SetIsAdvertised (JBool true)].

(** ASCII lower-case letters. *)
Definition is_lower (c : ascii) : bool :=
  let n := nat_of_ascii c in ((97 <=? n)%nat && (n <=? 122)%nat)%bool.

(** ** Vendor reporting *)

(** [b.totalPrice || b.amount || 0]; the bookings this server writes carry no
    [amount] field. *)
Definition revenueOf (b : Booking) : Z :=
  match js_or (js_or (JNum (b_totalPrice b)) JUndef) (JNum 0) with
  | JNum z => z
  | _ => 0
  end.

(** [l.reduce((sum, b) => sum + f(b), 0)]. *)
Definition reduceSum {A} (f : A -> Z) (l : list A) : Z :=
  fold_left (fun sum b => js_add sum (f b)) l 0.

(** The sum of the magnitudes of the terms: while it is within the safe
    range no partial sum of [reduceSum] is rounded. *)
Definition magnitude {A} (f : A -> Z) (l : list A) : Z :=
  fold_right (fun b a => Z.abs (f b) + a) 0 l.

(** The body of [GET /vendor/revenue]. *)
Record Revenue : Type := mkRevenue {
  totalRevenue : Z;
  totalTicketsSold : Z;
  totalTicketsAdded : nat
}.

(** [{ticketId: {$in: ticketIds}, $or: [{status: "paid"},
    {bookingStatus: "confirmed"}]}]. *)
Definition paidBookingOf (ticketIds : list ObjectId) (b : Booking) : bool :=
  (existsb (fun i => bool_decide (b_ticketId b = i)) ticketIds && wasPaid b)%bool.

(** [ticketsCollection.find({vendorEmail: email})]. *)
Definition vendorTickets (email : string) (s : Store) : list Ticket :=
  List.filter (fun t => bool_decide (t_vendorEmail t = email)) (tickets s).

(** The bookings the report of [email] sums. *)
Definition paidBookings (email : string) (s : Store) : list Booking :=
  let ticketIds := List.map t_id (vendorTickets email s) in
  List.filter (paidBookingOf ticketIds) (bookings s).

(** [GET /vendor/revenue] for the requester [email]. *)
Definition vendorRevenue (email : string) (s : Store) : Revenue :=
  {| totalRevenue := reduceSum revenueOf (paidBookings email s);
     totalTicketsSold := reduceSum b_quantity (paidBookings email s);
     totalTicketsAdded := length (vendorTickets email s) |}.

(** ** Earlier revisions of the server ([src/unnamed]) *)

(** [POST /user] of [part_001] and [part_002]: the role computed from the
    body is written at every sign-in. *)
Definition postUser_overwriting (s : Store) (userData : UserBody)
    (t1 t2 : string) : Store * Response :=
  if bool_decide (ub_email userData = "") then (s, reply 400 "Email required")
  else
    let created_at := js_or (ub_created_at userData) (JStr t1) in
    let last_loggedIn := JStr t2 in
    let role := js_or (ub_role userData) (JStr "customer") in
    let query := byEmail (ub_email userData) in
    let update (u : User) : User :=
      mkUser (u_id u) (ub_email userData) (bson role)
             (set_field (u_name u) (ub_name userData))
             (u_phone u) (u_location u)
             (set_field (u_image u) (ub_image userData))
             (bson created_at) last_loggedIn (u_updated_at u) (u_isFraud u) in
    match findOne query (users s) with
    | Some _ =>
        (with_users s (updateOne query update (users s)),
         send (UpdateResult 1 None))
    | None =>
        let fresh := mkUser (nextId s) (ub_email userData) JUndef JUndef JUndef
                            JUndef JUndef JUndef JUndef JUndef JUndef in
        (bump (with_users s (users s ++ [update fresh])),
         send (UpdateResult 0 (Some (nextId s))))
    end.

(** [POST /user] of [part_000]: a new user is a customer whatever the body
    asks for; an existing user keeps the stored role. *)
Definition postUser_customer_first (s : Store) (userData : UserBody)
    (t1 t2 : string) : Store * Response :=
  if bool_decide (ub_email userData = "") then (s, reply 400 "Email required")
  else
    let created_at := js_or (ub_created_at userData) (JStr t1) in
    let last_loggedIn := JStr t2 in
    let query := byEmail (ub_email userData) in
    let existingUser := findOne query (users s) in
    let role := match existingUser with
                | None => JStr "customer"
                | Some u => u_role u
                end in
    let update (u : User) : User :=
      mkUser (u_id u) (ub_email userData) (bson role)
             (set_field (u_name u) (ub_name userData))
             (u_phone u) (u_location u)
             (set_field (u_image u) (ub_image userData))
             (bson created_at) last_loggedIn (u_updated_at u) (u_isFraud u) in
    match existingUser with
    | Some _ =>
        (with_users s (updateOne query update (users s)),
         send (UpdateResult 1 None))
    | None =>
        let fresh := mkUser (nextId s) (ub_email userData) JUndef JUndef JUndef
                            JUndef JUndef JUndef JUndef JUndef JUndef in
        (bump (with_users s (users s ++ [update fresh])),
         send (UpdateResult 0 (Some (nextId s))))
    end.

(** The booking document of [part_000] and [part_001]: no seat, no
    reference, a single [status] field. *)
Record LegacyBooking : Type := mkLegacyBooking {
  lb_id : ObjectId;
  lb_ticketId : ObjectId;
  lb_userEmail : string;
  lb_quantity : Z;
  lb_totalPrice : Z;
  lb_trip : Trip;
  lb_unitPrice : Z;
  lb_status : string;
  lb_createdAt : string
}.

(** The collections [POST /bookings] of those revisions works on. *)
Record LegacyStore : Type := mkLegacyStore {
  ls_tickets : list Ticket;
  ls_bookings : list LegacyBooking;
  ls_nextId : ObjectId
}.

(** [POST /bookings] of [part_000] and [part_001], with its stock check. *)
Definition createBooking_strict (s : LegacyStore) (auth : option string)
    (ticketId : RawId) (quantity : Z) (now : string)
  : LegacyStore * Response :=
  match auth with
  | None => (s, unauthorized)
  | Some email =>
      match ticketId with
      | None => (s, reply 400 "Invalid ticket ID")
      | Some tid =>
          match findOne (byTicketId tid) (ls_tickets s) with
          | None => (s, reply 404 "Ticket not found")
          | Some ticket =>
              if t_quantity ticket <? quantity then
                (s, reply 400 "Not enough tickets available")
              else
                let booking :=
                  {| lb_id := ls_nextId s;
                     lb_ticketId := tid;
                     lb_userEmail := email;
                     lb_quantity := quantity;
                     lb_totalPrice := js_mul (t_price ticket) quantity;
                     lb_trip := t_trip ticket;
                     lb_unitPrice := t_price ticket;
                     lb_status := "pending";
                     lb_createdAt := now |} in
                (mkLegacyStore (ls_tickets s) (ls_bookings s ++ [booking])
                               (S (ls_nextId s)),
                 send (InsertResult (ls_nextId s)))
          end
      end
  end.

(** After the customer's cancellation another customer books the same seat. *)
Definition rebooked : Store :=
  run cancelled [PostBookings (Some "bob@x.io") (Some 1%nat) 1 (JStr "12A") env0].

(** A vendor lists a ticket of price 94906267 with [2^53] places. *)
Definition vastBody : TicketBody :=
  mkTicketBody dhakaTrip (JStr "Bus") JUndef 94906267 9007199254740992 JUndef.

Definition vast : Store :=
  run emptyStore
    [PostUser vendorBody "2026-01-01T09:00:00.000Z" "2026-01-01T09:00:00.000Z";
     PostTickets (Some "vendor@x.io") vastBody "2026-01-01T09:30:00.000Z"].

(** A customer books one place and the booking is accepted. *)
Definition vastAccepted : Store :=
  run vast
    [PostBookings (Some "ann@x.io") (Some 1%nat) 1 (JStr "1A") env0;
     PatchBookingStatus (Some "vendor@x.io") (Some 2%nat) "accepted"
                        "2026-01-02T07:00:00.000Z"].



(** * Proofs *)

(** ** Numbers *)

Lemma round53_safe z : safe z -> round53 z = z.
Proof.
  unfold safe, round53. intros H.
  destruct (Z.ltb_spec (Z.abs z) (2 ^ 53)) as [|Hge]; [reflexivity|].
  assert (Z.abs z = 2 ^ 53) as E by lia.
  destruct (Z.abs_eq_or_opp z) as [Ez|Ez]; rewrite Ez in E.
  - rewrite E. reflexivity.
  - assert (z = - 2 ^ 53) as -> by lia. reflexivity.
Qed.

Lemma js_add_safe x y : safe (x + y) -> js_add x y = x + y.
Proof. apply round53_safe. Qed.

Lemma js_mul_safe x y : safe (x * y) -> js_mul x y = x * y.
Proof. apply round53_safe. Qed.

(** Rounding a positive integer moves it by at most half a unit in the last
    place, which is at most the [2^53]rd part of it. *)
Lemma round53_bounds a :
  0 <= a -> 0 <= round53 a /\ round53 a * 2 ^ 53 <= a * (2 ^ 53 + 1).
Proof.
  intros Ha. unfold round53. rewrite (Z.abs_eq a Ha).
  destruct (Z.ltb_spec a (2 ^ 53)) as [Hlt|Hge]; [lia|].
  assert (0 < a) as Hpos by lia.
  destruct (Z.log2_spec a Hpos) as [Hlo Hhi].
  assert (53 <= Z.log2 a) as HL.
  { apply Z.log2_le_pow2; lia. }
  set (e := Z.log2 a - 52) in *.
  assert (1 <= e) as He by lia.
  rewrite (Z.sgn_pos a Hpos), Z.mul_1_l.
  rewrite !Z.shiftr_div_pow2, !Z.shiftl_mul_pow2 by lia.
  rewrite Z.mul_1_l.
  assert (0 < 2 ^ e) as Hpe by (apply Z.pow_pos_nonneg; lia).
  assert (2 ^ e = 2 * 2 ^ (e - 1)) as Ehalf.
  { replace e with (1 + (e - 1)) at 1 by lia. rewrite Z.pow_add_r by lia. reflexivity. }
  assert (2 ^ (e - 1) * 2 ^ 53 = 2 ^ Z.log2 a) as Etop.
  { rewrite <- Z.pow_add_r by lia. f_equal. lia. }
  pose proof (Z.div_mod a (2 ^ e) ltac:(lia)) as Hdm.
  pose proof (Z.mod_pos_bound a (2 ^ e) Hpe) as Hm.
  assert (0 <= a / 2 ^ e) as Hq by (apply Z.div_pos; lia).
  set (q := a / 2 ^ e) in *. set (h := 2 ^ (e - 1)) in *.
  set (p53 := 2 ^ 53) in *. set (pe := 2 ^ e) in *. set (m := a mod pe) in *.
  assert (a - q * pe = m) as -> by lia.
  destruct (Z.ltb_spec m h); [nia|].
  destruct (Z.ltb_spec h m); [nia|].
  destruct (Z.even q); nia.
Qed.

(** ** Collections *)

Section CollectionFacts.
Context {A : Type}.
Implicit Types (q p : A -> bool) (u : A -> A) (l : list A).

Lemma findOne_Some q l x : findOne q l = Some x -> In x l /\ q x = true.
Proof. apply List.find_some. Qed.

Lemma findOne_app q l1 l2 :
  findOne q (l1 ++ l2) =
  match findOne q l1 with Some x => Some x | None => findOne q l2 end.
Proof.
  unfold findOne. induction l1 as [|x l1 IH]; simpl; [done|].
  destruct (q x); auto.
Qed.

Lemma findOne_none_iff q l :
  findOne q l = None <-> Forall (fun x => q x = false) l.
Proof.
  unfold findOne. induction l as [|x l IH]; simpl.
  - split; auto.
  - destruct (q x) eqn:E; split; intros H.
    + discriminate.
    + inversion H; congruence.
    + constructor; [done | by apply IH].
    + inversion H; by apply IH.
Qed.

Lemma updateOne_split q l b :
  findOne q l = Some b ->
  exists l1 l2, l = l1 ++ b :: l2 /\ Forall (fun x => q x = false) l1 /\
                q b = true /\ forall u, updateOne q u l = l1 ++ u b :: l2.
Proof.
  unfold findOne. induction l as [|x l IH]; simpl; [done|].
  destruct (q x) eqn:E.
  - intros [= ->]. exists [], l.
    split; [done|]. split; [constructor|]. split; [done|].
    done.
  - intros H. destruct (IH H) as (l1 & l2 & -> & F & Q & U).
    exists (x :: l1), l2.
    split; [done|]. split; [by constructor|]. split; [done|].
    intros u. simpl. by rewrite U.
Qed.

Lemma updateOne_miss q u l : findOne q l = None -> updateOne q u l = l.
Proof.
  unfold findOne. induction l as [|x l IH]; simpl; [done|].
  destruct (q x); [done|]. intros H. by rewrite IH.
Qed.

Lemma findOne_updateOne_same q u l :
  (forall x, q x = true -> q (u x) = true) ->
  findOne q (updateOne q u l) = option_map u (findOne q l).
Proof.
  intros Hq. unfold findOne. induction l as [|x l IH]; simpl; [done|].
  destruct (q x) eqn:E; simpl.
  - by rewrite (Hq _ E).
  - by rewrite E.
Qed.

Lemma findOne_updateOne_other p q u l :
  (forall x, p (u x) = p x) ->
  (forall x, q x = true -> p x = false) ->
  findOne p (updateOne q u l) = findOne p l.
Proof.
  intros Hp Hpq. unfold findOne. induction l as [|x l IH]; simpl; [done|].
  destruct (q x) eqn:E; simpl.
  - by rewrite Hp, (Hpq _ E).
  - by rewrite IH.
Qed.

Lemma length_updateOne q u l : length (updateOne q u l) = length l.
Proof.
  induction l as [|x l IH]; simpl; [done|]. destruct (q x); simpl; auto.
Qed.

Lemma map_updateOne {B} (f : A -> B) q u l :
  (forall x, f (u x) = f x) -> List.map f (updateOne q u l) = List.map f l.
Proof.
  intros Hf. induction l as [|x l IH]; simpl; [done|].
  destruct (q x); simpl; by rewrite ?Hf, ?IH.
Qed.

Lemma Forall_updateOne (P : A -> Prop) q u l :
  (forall x, P x -> P (u x)) -> Forall P l -> Forall P (updateOne q u l).
Proof.
  intros Hu. induction 1 as [|x l Hx Hl IH]; simpl; [constructor|].
  destruct (q x); constructor; auto.
Qed.

Lemma countDocuments_app p l1 l2 :
  countDocuments p (l1 ++ l2) = (countDocuments p l1 + countDocuments p l2)%nat.
Proof. unfold countDocuments. by rewrite List.filter_app, length_app. Qed.

Lemma countDocuments_cons p x l :
  countDocuments p (x :: l) =
  ((if p x then 1 else 0) + countDocuments p l)%nat.
Proof. unfold countDocuments. simpl. by destruct (p x). Qed.

Lemma countDocuments_zero p l :
  countDocuments p l = 0%nat <-> existsb p l = false.
Proof.
  induction l as [|x l IH]; [done|].
  rewrite countDocuments_cons. simpl. destruct (p x); simpl; [done|]. apply IH.
Qed.

(** Rewriting one document changes a count by at most one. *)
Lemma countDocuments_updateOne_le p q u l :
  (countDocuments p (updateOne q u l) <= S (countDocuments p l))%nat.
Proof.
  induction l as [|x l IH]; simpl; [unfold countDocuments; simpl; lia|].
  destruct (q x); rewrite !countDocuments_cons.
  - destruct (p (u x)), (p x); lia.
  - destruct (p x); lia.
Qed.

(** Rewriting a document into one that is not counted cannot raise a count. *)
Lemma countDocuments_updateOne_off p q u l :
  (forall x, p (u x) = false) ->
  (countDocuments p (updateOne q u l) <= countDocuments p l)%nat.
Proof.
  intros Hu. induction l as [|x l IH]; simpl; [done|].
  destruct (q x); rewrite !countDocuments_cons.
  - rewrite Hu. destruct (p x); lia.
  - destruct (p x); lia.
Qed.

End CollectionFacts.

(** ** The unique index *)

Lemma activeOn_own d : activeOn (b_ticketId d) (b_seatNumber d) d = active d.
Proof.
  unfold activeOn. rewrite !bool_decide_eq_true_2 by done.
  by rewrite !andb_true_r.
Qed.

Lemma activeOn_inv T S b :
  activeOn T S b = true ->
  active b = true /\ b_ticketId b = T /\ b_seatNumber b = S.
Proof.
  unfold activeOn. rewrite !andb_true_iff, !bool_decide_eq_true. tauto.
Qed.

Lemma insertBooking_inr d l l' :
  insertBooking d l = inr l' ->
  l' = l ++ [d] /\ duplicate_key d l = false.
Proof.
  unfold insertBooking. destruct (duplicate_key d l); [done|].
  by intros [= <-].
Qed.

Lemma insertBooking_seats d l l' :
  seats_ok l -> insertBooking d l = inr l' -> seats_ok l'.
Proof.
  intros Hl Hins T S. apply insertBooking_inr in Hins as [-> Hdup].
  rewrite countDocuments_app, countDocuments_cons.
  unfold countDocuments at 2; simpl.
  destruct (activeOn T S d) eqn:E; [|specialize (Hl T S); lia].
  apply activeOn_inv in E as (Ha & <- & <-).
  unfold duplicate_key in Hdup. rewrite Ha in Hdup. simpl in Hdup.
  apply countDocuments_zero in Hdup. lia.
Qed.

Lemma filter_all {A} (f : A -> bool) (l : list A) :
  Forall (fun x => f x = true) l -> List.filter f l = l.
Proof.
  induction 1 as [|x l Hx Hl IH]; simpl; [done|]. by rewrite Hx, IH.
Qed.

(** With distinct [_id]s the document found by id is the only one with it. *)
Lemma split_by_id id l b :
  List.NoDup (List.map b_id l) ->
  findOne (byBookingId id) l = Some b ->
  exists l1 l2,
    l = l1 ++ b :: l2 /\ b_id b = id /\
    List.filter (fun x => negb (byBookingId id x)) l = l1 ++ l2 /\
    forall u, updateOne (byBookingId id) u l = l1 ++ u b :: l2.
Proof.
  intros Hnd Hf.
  destruct (updateOne_split _ _ _ Hf) as (l1 & l2 & -> & F1 & Hb & Hu).
  exists l1, l2. unfold byBookingId in Hb. apply bool_decide_eq_true in Hb.
  split; [done|]. split; [done|]. split; [|done].
  rewrite List.filter_app. simpl.
  replace (byBookingId id b) with true
    by (symmetry; by apply bool_decide_eq_true_2).
  simpl.
  rewrite List.map_app in Hnd. simpl in Hnd.
  apply List.NoDup_remove_2 in Hnd.
  f_equal; apply filter_all, List.Forall_forall; intros x Hx.
  - rewrite List.Forall_forall in F1. by rewrite (F1 x Hx).
  - unfold byBookingId. apply negb_true_iff, bool_decide_eq_false. intros E.
    apply Hnd, in_or_app. right. rewrite Hb, <- E. by apply List.in_map.
Qed.

Lemma updateBooking_cases id u l :
  match findOne (byBookingId id) l with
  | None => updateBooking id u l = inr l
  | Some b =>
      if duplicate_key (u b) (List.filter (fun x => negb (byBookingId id x)) l)
      then updateBooking id u l = inl (MongoServerError 11000%N)
      else updateBooking id u l = inr (updateOne (byBookingId id) u l)
  end.
Proof. unfold updateBooking. repeat case_match; done. Qed.

Lemma updateBooking_seats id u l l' :
  List.NoDup (List.map b_id l) -> seats_ok l ->
  updateBooking id u l = inr l' -> seats_ok l'.
Proof.
  intros Hnd Hl Hup. pose proof (updateBooking_cases id u l) as Hc.
  destruct (findOne (byBookingId id) l) as [b|] eqn:Hf.
  2:{ rewrite Hc in Hup. by injection Hup as <-. }
  destruct (split_by_id _ _ _ Hnd Hf) as (l1 & l2 & El & Eid & Efil & Eup).
  rewrite Efil in Hc.
  destruct (duplicate_key (u b) (l1 ++ l2)) eqn:Hdup; rewrite Hc in Hup; [done|].
  injection Hup as <-. rewrite Eup. intros T S.
  specialize (Hl T S). rewrite El in Hl.
  rewrite countDocuments_app, countDocuments_cons in Hl |- *.
  destruct (activeOn T S (u b)) eqn:E; [|destruct (activeOn T S b); lia].
  apply activeOn_inv in E as (Ha & <- & <-).
  unfold duplicate_key in Hdup. rewrite Ha in Hdup. simpl in Hdup.
  apply countDocuments_zero in Hdup. rewrite countDocuments_app in Hdup. lia.
Qed.

Lemma updateBooking_ids id u l l' :
  (forall x, b_id (u x) = b_id x) ->
  updateBooking id u l = inr l' -> List.map b_id l' = List.map b_id l.
Proof.
  intros Hu Hup. pose proof (updateBooking_cases id u l) as Hc.
  repeat case_match; rewrite Hc in Hup; try done; injection Hup as <-; [|done].
  by apply map_updateOne.
Qed.

Lemma updateBooking_Forall (P : Booking -> Prop) id u l l' :
  (forall x, P x -> P (u x)) -> Forall P l ->
  updateBooking id u l = inr l' -> Forall P l'.
Proof.
  intros Hu Hl Hup. pose proof (updateBooking_cases id u l) as Hc.
  repeat case_match; rewrite Hc in Hup; try done; injection Hup as <-; [|done].
  by apply Forall_updateOne.
Qed.

(** An update that takes its document out of the index never fails. *)
Lemma updateBooking_inactive id u l :
  (forall x, active (u x) = false) ->
  updateBooking id u l = inr (updateOne (byBookingId id) u l).
Proof.
  intros Hu. pose proof (updateBooking_cases id u l) as Hc.
  destruct (findOne (byBookingId id) l) as [b|] eqn:Hf.
  - unfold duplicate_key in Hc. by rewrite Hu in Hc.
  - by rewrite updateOne_miss.
Qed.

(** ** The store invariant *)

Lemma bson_defined v : bson v <> JUndef.
Proof. by destruct v. Qed.

Lemma Inv_empty : Inv emptyStore.
Proof.
  constructor; simpl.
  - constructor.
  - constructor.
  - intros T S. unfold countDocuments. simpl. lia.
  - constructor.
  - constructor.
Qed.

(** A step that leaves bookings and user roles alone keeps the invariant. *)
Lemma Inv_frame s s' :
  bookings s' = bookings s -> Forall (fun u => u_role u <> JUndef) (users s') ->
  (nextId s <= nextId s')%nat -> Inv s -> Inv s'.
Proof.
  intros Eb Hu Hn [F N Se C R]. constructor; unfold no_double_booking;
    rewrite ?Eb; auto.
  eapply Forall_impl; [exact F|]. simpl. intros; lia.
Qed.

Lemma Inv_bookings s s' :
  users s' = users s -> (nextId s <= nextId s')%nat ->
  List.map b_id (bookings s') = List.map b_id (bookings s) ->
  seats_ok (bookings s') -> Forall consistent (bookings s') ->
  Inv s -> Inv s'.
Proof.
  intros Eu Hn Eid Hs Hc [F N Se C R].
  constructor; unfold no_double_booking; rewrite ?Eu, ?Eid; auto.
  apply List.Forall_forall. intros b Hb.
  assert (In (b_id b) (List.map b_id (bookings s))) as Hin
    by (rewrite <- Eid; by apply List.in_map).
  apply List.in_map_iff in Hin as (b0 & E0 & Hb0).
  rewrite List.Forall_forall in F. specialize (F _ Hb0). lia.
Qed.

Lemma users_updateOne_roles q u l :
  (forall x, u_role x <> JUndef -> u_role (u x) <> JUndef) ->
  Forall (fun x => u_role x <> JUndef) l ->
  Forall (fun x => u_role x <> JUndef) (updateOne q u l).
Proof. intros. by apply Forall_updateOne. Qed.

Lemma postUser_Inv s userData t1 t2 :
  Inv s -> Inv (postUser s userData t1 t2).1.
Proof.
  intros H. unfold postUser.
  case_bool_decide; [done|].
  destruct (findOne _ (users s)) eqn:Hf; simpl.
  - apply (Inv_frame s); [done| |done|done]. simpl.
    apply Forall_updateOne; [|apply H]. intros; simpl. apply bson_defined.
  - apply (Inv_frame s); [done| |simpl; lia|done]. simpl.
    apply Forall_app. split; [apply H|].
    constructor; [|constructor]. simpl. apply bson_defined.
Qed.

Lemma putUserProfile_Inv s auth name phone location file imageURL t :
  Inv s -> Inv (putUserProfile s auth name phone location file imageURL t).1.
Proof.
  intros H. unfold putUserProfile.
  repeat case_match; simpl; try done.
  all: apply (Inv_frame s); [done| |done|done]; simpl.
  all: apply Forall_updateOne; [|apply H]; by intros.
Qed.

Lemma consistent_setStatus st t b : consistent (setStatus st (statusMap st) t b).
Proof. done. Qed.

Lemma createBooking_Inv s auth ticketId quantity seatNumber env :
  Inv s -> Inv (createBooking s auth ticketId quantity seatNumber env).1.
Proof.
  intros H. unfold createBooking.
  destruct auth as [email|]; [|done].
  destruct ticketId as [tid|]; [|done].
  destruct (findOne _ (tickets s)) as [ticket|]; [|done].
  destruct (ticketTypeOf ticket) as [e|ty];
    [destruct e; repeat case_match; done|].
  destruct (insertBooking _ _) as [e|l] eqn:Hins.
  { destruct e as [c|]; [|done]. repeat case_match; done. }
  simpl. pose proof Hins as Hins'.
  apply insertBooking_inr in Hins' as [-> _].
  destruct H as [F N Se C R]. constructor; simpl; auto.
  - apply Forall_app. split.
    + eapply Forall_impl; [exact F|]. simpl. intros; lia.
    + constructor; [simpl; lia|constructor].
  - rewrite List.map_app. simpl.
    apply List.NoDup_app; [done|repeat constructor; by intros []|].
    intros i Hi [<-|[]]. apply List.in_map_iff in Hi as (b & E & Hb).
    rewrite List.Forall_forall in F. specialize (F _ Hb). simpl in E. lia.
  - unfold no_double_booking. simpl. eapply insertBooking_seats; eauto.
  - apply Forall_app. split; [done|]. by repeat constructor.
Qed.

Lemma updateBookingStatus_Inv s auth id status t :
  Inv s -> Inv (updateBookingStatus s auth id status t).1.
Proof.
  intros H. unfold updateBookingStatus.
  destruct auth; [|done]. destruct id as [bid|]; [|done].
  destruct (parseStatus status) as [st|]; [|done].
  destruct (updateBooking _ _ _) as [e|l] eqn:Hup; [done|]. simpl.
  apply (Inv_bookings s); [done|done| | | |done]; simpl.
  - by eapply updateBooking_ids; [|exact Hup].
  - eapply updateBooking_seats; [apply H|apply H|exact Hup].
  - eapply updateBooking_Forall; [|apply H|exact Hup].
    intros. apply consistent_setStatus.
Qed.

Lemma recordPayment_Inv s auth bookingId transactionId amount paymentMethod d :
  Inv s ->
  Inv (recordPayment s auth bookingId transactionId amount paymentMethod d).1.
Proof.
  intros H. unfold recordPayment.
  destruct auth as [email|]; [|done].
  destruct bookingId as [bid|]; [|done].
  destruct (findOne _ (bookings s)) as [booking|]; [|done].
  case_bool_decide; [done|].
  destruct (negb _); [done|].
  simpl. destruct (updateBooking _ _ _) as [e|l] eqn:Hup; simpl.
  - apply (Inv_frame s); [done|apply H|simpl; lia|done].
  - apply (Inv_bookings s); [done|simpl; lia| | | |done]; simpl.
    + by eapply updateBooking_ids; [|exact Hup].
    + eapply updateBooking_seats; [apply H|apply H|exact Hup].
    + by eapply updateBooking_Forall; [|apply H|exact Hup].
Qed.

Lemma cancelBooking_Inv s auth id t1 t2 :
  Inv s -> Inv (cancelBooking s auth id t1 t2).1.
Proof.
  intros H. unfold cancelBooking.
  destruct auth as [email|]; [|done].
  destruct id as [bid|]; [|done].
  destruct (findOne _ (bookings s)) as [booking|]; [|done].
  destruct (negb _); [done|].
  destruct (updateBooking _ _ _) as [e|l] eqn:Hup; [done|].
  destruct (wasPaid booking); simpl;
    (apply (Inv_bookings s); simpl;
     [ done | done
     | by eapply updateBooking_ids; [|exact Hup]
     | eapply updateBooking_seats; [apply H|apply H|exact Hup]
     | by eapply updateBooking_Forall; [|apply H|exact Hup]
     | done ]).
Qed.

(** Every request keeps the invariant. *)
Lemma handle_Inv s r : Inv s -> Inv (handle s r).1.
Proof.
  intros H. destruct r; simpl.
  - by apply postUser_Inv.
  - by apply putUserProfile_Inv.
  - by apply createBooking_Inv.
  - by apply updateBookingStatus_Inv.
  - by apply recordPayment_Inv.
  - unfold getUserTransactions. by destruct auth.
  - by apply cancelBooking_Inv.
  - done.
  - done.
  - done.
  - unfold ticketById. by repeat case_match.
  - unfold postTicket, verifyVENDOR. repeat case_match; simpl; try done.
    all: apply (Inv_frame s); [done|apply H|simpl; lia|done].
  - unfold patchTicket, verifyVENDOR. repeat case_match; simpl; try done.
    all: apply (Inv_frame s); [done|apply H|simpl; lia|done].
  - unfold deleteTicket, verifyVENDOR. repeat case_match; simpl; try done.
    all: apply (Inv_frame s); [done|apply H|simpl; lia|done].
  - unfold adminVerifyTicket, verifyADMIN. repeat case_match; simpl; try done.
    all: apply (Inv_frame s); [done|apply H|simpl; lia|done].
  - unfold adminSetRole, verifyADMIN. repeat case_match; simpl; try done.
    all: apply (Inv_frame s); [done| |done|done]; simpl.
    all: apply Forall_updateOne; [done|apply H].
  - unfold adminMarkFraud, verifyADMIN. repeat case_match; simpl; try done.
    all: apply (Inv_frame s); [done| |done|done]; simpl.
    all: apply Forall_updateOne; [done|apply H].
  - unfold toggleAdvertise, verifyADMIN. repeat case_match; simpl; try done.
    all: apply (Inv_frame s); [done|apply H|simpl; lia|done].
Qed.

Lemma run_Inv rs : forall s, Inv s -> Inv (run s rs).
Proof.
  unfold run. induction rs as [|r rs IH]; simpl; [done|].
  intros s H. by apply IH, handle_Inv.
Qed.

Lemma reachable_Inv s : reachable s -> Inv s.
Proof. induction 1; [apply Inv_empty | by apply handle_Inv]. Qed.

Lemma reachable_run rs : forall s, reachable s -> reachable (run s rs).
Proof.
  unfold run. induction rs as [|r rs IH]; simpl; [done|].
  intros s H. apply IH. by constructor.
Qed.

(** ** Seat uniqueness (C1) *)

Lemma existsb_In {A} (p : A -> bool) (l : list A) x :
  In x l -> p x = true -> existsb p l = true.
Proof. intros. apply existsb_exists. eauto. Qed.

Lemma active_newBooking id tid ticket email q seat ty env :
  active (newBooking id tid ticket email q seat ty env) = true.
Proof. done. Qed.

(** The insert of [POST /bookings] once the ticket has been resolved. *)
Lemma createBooking_resolved s email tid ticket ty quantity seatNumber env :
  lookupTicket tid s = Some ticket -> ticketTypeOf ticket = inr ty ->
  createBooking s (Some email) (Some tid) quantity seatNumber env =
  if existsb (activeOn tid (seatOf seatNumber env)) (bookings s)
  then (s, reply 409 "Seat already booked. Please select another seat.")
  else (bump (with_bookings s
                (bookings s ++
                 [newBooking (nextId s) tid ticket email quantity seatNumber ty env])),
        mkResponse 201 (InsertResult (nextId s))).
Proof.
  unfold lookupTicket, createBooking. intros -> ->.
  unfold insertBooking, duplicate_key. rewrite active_newBooking. simpl.
  by destruct (existsb _ _).
Qed.

Lemma createBooking_conflict s email tid ticket ty quantity seatNumber env b :
  lookupTicket tid s = Some ticket -> ticketTypeOf ticket = inr ty ->
  In b (bookings s) -> activeOn tid (seatOf seatNumber env) b = true ->
  createBooking s (Some email) (Some tid) quantity seatNumber env =
  (s, reply 409 "Seat already booked. Please select another seat.").
Proof.
  intros Ht Hty Hb Ha. rewrite (createBooking_resolved _ _ _ _ _ _ _ _ Ht Hty).
  by rewrite (existsb_In _ _ _ Hb Ha).
Qed.

Lemma inactive_markCancelled t1 t2 b : active (markCancelled t1 t2 b) = false.
Proof. done. Qed.

(** The effect of an authorised cancellation. *)
Lemma cancelBooking_owner s bid b t1 t2 :
  bookingById bid s = Some b ->
  cancelBooking s (Some (b_userEmail b)) (Some bid) t1 t2 =
  (let s1 := with_bookings s
               (updateOne (byBookingId bid) (markCancelled t1 t2) (bookings s)) in
   if wasPaid b
   then with_tickets s1
          (updateOne (byTicketId (b_ticketId b)) (incQuantity (b_quantity b))
                     (tickets s))
   else s1,
   mkResponse 200 (SuccessMessage "Booking cancelled successfully")).
Proof.
  unfold bookingById, cancelBooking. intros ->.
  rewrite bool_decide_eq_true_2 by done. simpl.
  rewrite updateBooking_inactive by apply inactive_markCancelled.
  by destruct (wasPaid b).
Qed.

Lemma bookings_cancelBooking s bid b t1 t2 :
  bookingById bid s = Some b ->
  bookings (cancelBooking s (Some (b_userEmail b)) (Some bid) t1 t2).1 =
  updateOne (byBookingId bid) (markCancelled t1 t2) (bookings s).
Proof.
  intros Hb. rewrite (cancelBooking_owner _ _ _ _ _ Hb). simpl.
  by destruct (wasPaid b).
Qed.

(** Cancelling the holder of a seat leaves no active booking on it. *)
Lemma cancel_frees_seat s bid b t1 t2 :
  Inv s -> bookingById bid s = Some b -> active b = true ->
  existsb (activeOn (b_ticketId b) (b_seatNumber b))
          (bookings (cancelBooking s (Some (b_userEmail b)) (Some bid) t1 t2).1)
  = false.
Proof.
  intros H Hb Ha. rewrite (bookings_cancelBooking _ _ _ _ _ Hb).
  apply countDocuments_zero.
  destruct (split_by_id _ _ _ (inv_nodup _ H) Hb) as (l1 & l2 & El & _ & _ & Eup).
  rewrite Eup. pose proof (inv_seats _ H (b_ticketId b) (b_seatNumber b)) as Hc.
  rewrite El in Hc.
  rewrite countDocuments_app, countDocuments_cons in Hc |- *.
  rewrite activeOn_own, Ha in Hc.
  replace (activeOn _ _ (markCancelled t1 t2 b)) with false by done. lia.
Qed.

(** C1 (anti-double-booking).  In every store the server can reach, each
    ticket seat carries at most one booking whose [bookingStatus] is pending
    or confirmed.  A [POST /bookings] for a ticket seat that an active booking
    already holds is answered 409 "Seat already booked" and returns the store
    unchanged (it is not the generic 500).  After the owner cancels the
    booking that holds a seat, no active booking is left on that seat and a
    new booking of the same ticket seat is inserted (201). *)
Theorem C1_anti_double_booking :
  (forall s, reachable s -> no_double_booking s) /\
  (forall s email tid ticket ty quantity seatNumber env b,
     lookupTicket tid s = Some ticket -> ticketTypeOf ticket = inr ty ->
     In b (bookings s) -> activeOn tid (seatOf seatNumber env) b = true ->
     createBooking s (Some email) (Some tid) quantity seatNumber env =
     (s, reply 409 "Seat already booked. Please select another seat.")) /\
  (forall s bid b t1 t2,
     reachable s -> bookingById bid s = Some b -> active b = true ->
     let s' := (cancelBooking s (Some (b_userEmail b)) (Some bid) t1 t2).1 in
     option_map b_bookingStatus (bookingById bid s') = Some Cancelled /\
     countDocuments (activeOn (b_ticketId b) (b_seatNumber b)) (bookings s') = 0%nat /\
     forall email ticket ty quantity seatNumber env,
       lookupTicket (b_ticketId b) s' = Some ticket ->
       ticketTypeOf ticket = inr ty ->
       seatOf seatNumber env = b_seatNumber b ->
       createBooking s' (Some email) (Some (b_ticketId b)) quantity seatNumber env =
       (bump (with_bookings s'
                (bookings s' ++
                 [newBooking (nextId s') (b_ticketId b) ticket email quantity
                             seatNumber ty env])),
        mkResponse 201 (InsertResult (nextId s')))).
Proof.
  split; [|split].
  - intros s Hs. apply reachable_Inv in Hs. apply Hs.
  - apply createBooking_conflict.
  - intros s bid b t1 t2 Hs Hb Ha s'. apply reachable_Inv in Hs.
    pose proof (cancel_frees_seat _ _ _ t1 t2 Hs Hb Ha) as Hfree. fold s' in Hfree.
    split; [|split].
    + unfold bookingById, s'. rewrite (bookings_cancelBooking _ _ _ _ _ Hb).
      rewrite findOne_updateOne_same by done.
      unfold bookingById in Hb. by rewrite Hb.
    + by apply countDocuments_zero.
    + intros email ticket ty quantity seatNumber env Ht Hty Hseat.
      rewrite (createBooking_resolved _ _ _ _ _ _ _ _ Ht Hty).
      by rewrite Hseat, Hfree.
Qed.

Lemma reachable_listed : reachable listed.
Proof. apply reachable_run. constructor. Qed.

Lemma reachable_booked : reachable booked.
Proof. apply reachable_run, reachable_listed. Qed.

Lemma reachable_settled : reachable settled.
Proof. apply reachable_run, reachable_booked. Qed.

Lemma reachable_cancelled : reachable cancelled.
Proof. apply reachable_run, reachable_booked. Qed.

(** The C1 statement at the worked scenario: seat 12A of the listed ticket is
    booked once; a second request for it is refused with 409; after the
    customer cancels, the same seat is booked again. *)
Lemma C1_witness :
  no_double_booking booked /\
  createBooking booked (Some "bob@x.io") (Some 1%nat) 1 (JStr "12A") env0 =
    (booked, reply 409 "Seat already booked. Please select another seat.") /\
  (createBooking cancelled (Some "bob@x.io") (Some 1%nat) 1 (JStr "12A") env0).2 =
    mkResponse 201 (InsertResult 3%nat).
Proof.
  destruct C1_anti_double_booking as (Hinv & Hconf & Hfree).
  split; [|split].
  - apply Hinv, reachable_booked.
  - eapply (Hconf booked); [reflexivity | reflexivity | left; reflexivity | reflexivity].
  - destruct (Hfree booked 2%nat _ "2026-01-02T08:00:00.000Z"
                     "2026-01-02T08:00:00.001Z" reachable_booked eq_refl eq_refl)
      as (_ & _ & Hnew).
    pose proof (f_equal snd
                  (Hnew "bob@x.io" _ "bus" 1 (JStr "12A") env0
                        eq_refl eq_refl eq_refl)) as X.
    vm_compute in X. vm_compute. exact X.
Defined.

(** ** Recording a payment (C2, C3) *)

Lemma existsb_filter {A} (p f : A -> bool) (l : list A) :
  existsb p (List.filter f l) = existsb (fun x => p x && f x)%bool l.
Proof.
  induction l as [|x l IH]; simpl; [done|].
  destruct (f x); simpl; rewrite IH; [by rewrite andb_true_r|].
  by rewrite andb_false_r.
Qed.

Lemma bookingById_id bid s b : bookingById bid s = Some b -> b_id b = bid.
Proof.
  intros H. apply findOne_Some in H as [_ H]. by apply bool_decide_eq_true in H.
Qed.

(** The index check of the settling update. *)
Lemma updateBooking_markPaid s bid b txn method d :
  bookingById bid s = Some b ->
  updateBooking bid (markPaid txn method d) (bookings s) =
  if seat_taken_by_other b s then inl (MongoServerError 11000%N)
  else inr (updateOne (byBookingId bid) (markPaid txn method d) (bookings s)).
Proof.
  intros Hb. pose proof (bookingById_id _ _ _ Hb) as Eid.
  unfold bookingById in Hb. unfold updateBooking. rewrite Hb.
  unfold duplicate_key, seat_taken_by_other. rewrite existsb_filter, Eid. done.
Qed.

(** In a store that satisfies the invariant the seat of an active booking is
    held by that booking alone. *)
Lemma active_not_taken s bid b :
  Inv s -> bookingById bid s = Some b -> active b = true ->
  seat_taken_by_other b s = false.
Proof.
  intros H Hb Ha. pose proof (bookingById_id _ _ _ Hb) as Eid.
  unfold seat_taken_by_other. rewrite <- existsb_filter, Eid.
  destruct (split_by_id _ _ _ (inv_nodup _ H) Hb) as (l1 & l2 & El & _ & Efil & _).
  rewrite Efil. apply countDocuments_zero.
  pose proof (inv_seats _ H (b_ticketId b) (b_seatNumber b)) as Hc.
  rewrite El in Hc.
  rewrite countDocuments_app, countDocuments_cons, activeOn_own, Ha in Hc.
  rewrite countDocuments_app. lia.
Qed.

Lemma recordPayment_paid s email bid b txn amount method d :
  bookingById bid s = Some b -> b_status b = StPaid ->
  recordPayment s (Some email) (Some bid) txn amount method d =
  (s, reply 400 "Booking already paid").
Proof.
  unfold bookingById, recordPayment. intros -> Hp.
  by rewrite bool_decide_eq_true_2.
Qed.

Lemma recordPayment_mismatch s email bid b txn amount method d :
  bookingById bid s = Some b -> b_status b <> StPaid ->
  amount <> JNum (b_totalPrice b) ->
  recordPayment s (Some email) (Some bid) txn amount method d =
  (s, reply 400 "Payment amount mismatch").
Proof.
  unfold bookingById, recordPayment, strict_eq. intros -> Hp Ha.
  by rewrite !bool_decide_eq_false_2.
Qed.

Lemma recordPayment_match s email bid b txn method d :
  bookingById bid s = Some b -> b_status b <> StPaid ->
  recordPayment s (Some email) (Some bid) txn (JNum (b_totalPrice b)) method d =
  if seat_taken_by_other b s
  then (bump (with_payments s
                (payments s ++
                 [newPayment (nextId s) email bid b txn (JNum (b_totalPrice b))
                             method d])),
        reply 500 "Server error")
  else (settle s email bid b txn (JNum (b_totalPrice b)) method d, send Success).
Proof.
  intros Hb Hp. pose proof (updateBooking_markPaid s bid b txn method d Hb) as Hu.
  unfold bookingById in Hb. unfold recordPayment, strict_eq. rewrite Hb.
  rewrite bool_decide_eq_false_2 by done.
  rewrite bool_decide_eq_true_2 by done. simpl.
  rewrite Hu. by destruct (seat_taken_by_other b s).
Qed.

Lemma lookupTicket_inc tid d s l u b p n :
  lookupTicket tid
    (mkStore (updateOne (byTicketId tid) (incQuantity d) (tickets s)) u b p n) = l ->
  option_map t_quantity l = option_map (fun q => js_add q d) (quantityOf tid s).
Proof.
  unfold quantityOf, lookupTicket. simpl. intros <-.
  rewrite findOne_updateOne_same by done.
  by destruct (findOne _ (tickets s)).
Qed.

Lemma quantityOf_settle s email bid b txn amount method d :
  quantityOf (b_ticketId b) (settle s email bid b txn amount method d) =
  option_map (fun q => js_add q (- b_quantity b)) (quantityOf (b_ticketId b) s).
Proof.
  unfold quantityOf at 1. by erewrite lookupTicket_inc.
Qed.

(** Within the safe range the settlement lowers the quantity by exactly the
    booking's quantity. *)
Lemma quantityOf_settle_safe s email bid b txn amount method d q :
  quantityOf (b_ticketId b) s = Some q -> safe (q - b_quantity b) ->
  quantityOf (b_ticketId b) (settle s email bid b txn amount method d) =
  Some (q - b_quantity b).
Proof.
  intros Eq Hsafe. rewrite quantityOf_settle, Eq. cbn [option_map].
  f_equal. apply js_add_safe.
  by replace (q + - b_quantity b) with (q - b_quantity b) by lia.
Qed.

Lemma bookingById_settle s email bid b txn amount method d :
  bookingById bid s = Some b ->
  bookingById bid (settle s email bid b txn amount method d) =
  Some (markPaid txn method d b).
Proof.
  unfold bookingById. simpl. intros Hb.
  rewrite findOne_updateOne_same by done. by rewrite Hb.
Qed.

(** C2 (price integrity).  For a booking that exists and is not yet paid,
    [POST /payments] with an amount different from the booking's [totalPrice]
    answers 400 "Payment amount mismatch" and returns the store as it was: no
    payment record, same booking, same ticket quantity.  With the amount
    equal to [totalPrice] the payment record is inserted, and, unless another
    active booking holds the booking's seat, the request succeeds, the
    booking is marked paid and the ticket quantity drops by the booking's
    quantity (the values being within the safe range, where the [$inc] is
    exact). *)
Theorem C2_price_integrity s email bid b txn amount method d :
  bookingById bid s = Some b -> b_status b <> StPaid ->
  (amount <> JNum (b_totalPrice b) ->
     recordPayment s (Some email) (Some bid) txn amount method d =
     (s, reply 400 "Payment amount mismatch")) /\
  (amount = JNum (b_totalPrice b) ->
     let r := recordPayment s (Some email) (Some bid) txn amount method d in
     payments r.1 =
       payments s ++ [newPayment (nextId s) email bid b txn amount method d] /\
     (seat_taken_by_other b s = false ->
        r.2 = send Success /\
        bookingById bid r.1 = Some (markPaid txn method d b) /\
        forall q,
          quantityOf (b_ticketId b) s = Some q ->
          safe q -> safe (b_quantity b) -> safe (q - b_quantity b) ->
          quantityOf (b_ticketId b) r.1 = Some (q - b_quantity b))).
Proof.
  intros Hb Hp. split.
  - by apply recordPayment_mismatch.
  - intros -> r. unfold r. rewrite (recordPayment_match _ _ _ _ _ _ _ Hb Hp).
    destruct (seat_taken_by_other b s); cbn [fst snd]; split; try done.
    intros _. split; [done|]. split; [by apply bookingById_settle|].
    intros q Eq _ _ Hsafe. by apply quantityOf_settle_safe.
Qed.

(** C2 at the worked scenario: the booking of total 40 refuses 39 and
    accepts 40. *)
Lemma C2_witness :
  recordPayment booked (Some "ann@x.io") (Some 2%nat) (JStr "tx_1") (JNum 39)
                JUndef "2026-01-02T08:00:00.000Z" =
    (booked, reply 400 "Payment amount mismatch") /\
  (recordPayment booked (Some "ann@x.io") (Some 2%nat) (JStr "tx_1") (JNum 40)
                 JUndef "2026-01-02T08:00:00.000Z").2 = send Success.
Proof.
  split.
  - refine (proj1 (C2_price_integrity booked "ann@x.io" 2%nat _ (JStr "tx_1")
                     (JNum 39) JUndef _ eq_refl _) _); [done|done].
  - refine (proj1 (proj2 (proj2 (C2_price_integrity booked "ann@x.io" 2%nat _
                     (JStr "tx_1") (JNum 40) JUndef _ eq_refl _) eq_refl) eq_refl));
      done.
Defined.

Lemma recordPayment_success s email bid txn amount method d :
  (recordPayment s (Some email) (Some bid) txn amount method d).2 = send Success ->
  exists b,
    bookingById bid s = Some b /\ b_status b <> StPaid /\
    amount = JNum (b_totalPrice b) /\ seat_taken_by_other b s = false /\
    (recordPayment s (Some email) (Some bid) txn amount method d).1 =
    settle s email bid b txn amount method d.
Proof.
  destruct (bookingById bid s) as [b|] eqn:Hb.
  2:{ unfold bookingById in Hb. unfold recordPayment. by rewrite Hb. }
  destruct (decide (b_status b = StPaid)) as [Hp|Hp].
  { by rewrite (recordPayment_paid _ _ _ _ _ _ _ _ Hb Hp). }
  destruct (decide (amount = JNum (b_totalPrice b))) as [->|Ha].
  2:{ by rewrite (recordPayment_mismatch _ _ _ _ _ _ _ _ Hb Hp Ha). }
  rewrite (recordPayment_match _ _ _ _ _ _ _ Hb Hp).
  destruct (seat_taken_by_other b s) eqn:Hs; [done|].
  intros _. by exists b.
Qed.

Lemma run_cons s r rs : run s (r :: rs) = run (handle s r).1 rs.
Proof. done. Qed.







(** ** Cancellation (C4) *)

Lemma bookingById_consistent s bid b :
  Inv s -> bookingById bid s = Some b -> consistent b.
Proof.
  intros H Hb. apply findOne_Some in Hb as [Hin _].
  pose proof (inv_status _ H) as Hc. rewrite List.Forall_forall in Hc. auto.
Qed.

(** In a store of the server the restoration guard reads the lifecycle
    status. *)
Lemma wasPaid_confirmed b :
  consistent b -> wasPaid b = bool_decide (b_bookingStatus b = Confirmed).
Proof.
  unfold consistent, wasPaid. intros ->. by destruct (b_status b).
Qed.

Lemma lookupTicket_other tid tid' f s l u b p n :
  tid' <> tid -> (forall t, t_id (f t) = t_id t) ->
  lookupTicket tid' (mkStore (updateOne (byTicketId tid) f (tickets s)) u b p n) = l ->
  l = lookupTicket tid' s.
Proof.
  unfold lookupTicket. simpl. intros Hne Hf <-.
  apply findOne_updateOne_other.
  - intros t. unfold byTicketId. by rewrite Hf.
  - intros t Ht. apply bool_decide_eq_true in Ht.
    apply bool_decide_eq_false. congruence.
Qed.

(** The claim of C4 fails at the edge of the number type.  In [vastAccepted]
    the ticket holds [2^53] places and a confirmed booking holds one: its
    cancellation succeeds and the [$inc] leaves the quantity at [2^53]. *)
Lemma C4_counterexample :
  option_map b_bookingStatus (bookingById 2%nat vastAccepted) = Some Confirmed /\
  option_map b_quantity (bookingById 2%nat vastAccepted) = Some 1 /\
  quantityOf 1%nat vastAccepted = Some 9007199254740992 /\
  (cancelBooking vastAccepted (Some "ann@x.io") (Some 2%nat) "t1" "t2").2 =
    mkResponse 200 (SuccessMessage "Booking cancelled successfully") /\
  quantityOf 1%nat
    (cancelBooking vastAccepted (Some "ann@x.io") (Some 2%nat) "t1" "t2").1 =
    Some 9007199254740992.
Proof. vm_compute. repeat split. Qed.

(** C4 (cancellation reconciliation), as amended.  When the owner of a
    booking cancels it, the request succeeds and the booking's [status] and
    [bookingStatus] become cancelled.  If the booking was paid or confirmed
    the quantity of the ticket it references grows by exactly the booking's
    quantity whenever the two and their sum are within the safe range, and
    no other ticket changes; if its lifecycle status was anything else
    (pending in particular) the tickets are untouched.  Cancelling the
    booking a second time succeeds again and leaves the tickets as they are:
    the restoration is decided on the status read before the update. *)
Theorem C4_cancellation_reconciliation s bid b t1 t2 :
  reachable s -> bookingById bid s = Some b ->
  let r := cancelBooking s (Some (b_userEmail b)) (Some bid) t1 t2 in
  r.2 = mkResponse 200 (SuccessMessage "Booking cancelled successfully") /\
  bookingById bid r.1 = Some (markCancelled t1 t2 b) /\
  b_status (markCancelled t1 t2 b) = StCancelled /\
  b_bookingStatus (markCancelled t1 t2 b) = Cancelled /\
  (b_status b = StPaid \/ b_bookingStatus b = Confirmed ->
     (forall q,
        quantityOf (b_ticketId b) s = Some q ->
        safe q -> safe (b_quantity b) -> safe (q + b_quantity b) ->
        quantityOf (b_ticketId b) r.1 = Some (q + b_quantity b)) /\
     forall tid, tid <> b_ticketId b -> lookupTicket tid r.1 = lookupTicket tid s) /\
  (b_bookingStatus b <> Confirmed -> tickets r.1 = tickets s) /\
  (forall t3 t4,
     let r' := cancelBooking r.1 (Some (b_userEmail b)) (Some bid) t3 t4 in
     r'.2 = mkResponse 200 (SuccessMessage "Booking cancelled successfully") /\
     tickets r'.1 = tickets r.1).
Proof.
  intros Hs Hb r. apply reachable_Inv in Hs.
  pose proof (bookingById_consistent _ _ _ Hs Hb) as Hc.
  assert (bookingById bid r.1 = Some (markCancelled t1 t2 b)) as Hb'.
  { unfold bookingById, r. rewrite (bookings_cancelBooking _ _ _ _ _ Hb).
    rewrite findOne_updateOne_same by done.
    unfold bookingById in Hb. by rewrite Hb. }
  unfold r in *. rewrite (cancelBooking_owner _ _ _ _ _ Hb) in *. simpl in *.
  rewrite (wasPaid_confirmed _ Hc) in *.
  split; [done|]. split; [done|]. split; [done|]. split; [done|].
  split; [|split].
  - intros Hpaid.
    assert (b_bookingStatus b = Confirmed) as Hconf.
    { destruct Hpaid as [Hp|]; [|done]. unfold consistent in Hc. by rewrite Hc, Hp. }
    rewrite bool_decide_eq_true_2 by done.
    assert (quantityOf (b_ticketId b)
              (with_tickets (with_bookings s
                 (updateOne (byBookingId bid) (markCancelled t1 t2) (bookings s)))
                 (updateOne (byTicketId (b_ticketId b)) (incQuantity (b_quantity b))
                            (tickets s))) =
            option_map (fun q => js_add q (b_quantity b))
                       (quantityOf (b_ticketId b) s)) as Hq.
    { unfold quantityOf at 1. by erewrite lookupTicket_inc. }
    split.
    + intros q Eq _ _ Hsafe. rewrite Hq, Eq. simpl. by rewrite js_add_safe.
    + intros tid Hne. eapply lookupTicket_other; [exact Hne| |reflexivity]. done.
  - intros Hne. by rewrite bool_decide_eq_false_2.
  - intros t3 t4.
    pose proof (cancelBooking_owner _ bid (markCancelled t1 t2 b) t3 t4 Hb') as E.
    simpl in E. rewrite E. simpl. split; [done|].
    by destruct (bool_decide (b_bookingStatus b = Confirmed)).
Qed.

(** C4 at the worked scenario: cancelling the settled booking brings the
    ticket quantity back from 8 to 10, cancelling the pending one leaves it
    at 10. *)
Lemma C4_witness :
  quantityOf 1%nat
    (cancelBooking settled (Some "ann@x.io") (Some 2%nat) "t1" "t2").1 = Some 10 /\
  tickets (cancelBooking booked (Some "ann@x.io") (Some 2%nat) "t1" "t2").1 =
    tickets booked.
Proof.
  split.
  - destruct (C4_cancellation_reconciliation settled 2%nat _ "t1" "t2"
                reachable_settled eq_refl) as (_ & _ & _ & _ & Hinc & _).
    destruct (Hinc (or_introl eq_refl)) as (Hq & _).
    refine (Hq 8 eq_refl _ _ _); unfold safe; simpl; lia.
  - destruct (C4_cancellation_reconciliation booked 2%nat _ "t1" "t2"
                reachable_booked eq_refl) as (_ & _ & _ & _ & _ & Hsame & _).
    apply Hsame. done.
Defined.

(** ** The advertisement cap (C5) *)

Lemma advertisedFilter_off t : advertisedFilter (setIsAdvertised (JBool false) t) = false.
Proof. done. Qed.

Lemma toggleAdvertise_admin s admin tid ticket :
  verifyADMIN admin s = None -> lookupTicket tid s = Some ticket ->
  toggleAdvertise s (Some admin) (Some tid) =
  if negb (strict_eq (t_verificationStatus ticket) (JStr "approved")) then
    (s, reply 400 "Only approved tickets can be advertised")
  else if (negb (truthy (t_isAdvertised ticket))
           && (6 <=? advertisedCount s)%nat)%bool then
    (s, reply 400 "Max 6 advertised")
  else
    (with_tickets s
       (updateOne (byTicketId tid)
                  (setIsAdvertised (JBool (negb (truthy (t_isAdvertised ticket)))))
                  (tickets s)),
     send (Toggled "Toggled advertise" (negb (truthy (t_isAdvertised ticket))))).
Proof. unfold toggleAdvertise, lookupTicket. by intros -> ->. Qed.

(** One toggle keeps the count under the cap. *)
Lemma toggleAdvertise_cap s auth id :
  (advertisedCount s <= 6)%nat ->
  (advertisedCount (toggleAdvertise s auth id).1 <= 6)%nat.
Proof.
  intros Hc. destruct auth as [admin|]; [|done].
  destruct (verifyADMIN admin s) as [r|] eqn:Hv.
  { unfold toggleAdvertise. by rewrite Hv. }
  destruct id as [tid|]; [|unfold toggleAdvertise; by rewrite Hv].
  destruct (lookupTicket tid s) as [ticket|] eqn:Ht.
  2:{ unfold lookupTicket in Ht. unfold toggleAdvertise. by rewrite Hv, Ht. }
  rewrite (toggleAdvertise_admin _ _ _ _ Hv Ht).
  destruct (negb (strict_eq _ _)); [done|].
  destruct (truthy (t_isAdvertised ticket)); cbn [negb andb].
  - unfold advertisedCount. simpl.
    etrans; [apply countDocuments_updateOne_off, advertisedFilter_off|exact Hc].
  - destruct (6 <=? advertisedCount s)%nat eqn:Hle; [exact Hc|].
    apply Nat.leb_gt in Hle. unfold advertisedCount in *. simpl.
    etrans; [apply countDocuments_updateOne_le|lia].
Qed.

Lemma toggles_cap calls : forall s,
  (advertisedCount s <= 6)%nat ->
  (advertisedCount (run s (List.map toggleRequest calls)) <= 6)%nat.
Proof.
  induction calls as [|c calls IH]; intros s Hc; [done|].
  rewrite List.map_cons, run_cons. apply IH. by apply toggleAdvertise_cap.
Qed.

(** C5 (advertise cap).  For an administrator and an existing ticket:
    a ticket whose [verificationStatus] is not approved is refused; switching
    an approved ticket on is refused with "Max 6 advertised" when six or more
    advertised and approved tickets are counted, and is performed otherwise;
    switching an approved ticket off is always performed.  Hence a store with
    at most six advertised and approved tickets still has at most six after
    any sequence of toggle requests served one after the other. *)
Theorem C5_advertise_cap :
  (forall s admin tid ticket,
     verifyADMIN admin s = None -> lookupTicket tid s = Some ticket ->
     let r := toggleAdvertise s (Some admin) (Some tid) in
     (t_verificationStatus ticket <> JStr "approved" ->
        r = (s, reply 400 "Only approved tickets can be advertised")) /\
     (t_verificationStatus ticket = JStr "approved" ->
        truthy (t_isAdvertised ticket) = false ->
        ((6 <= advertisedCount s)%nat -> r = (s, reply 400 "Max 6 advertised")) /\
        ((advertisedCount s < 6)%nat ->
           r.2 = send (Toggled "Toggled advertise" true) /\
           lookupTicket tid r.1 = Some (setIsAdvertised (JBool true) ticket))) /\
     (t_verificationStatus ticket = JStr "approved" ->
        truthy (t_isAdvertised ticket) = true ->
        r.2 = send (Toggled "Toggled advertise" false) /\
        lookupTicket tid r.1 = Some (setIsAdvertised (JBool false) ticket))) /\
  (forall s calls,
     (advertisedCount s <= 6)%nat ->
     (advertisedCount (run s (List.map toggleRequest calls)) <= 6)%nat).
Proof.
  split; [|intros; by apply toggles_cap].
  intros s admin tid ticket Hv Ht r. unfold r.
  rewrite (toggleAdvertise_admin _ _ _ _ Hv Ht). unfold strict_eq.
  assert (forall v, lookupTicket tid
            (with_tickets s (updateOne (byTicketId tid) (setIsAdvertised v) (tickets s)))
          = Some (setIsAdvertised v ticket)) as Hl.
  { intros v. unfold lookupTicket in *. simpl.
    rewrite findOne_updateOne_same by done. by rewrite Ht. }
  split; [|split].
  - intros Hne. by rewrite bool_decide_eq_false_2.
  - intros -> ->. rewrite bool_decide_eq_true_2 by done. cbn [negb andb]. split.
    + intros Hle. apply Nat.leb_le in Hle. by rewrite Hle.
    + intros Hlt. apply Nat.leb_gt in Hlt. rewrite Hlt. split; [done|apply Hl].
  - intros -> ->. rewrite bool_decide_eq_true_2 by done. cbn [negb andb].
    split; [done|apply Hl].
Qed.

(** C5 at the worked scenario: the pending ticket is refused; with six
    tickets advertised the seventh is refused, one of the six can be switched
    off, and a burst of toggles never leaves more than six advertised. *)
Lemma C5_witness :
  toggleAdvertise staffed (Some "root@x.io") (Some 1%nat) =
    (staffed, reply 400 "Only approved tickets can be advertised") /\
  toggleAdvertise capped (Some "root@x.io") (Some 8%nat) =
    (capped, reply 400 "Max 6 advertised") /\
  (toggleAdvertise capped (Some "root@x.io") (Some 3%nat)).2 =
    send (Toggled "Toggled advertise" false) /\
  (advertisedCount
     (run capped
        (List.map toggleRequest
           [(Some "root@x.io", Some 8%nat); (Some "root@x.io", Some 3%nat);
            (Some "root@x.io", Some 8%nat); (Some "root@x.io", Some 3%nat);
            (None, Some 4%nat)])) <= 6)%nat.
Proof.
  destruct C5_advertise_cap as [Hone Hseq].
  assert (verifyADMIN "root@x.io" capped = None) as Hv
    by (vm_compute; reflexivity).
  split; [|split; [|split]].
  - destruct (Hone staffed "root@x.io" 1%nat _ eq_refl eq_refl) as (H & _ & _).
    apply H. done.
  - destruct (lookupTicket 8%nat capped) as [tk|] eqn:Ht;
      [|vm_compute in Ht; discriminate Ht].
    pose proof Ht as Etk. vm_compute in Etk. injection Etk as Etk.
    destruct (Hone capped "root@x.io" 8%nat tk Hv Ht) as (_ & H & _).
    destruct H as [Hfull _]; [by rewrite <- Etk|by rewrite <- Etk|].
    apply Hfull. vm_compute. lia.
  - destruct (lookupTicket 3%nat capped) as [tk|] eqn:Ht;
      [|vm_compute in Ht; discriminate Ht].
    pose proof Ht as Etk. vm_compute in Etk. injection Etk as Etk.
    destruct (Hone capped "root@x.io" 3%nat tk Hv Ht) as (_ & _ & H).
    destruct H as [Hoff _]; [by rewrite <- Etk|by rewrite <- Etk|].
    exact Hoff.
  - apply Hseq. vm_compute. lia.
Defined.

(** ** Roles (C6) *)

Lemma findOne_updateOne_proj {A B} (g : A -> B) (q p : A -> bool) (f : A -> A) l :
  (forall x, findOne p l = Some x ->
             q (f x) = q x /\ (q x = true -> g (f x) = g x)) ->
  option_map g (findOne q (updateOne p f l)) = option_map g (findOne q l).
Proof.
  unfold findOne. induction l as [|x l IH]; simpl; [done|].
  destruct (p x) eqn:Hp; intros H.
  - destruct (H x eq_refl) as [Hq Hg]. simpl. rewrite Hq.
    destruct (q x); simpl; by rewrite ?Hg.
  - simpl. destruct (q x); [done|]. by apply IH.
Qed.

Lemma findOne_snoc_Some {A} (q : A -> bool) l x y :
  findOne q l = Some x -> findOne q (l ++ [y]) = Some x.
Proof. intros H. by rewrite findOne_app, H. Qed.

Lemma userByEmail_role s e u :
  Inv s -> userByEmail e s = Some u -> u_role u <> JUndef.
Proof.
  intros H Hu. apply findOne_Some in Hu as [Hin _].
  pose proof (inv_roles _ H) as Hr. rewrite List.Forall_forall in Hr. auto.
Qed.

Lemma bson_id v : v <> JUndef -> bson v = v.
Proof. by destruct v. Qed.

Lemma postUser_role s userData t1 t2 e u :
  Inv s -> userByEmail e s = Some u ->
  option_map u_role (userByEmail e (postUser s userData t1 t2).1) = Some (u_role u).
Proof.
  intros H Hu. unfold postUser. case_bool_decide as Hem.
  { simpl. by rewrite Hu. }
  destruct (findOne (byEmail (ub_email userData)) (users s)) as [u0|] eqn:H0.
  - unfold userByEmail in *. cbn [fst with_users users].
    rewrite findOne_updateOne_proj; [by rewrite Hu|].
    intros x Hx. rewrite H0 in Hx. injection Hx as <-. cbn [u_role u_email].
    split.
    + apply findOne_Some in H0 as [_ H0]. apply bool_decide_eq_true in H0.
      unfold byEmail. cbn [u_email]. by rewrite H0.
    + intros _. apply bson_id. by eapply (userByEmail_role s (ub_email userData)).
  - unfold userByEmail in *. cbn [fst bump with_users users].
    by rewrite (findOne_snoc_Some _ _ _ _ Hu).
Qed.

Lemma keep_role s s' e u :
  userByEmail e s = Some u -> users s' = users s ->
  option_map u_role (userByEmail e s') = Some (u_role u).
Proof. unfold userByEmail. intros Hu ->. by rewrite Hu. Qed.

Lemma keep_role_update s e u p f :
  userByEmail e s = Some u ->
  (forall x, u_email (f x) = u_email x /\ u_role (f x) = u_role x) ->
  option_map u_role (findOne (byEmail e) (updateOne p f (users s))) =
  Some (u_role u).
Proof.
  unfold userByEmail. intros Hu Hf.
  rewrite findOne_updateOne_proj; [by rewrite Hu|].
  intros x _. destruct (Hf x) as [He Hr]. split; [|done].
  unfold byEmail. by rewrite He.
Qed.

(** No route but the administrator's role change alters a stored role. *)
Lemma handle_role s r e u :
  Inv s -> userByEmail e s = Some u -> is_role_change r = false ->
  option_map u_role (userByEmail e (handle s r).1) = Some (u_role u).
Proof.
  intros H Hu Hr. destruct r; try discriminate Hr; cbn [handle].
  - by apply postUser_role.
  - unfold putUserProfile. repeat case_match; try by apply (keep_role s).
    all: unfold userByEmail; cbn [fst with_users users];
      by apply keep_role_update.
  - apply (keep_role s); [done|]. unfold createBooking.
    repeat case_match; done.
  - apply (keep_role s); [done|]. unfold updateBookingStatus.
    repeat case_match; done.
  - apply (keep_role s); [done|]. unfold recordPayment.
    repeat case_match; done.
  - apply (keep_role s); [done|]. unfold getUserTransactions. by case_match.
  - apply (keep_role s); [done|]. unfold cancelBooking.
    repeat case_match; done.
  - by apply (keep_role s).
  - by apply (keep_role s).
  - by apply (keep_role s).
  - apply (keep_role s); [done|]. unfold ticketById. repeat case_match; done.
  - apply (keep_role s); [done|]. unfold postTicket. repeat case_match; done.
  - apply (keep_role s); [done|]. unfold patchTicket. repeat case_match; done.
  - apply (keep_role s); [done|]. unfold deleteTicket. repeat case_match; done.
  - apply (keep_role s); [done|]. unfold adminVerifyTicket. repeat case_match; done.
  - unfold adminMarkFraud. repeat case_match; try by apply (keep_role s).
    unfold userByEmail; cbn [fst with_users with_tickets users].
    by apply keep_role_update.
  - apply (keep_role s); [done|]. unfold toggleAdvertise. repeat case_match; done.
Qed.

(** C6 (role preservation).  In every store the server can reach, a
    [POST /user] whose body carries the email of a stored user leaves that
    user's [role] as it was, whatever [role] the body supplies, and leaves
    the role of every other stored user as it was.  More generally no request
    other than the administrator's role change alters the role of a stored
    user; that route, called by an administrator with one of the three role
    names, writes the given role. *)
Theorem C6_role_preservation :
  (forall s userData t1 t2 e u,
     reachable s -> userByEmail e s = Some u ->
     option_map u_role (userByEmail e (postUser s userData t1 t2).1) =
     Some (u_role u)) /\
  (forall s r e u,
     reachable s -> userByEmail e s = Some u -> is_role_change r = false ->
     option_map u_role (userByEmail e (handle s r).1) = Some (u_role u)) /\
  (forall s admin e u role,
     verifyADMIN admin s = None -> userByEmail e s = Some u ->
     role = "customer" \/ role = "vendor" \/ role = "admin" ->
     option_map u_role (userByEmail e (adminSetRole s (Some admin) e role).1) =
     Some (JStr role)).
Proof.
  split; [|split].
  - intros s userData t1 t2 e u Hs. apply postUser_role. by apply reachable_Inv.
  - intros s r e u Hs. apply handle_role. by apply reachable_Inv.
  - intros s admin e u role Hv Hu Hrole. unfold adminSetRole. rewrite Hv.
    assert ((bool_decide (role = "customer") || bool_decide (role = "vendor")
             || bool_decide (role = "admin"))%bool = true) as ->.
    { destruct Hrole as [-> | [-> | ->]]; done. }
    unfold userByEmail in *. cbn [negb fst with_users users].
    rewrite findOne_updateOne_same by done. by rewrite Hu.
Qed.

(** C6 at the worked scenario: the vendor signs in again with a body asking
    for the admin role and stays a vendor. *)
Lemma C6_witness :
  option_map u_role
    (userByEmail "vendor@x.io"
       (postUser listed
          (mkUserBody "vendor@x.io" (JStr "admin") JUndef JUndef JUndef)
          "2026-02-01T00:00:00.000Z" "2026-02-01T00:00:00.000Z").1) =
  Some (JStr "vendor").
Proof.
  exact (proj1 C6_role_preservation listed
           (mkUserBody "vendor@x.io" (JStr "admin") JUndef JUndef JUndef)
           "2026-02-01T00:00:00.000Z" "2026-02-01T00:00:00.000Z"
           "vendor@x.io" _ reachable_listed eq_refl).
Defined.

(** ** The lifecycle of a cancelled booking (C7) *)

(** The index check of an update that keeps the index key. *)
Lemma updateBooking_found s bid b u :
  bookingById bid s = Some b ->
  b_ticketId (u b) = b_ticketId b -> b_seatNumber (u b) = b_seatNumber b ->
  updateBooking bid u (bookings s) =
  if (active (u b) && seat_taken_by_other b s)%bool
  then inl (MongoServerError 11000%N)
  else inr (updateOne (byBookingId bid) u (bookings s)).
Proof.
  intros Hb Et Es. pose proof (bookingById_id _ _ _ Hb) as Eid.
  unfold bookingById in Hb. unfold updateBooking. rewrite Hb.
  unfold duplicate_key, seat_taken_by_other.
  by rewrite existsb_filter, Eid, Et, Es.
Qed.

Lemma active_statusMap st t b :
  active (setStatus st (statusMap st) t b) =
  negb (bool_decide (statusMap st = Cancelled)).
Proof. by destruct st. Qed.

(** What [PATCH /bookings/:id/status] does to an existing booking. *)
Lemma updateBookingStatus_found s email bid b status st t :
  bookingById bid s = Some b -> parseStatus status = Some st ->
  updateBookingStatus s (Some email) (Some bid) status t =
  if (negb (bool_decide (statusMap st = Cancelled)) && seat_taken_by_other b s)%bool
  then (s, reply 500 "Server error")
  else (with_bookings s
          (updateOne (byBookingId bid) (setStatus st (statusMap st) t) (bookings s)),
        send (UpdateResult 1 None)).
Proof.
  intros Hb Hst. unfold updateBookingStatus. rewrite Hst.
  rewrite (updateBooking_found _ _ _ _ Hb) by done.
  rewrite active_statusMap. unfold matchedCount.
  unfold bookingById in Hb. rewrite Hb. by destruct (_ && _)%bool.
Qed.

Lemma lifecycle_update s bid b u :
  bookingById bid s = Some b -> b_id (u b) = b_id b ->
  lifecycle bid (with_bookings s (updateOne (byBookingId bid) u (bookings s))) =
  Some (b_bookingStatus (u b)).
Proof.
  intros Hb Hu. pose proof (bookingById_id _ _ _ Hb) as Eid.
  unfold lifecycle, bookingById in *. simpl.
  destruct (updateOne_split _ _ _ Hb) as (l1 & l2 & El & F1 & Hq & Eup).
  rewrite Eup, findOne_app.
  apply findOne_none_iff in F1. rewrite F1. unfold findOne. simpl.
  unfold byBookingId at 1. rewrite bool_decide_eq_true_2; [done|congruence].
Qed.

Lemma lifecycle_same s s' bid :
  bookings s' = bookings s -> lifecycle bid s' = lifecycle bid s.
Proof. unfold lifecycle, bookingById. by intros ->. Qed.

(** Every route but the status update and the payment keeps a cancelled
    booking cancelled. *)
Lemma handle_cancelled s r bid :
  lifecycle bid s = Some Cancelled -> may_revive r = false ->
  lifecycle bid (handle s r).1 = Some Cancelled.
Proof.
  intros Hl Hr. destruct r; try discriminate Hr; cbn [handle].
  - rewrite <- Hl. apply lifecycle_same. unfold postUser. repeat case_match; done.
  - rewrite <- Hl. apply lifecycle_same. unfold putUserProfile.
    repeat case_match; done.
  - unfold createBooking, insertBooking.
    repeat case_match; simplify_eq; try done.
    unfold lifecycle, bookingById in *. cbn [fst bump with_bookings bookings].
    destruct (findOne (byBookingId bid) (bookings s)) as [b|] eqn:Hb; [|done].
    by rewrite (findOne_snoc_Some _ _ _ _ Hb).
  - rewrite <- Hl. apply lifecycle_same. unfold getUserTransactions. by case_match.
  - unfold cancelBooking.
    destruct auth as [email|]; [|done]. destruct id as [bid'|]; [|done].
    destruct (findOne _ (bookings s)) as [b'|] eqn:Hb'; [|done].
    destruct (negb _); [done|].
    rewrite updateBooking_inactive by apply inactive_markCancelled.
    assert (lifecycle bid
              (with_bookings s
                 (updateOne (byBookingId bid') (markCancelled t1 t2) (bookings s)))
            = Some Cancelled) as Hgoal.
    { unfold lifecycle, bookingById in *. cbn [with_bookings bookings].
      rewrite findOne_updateOne_proj; [done|].
      intros x Hx. split; [done|]. intros Hq.
      apply findOne_Some in Hx as Hx'. destruct Hx' as [_ Hp].
      apply bool_decide_eq_true in Hq. apply bool_decide_eq_true in Hp.
      assert (bid' = bid) as -> by congruence.
      rewrite Hx in Hl. by injection Hl as ->. }
    by destruct (wasPaid b').
  - done.
  - done.
  - done.
  - rewrite <- Hl. apply lifecycle_same. unfold ticketById. repeat case_match; done.
  - rewrite <- Hl. apply lifecycle_same. unfold postTicket. repeat case_match; done.
  - rewrite <- Hl. apply lifecycle_same. unfold patchTicket. repeat case_match; done.
  - rewrite <- Hl. apply lifecycle_same. unfold deleteTicket. repeat case_match; done.
  - rewrite <- Hl. apply lifecycle_same. unfold adminVerifyTicket.
    repeat case_match; done.
  - rewrite <- Hl. apply lifecycle_same. unfold adminSetRole.
    repeat case_match; done.
  - rewrite <- Hl. apply lifecycle_same. unfold adminMarkFraud.
    repeat case_match; done.
  - rewrite <- Hl. apply lifecycle_same. unfold toggleAdvertise.
    repeat case_match; done.
Qed.

(** C7, refuted as stated: in the worked scenario the customer's booking is
    cancelled, and a [PATCH /bookings/:id/status] carrying "pending" (sent
    here by another authenticated user) brings it back to pending. *)
Lemma C7_counterexample :
  reachable cancelled /\
  lifecycle 2%nat cancelled = Some Cancelled /\
  handle cancelled (PatchBookingStatus (Some "bob@x.io") (Some 2%nat) "pending" "t") =
    (with_bookings cancelled
       (updateOne (byBookingId 2%nat) (setStatus StPending Pending "t")
                  (bookings cancelled)),
     send (UpdateResult 1 None)) /\
  lifecycle 2%nat
    (handle cancelled
       (PatchBookingStatus (Some "bob@x.io") (Some 2%nat) "pending" "t")).1 =
    Some Pending.
Proof.
  split; [apply reachable_cancelled|]. split; [reflexivity|].
  split; reflexivity.
Qed.

(** C7 as amended.  [PATCH /bookings/:id/status] writes
    [bookingStatus = statusMap status] whatever the current state.  On a
    cancelled booking the values rejected and cancelled therefore keep it
    cancelled, while pending moves it to pending and accepted and paid move
    it to confirmed; the latter three fail with 500, leaving the store as it
    was, exactly when another active booking holds the seat.  [POST /payments]
    with the right amount likewise confirms a cancelled booking whose seat is
    free.  Every other route leaves a cancelled booking cancelled. *)
Theorem C7_cancelled_not_terminal :
  (forall s email bid b status st t,
     bookingById bid s = Some b -> b_bookingStatus b = Cancelled ->
     parseStatus status = Some st ->
     let r := updateBookingStatus s (Some email) (Some bid) status t in
     (statusMap st = Cancelled ->
        r.2 = send (UpdateResult 1 None) /\ lifecycle bid r.1 = Some Cancelled) /\
     (statusMap st <> Cancelled -> seat_taken_by_other b s = false ->
        r.2 = send (UpdateResult 1 None) /\ lifecycle bid r.1 = Some (statusMap st)) /\
     (statusMap st <> Cancelled -> seat_taken_by_other b s = true ->
        r = (s, reply 500 "Server error"))) /\
  (parseStatus "accepted" = Some StAccepted /\ statusMap StAccepted = Confirmed /\
   parseStatus "rejected" = Some StRejected /\ statusMap StRejected = Cancelled /\
   parseStatus "pending" = Some StPending /\ statusMap StPending = Pending /\
   parseStatus "paid" = Some StPaid /\ statusMap StPaid = Confirmed /\
   parseStatus "cancelled" = Some StCancelled /\ statusMap StCancelled = Cancelled) /\
  (forall s email bid b txn method d,
     bookingById bid s = Some b -> b_bookingStatus b = Cancelled ->
     b_status b <> StPaid -> seat_taken_by_other b s = false ->
     let r := recordPayment s (Some email) (Some bid) txn (JNum (b_totalPrice b))
                            method d in
     r.2 = send Success /\ lifecycle bid r.1 = Some Confirmed) /\
  (forall s r bid,
     lifecycle bid s = Some Cancelled -> may_revive r = false ->
     lifecycle bid (handle s r).1 = Some Cancelled).
Proof.
  split; [|split; [|split]].
  - intros s email bid b status st t Hb Hc Hst r. unfold r.
    rewrite (updateBookingStatus_found _ _ _ _ _ _ _ Hb Hst).
    split; [|split].
    + intros E. rewrite bool_decide_eq_true_2 by done. simpl.
      split; [done|]. rewrite (lifecycle_update _ _ _ _ Hb) by done. simpl.
      by rewrite E.
    + intros E ->. rewrite andb_false_r. simpl.
      split; [done|]. by rewrite (lifecycle_update _ _ _ _ Hb).
    + intros E ->. by rewrite bool_decide_eq_false_2.
  - repeat split.
  - intros s email bid b txn method d Hb Hc Hp Hs r. unfold r.
    rewrite (recordPayment_match _ _ _ _ _ _ _ Hb Hp), Hs. simpl.
    split; [done|]. unfold lifecycle.
    by rewrite (bookingById_settle _ _ _ _ _ _ _ _ Hb).
  - apply handle_cancelled.
Qed.

(** The amended C7 at the worked scenario: "rejected" keeps the cancelled
    booking cancelled, "accepted" confirms it. *)
Lemma C7_witness :
  lifecycle 2%nat
    (updateBookingStatus cancelled (Some "bob@x.io") (Some 2%nat) "rejected" "t").1 =
    Some Cancelled /\
  lifecycle 2%nat
    (updateBookingStatus cancelled (Some "bob@x.io") (Some 2%nat) "accepted" "t").1 =
    Some Confirmed.
Proof.
  destruct C7_cancelled_not_terminal as (Hup & _ & _ & _). split.
  - destruct (Hup cancelled "bob@x.io" 2%nat _ "rejected" StRejected "t"
                  eq_refl eq_refl eq_refl) as (H & _ & _).
    by destruct (H eq_refl).
  - destruct (Hup cancelled "bob@x.io" 2%nat _ "accepted" StAccepted "t"
                  eq_refl eq_refl eq_refl) as (_ & H & _).
    assert (statusMap StAccepted <> Cancelled) as Hne by done.
    by destruct (H Hne eq_refl).
Defined.

(** ** Catalogue reads (C8) *)

Lemma publicFilter_public t : publicFilter t = true <-> public t.
Proof.
  unfold publicFilter, public.
  rewrite andb_true_iff, negb_true_iff, bool_decide_eq_true, bool_decide_eq_false.
  tauto.
Qed.

Lemma In_sortDesc {A} (key : A -> string) (l : list A) x :
  In x (sortDesc key l) <-> In x l.
Proof.
  unfold sortDesc. split; apply Permutation_in.
  - apply merge_sort_Permutation.
  - symmetry. apply merge_sort_Permutation.
Qed.

Lemma In_take {A} n (l : list A) x : In x (take n l) -> In x l.
Proof.
  revert n. induction l as [|y l IH]; intros [|n]; simpl; try tauto.
  intros [->|H]; eauto.
Qed.

(** C8, refuted as stated: the ticket the vendor has just listed is still
    pending, and [GET /tickets/:id] returns it. *)
Lemma C8_counterexample :
  reachable listed /\
  exists t,
    ticketById listed (Some 1%nat) = (listed, send (TicketDoc t)) /\
    t_verificationStatus t = JStr "pending".
Proof.
  split; [apply reachable_listed|]. eexists. split; reflexivity.
Qed.

(** C8 as amended.  Every ticket returned by [GET /tickets/all],
    [GET /tickets/latest] and [GET /tickets/advertised-home] is stored, has
    [verificationStatus] approved and is not hidden (and, for the last one,
    is advertised); conversely [GET /tickets/all] returns every such ticket.
    [GET /tickets/:id] returns the ticket stored under the id, whatever its
    verification status and hidden flag. *)
Theorem C8_catalog_visibility :
  (forall s t, In t (returned (ticketsAll s).2) <-> In t (tickets s) /\ public t) /\
  (forall s t, In t (returned (ticketsLatest s).2) -> In t (tickets s) /\ public t) /\
  (forall s t, In t (returned (ticketsAdvertisedHome s).2) ->
               In t (tickets s) /\ public t /\ t_isAdvertised t = JBool true) /\
  (forall s tid t, lookupTicket tid s = Some t ->
                   ticketById s (Some tid) = (s, send (TicketDoc t))).
Proof.
  split; [|split; [|split]].
  - intros s t. unfold ticketsAll, returned. simpl.
    by rewrite In_sortDesc, List.filter_In, publicFilter_public.
  - intros s t. unfold ticketsLatest, returned. simpl. intros H.
    apply In_take, In_sortDesc, List.filter_In in H.
    by rewrite <- publicFilter_public.
  - intros s t. unfold ticketsAdvertisedHome, returned. simpl. intros H.
    apply In_take, List.filter_In in H as [Hin H].
    apply andb_true_iff in H as [Ha Hp].
    apply bool_decide_eq_true in Ha. by apply publicFilter_public in Hp.
  - intros s tid t. unfold lookupTicket, ticketById. by intros ->.
Qed.

(** The amended C8 at the worked scenario: the pending ticket is absent from
    [GET /tickets/all] and present in [GET /tickets/:id]. *)
Lemma C8_witness :
  returned (ticketsAll listed).2 = [] /\
  (forall t, In t (returned (ticketsLatest listed).2) -> public t) /\
  exists t, ticketById listed (Some 1%nat) = (listed, send (TicketDoc t)).
Proof.
  destruct C8_catalog_visibility as (Hall & Hlatest & _ & Hid).
  split; [reflexivity|]. split.
  - intros t Ht. by apply (Hlatest listed).
  - eexists. by apply (Hid listed 1%nat).
Defined.

(** ** Who pays (C9) *)

Lemma userTransactions_rows e s row :
  In row (userTransactions e s) ->
  exists p, In p (payments s) /\ p_userEmail p = e /\ row = normalizeTransaction p.
Proof.
  unfold userTransactions. intros H.
  apply List.in_map_iff in H as (p & <- & H).
  apply In_sortDesc, List.filter_In in H as [Hin He].
  apply bool_decide_eq_true in He. eauto.
Qed.

(** C9 (the payer need not own the booking).  For any authenticated
    requester and any payable booking, [POST /payments] with the booking's
    total succeeds; the handler never compares the requester with the
    booking's [userEmail].  The payment record carries the requester's email,
    so [GET /user/transactions] answers the requester with a list that holds
    the row of the new payment, while it answers every other user, the
    booking owner included when the owner is not the payer, with the rows it
    answered before: each of them is the row of a payment that was stored
    before, under that user's email. *)
Theorem C9_payer_need_not_own s payer bid b txn method d :
  bookingById bid s = Some b -> b_status b <> StPaid ->
  seat_taken_by_other b s = false ->
  let r := recordPayment s (Some payer) (Some bid) txn (JNum (b_totalPrice b))
                         method d in
  let p := newPayment (nextId s) payer bid b txn (JNum (b_totalPrice b)) method d in
  let history e st := getUserTransactions st (Some e) in
  let old_row e row :=
    exists q, In q (payments s) /\ p_userEmail q = e /\ q <> p /\
              row = normalizeTransaction q in
  r.2 = send Success /\
  payments r.1 = payments s ++ [p] /\
  p_userEmail p = payer /\
  (exists rows,
     history payer r.1 = (r.1, send (Transactions rows)) /\
     In (normalizeTransaction p) rows) /\
  (forall e, e <> payer ->
     exists before after,
       history e s = (s, send (Transactions before)) /\
       history e r.1 = (r.1, send (Transactions after)) /\
       Permutation after before /\ Forall (old_row e) after) /\
  (b_userEmail b <> payer ->
     exists after,
       history (b_userEmail b) r.1 = (r.1, send (Transactions after)) /\
       Forall (old_row (b_userEmail b)) after).
Proof.
  intros Hb Hp Hs r p history old_row. unfold r.
  rewrite (recordPayment_match _ _ _ _ _ _ _ Hb Hp), Hs. cbn [fst snd]. fold p.
  set (s' := settle s payer bid b txn (JNum (b_totalPrice b)) method d).
  assert (forall e, e <> payer ->
            userTransactions e s' = userTransactions e s /\
            Forall (old_row e) (userTransactions e s)) as Hother.
  { intros e He. split.
    - unfold userTransactions, s', settle. simpl.
      rewrite List.filter_app. simpl.
      rewrite bool_decide_eq_false_2 by congruence. by rewrite app_nil_r.
    - apply List.Forall_forall. intros row Hrow.
      apply userTransactions_rows in Hrow as (q & Hin & Hq & ->).
      exists q. split; [done|]. split; [done|]. split; [|done].
      intros ->. by apply He. }
  split; [done|]. split; [done|]. split; [done|]. split; [|split].
  - exists (userTransactions payer s'). split; [done|].
    unfold userTransactions. apply List.in_map, In_sortDesc, List.filter_In.
    split; [|by apply bool_decide_eq_true].
    simpl. apply in_or_app. right. by left.
  - intros e He. destruct (Hother e He) as [E Hrows].
    exists (userTransactions e s), (userTransactions e s').
    split; [done|]. split; [done|]. rewrite E. split; [done|done].
  - intros He. destruct (Hother _ He) as [E Hrows].
    exists (userTransactions (b_userEmail b) s'). split; [done|]. by rewrite E.
Qed.

(** C9 at the worked scenario: bob pays ann's booking; the row shows in the
    history the server sends to bob, and the history it sends to ann stays
    empty. *)
Lemma C9_witness :
  let r := recordPayment booked (Some "bob@x.io") (Some 2%nat) (JStr "tx_9")
                         (JNum 40) JUndef "2026-01-02T08:00:00.000Z" in
  r.2 = send Success /\
  (exists rows,
     getUserTransactions r.1 (Some "bob@x.io") = (r.1, send (Transactions rows)) /\
     In (JStr "tx_9") (List.map tr_transactionId rows)) /\
  (exists after,
     getUserTransactions r.1 (Some "ann@x.io") = (r.1, send (Transactions after)) /\
     Permutation after []).
Proof.
  destruct (C9_payer_need_not_own booked "bob@x.io" 2%nat _ (JStr "tx_9") JUndef
              "2026-01-02T08:00:00.000Z" eq_refl ltac:(done) eq_refl)
    as (Hok & _ & _ & (rows & Hrows & Hin) & Hother & _).
  split; [exact Hok|]. split.
  - exists rows. split; [exact Hrows|].
    exact (List.in_map tr_transactionId _ _ Hin).
  - destruct (Hother "ann@x.io") as (before & after & Hb & Ha & Hperm & _).
    { intros H; vm_compute in H; discriminate H. }
    exists after. split; [exact Ha|].
    vm_compute in Hb. injection Hb as <-. exact Hperm.
Defined.

(** ** Booking quantities (C10) *)

Lemma existsb_and_false {A} (p f : A -> bool) (l : list A) :
  existsb p l = false -> existsb (fun x => p x && f x)%bool l = false.
Proof.
  induction l as [|x l IH]; simpl; [done|].
  intros H. apply orb_false_iff in H as [-> H]. simpl. by apply IH.
Qed.

(** The id the store hands out next names no stored booking. *)
Lemma fresh_booking_id s :
  Inv s -> findOne (byBookingId (nextId s)) (bookings s) = None.
Proof.
  intros H. apply findOne_none_iff.
  eapply Forall_impl; [apply (inv_fresh _ H)|]. simpl. intros b Hb.
  apply bool_decide_eq_false. lia.
Qed.

(** Neither the answer of [POST /bookings] nor the tickets depend on the
    quantity asked for. *)
Lemma createBooking_any_quantity s auth ticketId q1 q2 seatNumber env :
  (createBooking s auth ticketId q1 seatNumber env).2 =
  (createBooking s auth ticketId q2 seatNumber env).2 /\
  tickets (createBooking s auth ticketId q1 seatNumber env).1 = tickets s.
Proof.
  destruct auth as [email|]; [|done]. destruct ticketId as [tid|]; [|done].
  destruct (lookupTicket tid s) as [ticket|] eqn:Ht.
  2:{ unfold lookupTicket in Ht. unfold createBooking. by rewrite Ht. }
  destruct (ticketTypeOf ticket) as [e|ty] eqn:Hty.
  { unfold lookupTicket in Ht. unfold createBooking. rewrite Ht, Hty.
    destruct e; repeat case_match; done. }
  rewrite !(createBooking_resolved _ _ _ _ _ _ _ _ Ht Hty).
  by destruct (existsb _ _).
Qed.

(** The claim of C10 fails at the edge of the number type.  On the ticket of
    [vast] (price 94906267, [2^53] places) a booking of 94906267 places is
    stored with a total one below the product, and settling a booking of
    minus one place leaves the ticket's quantity at [2^53]. *)
Lemma C10_counterexample :
  (createBooking vast (Some "ann@x.io") (Some 1%nat) 94906267 (JStr "1A") env0).2 =
    mkResponse 201 (InsertResult 2%nat) /\
  option_map b_totalPrice
    (bookingById 2%nat
       (createBooking vast (Some "ann@x.io") (Some 1%nat) 94906267 (JStr "1A")
                      env0).1) = Some 9007199515875288 /\
  94906267 * 94906267 = 9007199515875289 /\
  option_map b_quantity
    (bookingById 2%nat
       (createBooking vast (Some "ann@x.io") (Some 1%nat) (-1) (JStr "1A")
                      env0).1) = Some (-1) /\
  quantityOf 1%nat vast = Some 9007199254740992 /\
  (recordPayment
     (createBooking vast (Some "ann@x.io") (Some 1%nat) (-1) (JStr "1A") env0).1
     (Some "ann@x.io") (Some 2%nat) (JStr "tx") (JNum (-94906267)) JUndef "d").2 =
    send Success /\
  quantityOf 1%nat
    (recordPayment
       (createBooking vast (Some "ann@x.io") (Some 1%nat) (-1) (JStr "1A") env0).1
       (Some "ann@x.io") (Some 2%nat) (JStr "tx") (JNum (-94906267)) JUndef "d").1 =
    Some 9007199254740992.
Proof. vm_compute. repeat split. Qed.

(** C10 (booking quantity is not validated at creation), as amended.  The
    answer of [POST /bookings] and the tickets it leaves do not depend on the
    quantity in the body.  For a ticket that exists (with a textual transport
    type) and a seat no active booking holds, every integer quantity, zero
    and negative ones included, is accepted: the booking is inserted with
    that quantity and status pending, its total is [price * quantity]
    whenever the factors and the product are within the safe range, and no
    ticket changes.  Settling that booking with its total then changes the
    ticket's quantity by minus the booking's quantity, the values being
    within the safe range. *)
Theorem C10_quantity_unvalidated :
  (forall s auth ticketId q1 q2 seatNumber env,
     (createBooking s auth ticketId q1 seatNumber env).2 =
     (createBooking s auth ticketId q2 seatNumber env).2 /\
     tickets (createBooking s auth ticketId q1 seatNumber env).1 = tickets s) /\
  (forall s email tid ticket ty quantity seatNumber env,
     reachable s ->
     lookupTicket tid s = Some ticket -> ticketTypeOf ticket = inr ty ->
     existsb (activeOn tid (seatOf seatNumber env)) (bookings s) = false ->
     let r := createBooking s (Some email) (Some tid) quantity seatNumber env in
     let nb := newBooking (nextId s) tid ticket email quantity seatNumber ty env in
     r.2 = mkResponse 201 (InsertResult (nextId s)) /\
     bookings r.1 = bookings s ++ [nb] /\
     bookingById (nextId s) r.1 = Some nb /\
     b_quantity nb = quantity /\
     (safe (t_price ticket) -> safe quantity -> safe (t_price ticket * quantity) ->
      b_totalPrice nb = t_price ticket * quantity) /\
     b_status nb = StPending /\ b_bookingStatus nb = Pending /\
     tickets r.1 = tickets s /\
     forall payer txn method d,
       let r' := recordPayment r.1 (Some payer) (Some (nextId s)) txn
                               (JNum (b_totalPrice nb)) method d in
       r'.2 = send Success /\
       (safe (t_quantity ticket) -> safe quantity ->
        safe (t_quantity ticket - quantity) ->
        quantityOf tid r'.1 = Some (t_quantity ticket - quantity))).
Proof.
  split; [apply createBooking_any_quantity|].
  intros s email tid ticket ty quantity seatNumber env Hs Ht Hty Hfree r nb.
  apply reachable_Inv in Hs. unfold r.
  rewrite (createBooking_resolved _ _ _ _ _ _ _ _ Ht Hty), Hfree. fold nb.
  cbn [fst snd].
  set (s' := bump (with_bookings s (bookings s ++ [nb]))).
  assert (bookingById (nextId s) s' = Some nb) as Hnb.
  { unfold bookingById, s'. simpl.
    rewrite findOne_app, (fresh_booking_id _ Hs). unfold findOne. simpl.
    unfold byBookingId. by rewrite bool_decide_eq_true_2. }
  split; [done|]. split; [done|]. split; [done|].
  split; [done|].
  split; [intros _ _ Hsafe; by apply js_mul_safe|].
  split; [done|]. split; [done|]. split; [done|].
  intros payer txn method d.
  assert (seat_taken_by_other nb s' = false) as Hs'.
  { unfold seat_taken_by_other, s'. simpl. rewrite existsb_app. simpl.
    rewrite (existsb_and_false _ _ _ Hfree). simpl.
    unfold byBookingId. rewrite bool_decide_eq_true_2 by done.
    by rewrite andb_false_r. }
  assert (b_status nb <> StPaid) as Hp by done.
  pose proof (recordPayment_match s' payer (nextId s) nb txn method d Hnb Hp) as E.
  rewrite Hs' in E. rewrite E. cbn [fst snd]. split; [done|].
  pose proof (quantityOf_settle s' payer (nextId s) nb txn
                (JNum (b_totalPrice nb)) method d) as Q.
  change (b_ticketId nb) with tid in Q.
  assert (quantityOf tid s' = Some (t_quantity ticket)) as Eq.
  { unfold quantityOf, lookupTicket in *. unfold s'. simpl. by rewrite Ht. }
  rewrite Eq in Q. change (b_quantity nb) with quantity in Q.
  cbn [option_map] in Q.
  intros _ _ Hsafe. rewrite Q. f_equal. apply js_add_safe.
  by replace (t_quantity ticket + - quantity) with (t_quantity ticket - quantity) by lia.
Qed.

(** C10 at the worked scenario: a booking of minus three places on the
    ticket of price 20 and quantity 10 is accepted with total minus 60, and
    settling it raises the ticket quantity to 13. *)
Lemma C10_witness :
  let r := createBooking listed (Some "ann@x.io") (Some 1%nat) (-3) (JStr "1A") env0 in
  r.2 = mkResponse 201 (InsertResult 2%nat) /\
  option_map b_totalPrice (bookingById 2%nat r.1) = Some (-60) /\
  quantityOf 1%nat r.1 = Some 10 /\
  quantityOf 1%nat
    (recordPayment r.1 (Some "ann@x.io") (Some 2%nat) (JStr "tx") (JNum (-60))
                   JUndef "d").1 = Some 13.
Proof.
  destruct C10_quantity_unvalidated as [_ H].
  destruct (H listed "ann@x.io" 1%nat _ "bus" (-3) (JStr "1A") env0
              reachable_listed eq_refl eq_refl eq_refl)
    as (Hok & _ & Hnb & _ & _ & _ & _ & _ & Hpay).
  split; [exact Hok|]. split; [exact (f_equal (option_map b_totalPrice) Hnb)|].
  split; [reflexivity|].
  destruct (Hpay "ann@x.io" (JStr "tx") JUndef "d") as (_ & Hq).
  refine (Hq _ _ _); unfold safe; simpl; lia.
Defined.

(** ** What the handlers write to bookings, payments and users *)

Lemma updateBooking_write id u l l' :
  (forall b, core (u b) = core b) ->
  updateBooking id u l = inr l' -> booking_write l l'.
Proof.
  intros Hu Hup. pose proof (updateBooking_cases id u l) as Hc.
  repeat case_match; rewrite Hc in Hup; try done; injection Hup as <-.
  - by constructor.
  - constructor.
Qed.

(** Every request leaves the bookings as they were, appends the booking it
    builds, or rewrites one booking without touching its core fields. *)
Lemma handle_booking_write s r :
  booking_write (bookings s) (bookings (handle s r).1).
Proof.
  destruct r; cbn [handle].
  - unfold postUser. repeat case_match; constructor.
  - unfold putUserProfile. repeat case_match; constructor.
  - unfold createBooking, insertBooking.
    repeat case_match; simplify_eq; cbn [fst bump with_bookings bookings];
      constructor.
  - unfold updateBookingStatus.
    destruct auth; [|constructor]. destruct id as [bid|]; [|constructor].
    destruct (parseStatus status) as [st|]; [|constructor].
    destruct (updateBooking _ _ _) as [e|l] eqn:Hup; [constructor|].
    by eapply updateBooking_write; [|exact Hup].
  - unfold recordPayment.
    destruct auth; [|constructor]. destruct bookingId as [bid|]; [|constructor].
    destruct (findOne _ (bookings s)); [|constructor].
    case_bool_decide; [constructor|]. destruct (negb _); [constructor|].
    cbn zeta. destruct (updateBooking _ _ _) as [e|l] eqn:Hup; [constructor|].
    cbn [fst with_tickets with_bookings bookings].
    by eapply updateBooking_write; [|exact Hup].
  - unfold getUserTransactions. case_match; constructor.
  - unfold cancelBooking.
    destruct auth; [|constructor]. destruct id as [bid|]; [|constructor].
    destruct (findOne _ (bookings s)) as [b|]; [|constructor].
    destruct (negb _); [constructor|].
    destruct (updateBooking _ _ _) as [e|l] eqn:Hup; [constructor|].
    assert (booking_write (bookings s) l) as Hw
      by (by eapply updateBooking_write; [|exact Hup]).
    by destruct (wasPaid b).
  - constructor.
  - constructor.
  - constructor.
  - unfold ticketById. repeat case_match; constructor.
  - unfold postTicket. repeat case_match; constructor.
  - unfold patchTicket. repeat case_match; constructor.
  - unfold deleteTicket. repeat case_match; constructor.
  - unfold adminVerifyTicket. repeat case_match; constructor.
  - unfold adminSetRole. repeat case_match; constructor.
  - unfold adminMarkFraud. repeat case_match; constructor.
  - unfold toggleAdvertise. repeat case_match; constructor.
Qed.

Lemma booking_write_lookup l l' bid b :
  booking_write l l' -> findOne (byBookingId bid) l = Some b ->
  exists b', findOne (byBookingId bid) l' = Some b' /\ core b' = core b.
Proof.
  intros Hw Hb. destruct Hw as [|id tid ticket email q seat ty env|id u Hu].
  - eauto.
  - exists b. split; [|done]. by apply findOne_snoc_Some.
  - assert (option_map core (findOne (byBookingId bid)
                               (updateOne (byBookingId id) u l)) =
            Some (core b)) as H.
    { rewrite findOne_updateOne_proj; [by rewrite Hb|].
      intros x _. split; [|by intros _].
      unfold byBookingId. pose proof (Hu x) as E. unfold core in E.
      assert (b_id (u x) = b_id x) as -> by congruence. done. }
    destruct (findOne _ (updateOne _ _ _)) as [b'|]; [|done].
    exists b'. split; [done|]. simpl in H. congruence.
Qed.


Lemma booking_write_Forall (P : Booking -> Prop) l l' :
  (forall b b', core b' = core b -> P b -> P b') ->
  (forall id tid ticket email q seat ty env,
     P (newBooking id tid ticket email q seat ty env)) ->
  booking_write l l' -> Forall P l -> Forall P l'.
Proof.
  intros Hcore Hnew Hw Hl.
  destruct Hw as [|id tid ticket email q seat ty env|id u Hu].
  - done.
  - apply Forall_app. split; [done|]. constructor; [apply Hnew|constructor].
  - apply Forall_updateOne; [|done]. intros x. by apply Hcore.
Qed.

Lemma reachable_bookings_Forall (P : Booking -> Prop) s :
  (forall b b', core b' = core b -> P b -> P b') ->
  (forall id tid ticket email q seat ty env,
     P (newBooking id tid ticket email q seat ty env)) ->
  reachable s -> Forall P (bookings s).
Proof.
  intros Hcore Hnew. induction 1 as [|s r Hs IH]; [constructor|].
  eapply booking_write_Forall; eauto. apply handle_booking_write.
Qed.

(** X2: the stored total of a booking is the product of its unit price and
    its quantity whenever the two and the product are within the safe
    range. *)
Theorem booking_total_invariant s :
  reachable s ->
  Forall (fun b => safe (b_unitPrice b) -> safe (b_quantity b) ->
                   safe (b_unitPrice b * b_quantity b) ->
                   b_totalPrice b = b_unitPrice b * b_quantity b)
         (bookings s).
Proof.
  intros Hs.
  eapply Forall_impl;
    [apply (reachable_bookings_Forall
              (fun b => b_totalPrice b = js_mul (b_unitPrice b) (b_quantity b)));
     [|done|done]|].
  - intros b b' E H. unfold core in E. congruence.
  - simpl. intros b E _ _ Hsafe. by rewrite E, js_mul_safe.
Qed.

Lemma generateSeatNumber_nonempty r1 r2 : generateSeatNumber r1 r2 <> "".
Proof.
  unfold generateSeatNumber. by destruct (decimal _).
Qed.

Lemma truthy_seatOf seat env : truthy (seatOf seat env) = true.
Proof.
  unfold seatOf, js_or. destruct (truthy seat) eqn:E; [done|]. simpl.
  rewrite bool_decide_eq_false_2; [done|apply generateSeatNumber_nonempty].
Qed.

(** Every stored booking has a seat. *)
Theorem booking_seat_assigned s :
  reachable s -> Forall (fun b => truthy (b_seatNumber b) = true) (bookings s).
Proof.
  apply reachable_bookings_Forall.
  - intros b b' E H. unfold core in E. congruence.
  - intros. apply truthy_seatOf.
Qed.

(** X3: the two status fields of a stored booking agree, so a booking counts
    against its seat exactly when its [status] is pending, accepted or paid. *)
Theorem booking_status_fields_agree s :
  reachable s ->
  Forall (fun b => b_bookingStatus b = statusMap (b_status b) /\
                   active b = negb (bool_decide (b_status b = StRejected)
                                    || bool_decide (b_status b = StCancelled)))
         (bookings s).
Proof.
  intros Hs. apply reachable_Inv in Hs.
  eapply Forall_impl; [apply (inv_status _ Hs)|]. simpl.
  intros b Hb. split; [done|]. unfold active. unfold consistent in Hb.
  rewrite Hb. by destruct (b_status b).
Qed.

Ltac unfold_handler :=
  first [ progress unfold postUser | progress unfold putUserProfile
        | progress unfold createBooking | progress unfold updateBookingStatus
        | progress unfold getUserTransactions | progress unfold cancelBooking
        | progress unfold ticketById | progress unfold postTicket
        | progress unfold patchTicket | progress unfold deleteTicket
        | progress unfold adminVerifyTicket | progress unfold adminSetRole
        | progress unfold adminMarkFraud | progress unfold toggleAdvertise ].

(** Every request leaves the payments as they were or appends the record of
    a call that carried the booking's total. *)
Lemma handle_payment_write s r :
  payments (handle s r).1 = payments s \/
  exists email bid b txn method d,
    bookingById bid s = Some b /\
    payments (handle s r).1 =
    payments s ++
    [newPayment (nextId s) email bid b txn (JNum (b_totalPrice b)) method d].
Proof.
  destruct r; cbn [handle];
    try (left; done);
    try (left; unfold_handler; repeat case_match; done).
  unfold recordPayment.
  destruct auth as [email|]; [|by left].
  destruct bookingId as [bid|]; [|by left].
  destruct (findOne _ (bookings s)) as [b|] eqn:Hb; [|by left].
  case_bool_decide; [by left|].
  unfold strict_eq. case_bool_decide as Ha; [|by left]. subst amount.
  right. exists email, bid, b, transactionId, paymentMethod, paymentDate.
  split; [done|]. cbn [negb]. cbn zeta.
  destruct (updateBooking _ _ _); done.
Qed.

(** X4: the payments collection is append-only. *)
Theorem payments_append_only s r :
  exists extra,
    payments (handle s r).1 = payments s ++ extra /\ (length extra <= 1)%nat.
Proof.
  destruct (handle_payment_write s r) as [E|(email & bid & b & txn & m & d & _ & E)].
  - exists []. rewrite app_nil_r. split; [done|simpl; lia].
  - eexists. split; [exact E|simpl; lia].
Qed.

Lemma payment_matches_step s r p :
  payment_matches s p -> payment_matches (handle s r).1 p.
Proof.
  intros (b & Hb & Ha & Ht & Hs & Hr).
  destruct (booking_write_lookup _ _ _ _ (handle_booking_write s r) Hb)
    as (b' & Hb' & E).
  exists b'. unfold core in E. split; [done|]. repeat split; congruence.
Qed.

(** X5: every stored payment names a stored booking and carries that
    booking's total, trip, seat and reference. *)
Theorem payments_match_bookings s :
  reachable s -> Forall (payment_matches s) (payments s).
Proof.
  induction 1 as [|s r Hs IH]; [constructor|].
  destruct (handle_payment_write s r)
    as [E|(email & bid & b & txn & m & d & Hb & E)]; rewrite E.
  - eapply Forall_impl; [exact IH|]. intros p. apply payment_matches_step.
  - apply Forall_app. split.
    + eapply Forall_impl; [exact IH|]. intros p. apply payment_matches_step.
    + constructor; [|constructor].
      apply payment_matches_step. by exists b.
Qed.


Lemma booking_total_invariant_witness :
  Forall (fun b => b_totalPrice b = b_unitPrice b * b_quantity b) (bookings settled).
Proof.
  pose proof (booking_total_invariant settled reachable_settled) as H.
  apply List.Forall_forall. intros b Hb.
  rewrite List.Forall_forall in H. specialize (H b Hb).
  destruct Hb as [<-|[]]. apply H; unfold safe; simpl; lia.
Defined.

Lemma booking_seat_assigned_witness :
  Forall (fun b => truthy (b_seatNumber b) = true) (bookings cancelled).
Proof. exact (booking_seat_assigned cancelled reachable_cancelled). Defined.

Lemma booking_status_fields_agree_witness :
  Forall (fun b => b_bookingStatus b = statusMap (b_status b) /\
                   active b = negb (bool_decide (b_status b = StRejected)
                                    || bool_decide (b_status b = StCancelled)))
         (bookings settled).
Proof. exact (booking_status_fields_agree settled reachable_settled). Defined.

Lemma payments_match_bookings_witness :
  Forall (payment_matches settled) (payments settled).
Proof. exact (payments_match_bookings settled reachable_settled). Defined.

(** ** Access control *)

(** X7: the admin routes answer 403 and write nothing unless the stored role
    of the requester is exactly "admin" (a requester with no user record
    included). *)
Theorem admin_routes_gated s r e :
  admin_route r = true -> requester r = Some (Some e) ->
  roleOf e s <> JStr "admin" ->
  handle s r = (s, mkResponse 403 (MessageRole "Admin only Actions!" (roleOf e s))).
Proof.
  intros Hr He Hrole.
  assert (verifyADMIN e s =
          Some (mkResponse 403 (MessageRole "Admin only Actions!" (roleOf e s))))
    as Hv.
  { unfold verifyADMIN, strict_eq. by rewrite bool_decide_eq_false_2. }
  destruct r; try discriminate Hr; simpl in He; injection He as ->; cbn [handle].
  - unfold adminVerifyTicket. by rewrite Hv.
  - unfold adminSetRole. by rewrite Hv.
  - unfold adminMarkFraud. by rewrite Hv.
  - unfold toggleAdvertise. by rewrite Hv.
Qed.

(** X8: the vendor routes answer 403 and write nothing unless the stored role
    of the requester is exactly "vendor"; and a vendor who is not the
    ticket's [vendorEmail] can neither change nor delete it. *)
Theorem vendor_routes_gated s r e :
  vendor_route r = true -> requester r = Some (Some e) ->
  (roleOf e s <> JStr "vendor" ->
     handle s r =
     (s, mkResponse 403 (MessageRole "Vendor only Actions!" (roleOf e s)))) /\
  (forall tid ticket,
     roleOf e s = JStr "vendor" -> target_ticket r = Some tid ->
     lookupTicket tid s = Some ticket -> t_vendorEmail ticket <> e ->
     handle s r = (s, reply 403 "Not authorized")).
Proof.
  intros Hr He. split.
  - intros Hrole.
    assert (verifyVENDOR e s =
            Some (mkResponse 403 (MessageRole "Vendor only Actions!" (roleOf e s))))
      as Hv.
    { unfold verifyVENDOR, strict_eq. by rewrite bool_decide_eq_false_2. }
    destruct r; try discriminate Hr; simpl in He; injection He as ->; cbn [handle].
    + unfold postTicket. by rewrite Hv.
    + unfold patchTicket. by rewrite Hv.
    + unfold deleteTicket. by rewrite Hv.
  - intros tid ticket Hrole Htid Ht Hown.
    assert (verifyVENDOR e s = None) as Hv.
    { unfold verifyVENDOR, strict_eq. by rewrite bool_decide_eq_true_2. }
    unfold lookupTicket in Ht.
    destruct r; try discriminate Hr; simpl in He; injection He as ->;
      try discriminate Htid; cbn [handle];
      destruct id as [tid'|]; try discriminate Htid; injection Htid as ->.
    + unfold patchTicket. rewrite Hv, Ht. by rewrite bool_decide_eq_false_2.
    + unfold deleteTicket. rewrite Hv, Ht. by rewrite bool_decide_eq_false_2.
Qed.

(** ** Users *)

Lemma map_updateOne_on {A B} (f : A -> B) (q : A -> bool) (u : A -> A) l :
  (forall x, q x = true -> f (u x) = f x) ->
  List.map f (updateOne q u l) = List.map f l.
Proof.
  intros Hf. induction l as [|x l IH]; simpl; [done|].
  destruct (q x) eqn:E; simpl; by rewrite ?(Hf x E), ?IH.
Qed.

Lemma userByEmail_None_notin e s :
  userByEmail e s = None -> ~ In e (List.map u_email (users s)).
Proof.
  intros H Hin. apply findOne_none_iff in H. rewrite List.Forall_forall in H.
  apply List.in_map_iff in Hin as (u & E & Hu).
  specialize (H u Hu). unfold byEmail in H. by rewrite bool_decide_eq_true_2 in H.
Qed.

(** Every request keeps the list of stored emails or appends a new one. *)
Lemma handle_user_emails s r :
  List.map u_email (users (handle s r).1) = List.map u_email (users s) \/
  exists e, userByEmail e s = None /\
            List.map u_email (users (handle s r).1) =
            List.map u_email (users s) ++ [e].
Proof.
  destruct r; cbn [handle];
    try (left; done);
    try (left; unfold_handler; repeat case_match; done).
  - unfold postUser. case_bool_decide; [by left|].
    destruct (findOne _ (users s)) as [u|] eqn:Hu.
    + left. cbn [fst with_users users]. apply map_updateOne_on.
      intros x Hx. apply bool_decide_eq_true in Hx. by simpl.
    + right. exists (ub_email userData). split; [done|].
      cbn [fst bump with_users users]. by rewrite List.map_app.
  - left. unfold putUserProfile. repeat case_match; try done.
    all: cbn [fst with_users users]; by apply map_updateOne.
  - left. unfold recordPayment. repeat case_match; done.
  - left. unfold adminSetRole. repeat case_match; try done.
    cbn [fst with_users users]. by apply map_updateOne.
  - left. unfold adminMarkFraud. repeat case_match; try done.
    cbn [fst with_users with_tickets users]. by apply map_updateOne.
Qed.

(** X9: no two user records share an email. *)
Theorem user_emails_unique s :
  reachable s -> List.NoDup (List.map u_email (users s)).
Proof.
  induction 1 as [|s r Hs IH]; [constructor|].
  destruct (handle_user_emails s r) as [->|(e & He & ->)]; [done|].
  apply List.NoDup_app; [done|repeat constructor; by intros []|].
  intros x Hx [<-|[]]. by apply (userByEmail_None_notin _ _ He).
Qed.

(** X10: the first [POST /user] of an email creates the record with the role
    the body asks for, and with "customer" only when the body carries no
    (truthy) role. *)
Theorem first_sign_in_role s userData t1 t2 :
  ub_email userData <> "" -> userByEmail (ub_email userData) s = None ->
  let r := postUser s userData t1 t2 in
  r.2 = send (UpdateResult 0 (Some (nextId s))) /\
  exists u,
    users r.1 = users s ++ [u] /\
    userByEmail (ub_email userData) r.1 = Some u /\
    u_id u = nextId s /\ u_email u = ub_email userData /\
    u_role u = (if truthy (ub_role userData) then ub_role userData
                else JStr "customer").
Proof.
  intros He Hu r. unfold r, postUser. unfold userByEmail in Hu.
  rewrite bool_decide_eq_false_2 by done. rewrite Hu. cbn [fst snd].
  split; [done|]. eexists. split; [reflexivity|].
  split; [|split; [done|split; [done|]]].
  - unfold userByEmail. cbn [bump with_users users].
    rewrite findOne_app, Hu. unfold findOne. simpl.
    unfold byEmail. simpl. by rewrite bool_decide_eq_true_2.
  - cbn [u_role]. unfold js_or. destruct (truthy (ub_role userData)) eqn:E; [|done].
    apply bson_id. intros Hr. by rewrite Hr in E.
Qed.

Lemma first_sign_in_role_witness :
  option_map u_role
    (userByEmail "eve@x.io"
       (postUser emptyStore
          (mkUserBody "eve@x.io" (JStr "admin") JUndef JUndef JUndef) "t" "t").1) =
  Some (JStr "admin").
Proof.
  destruct (first_sign_in_role emptyStore
              (mkUserBody "eve@x.io" (JStr "admin") JUndef JUndef JUndef) "t" "t"
              ltac:(done) eq_refl) as (_ & u & _ & Hu & _ & _ & Hr).
  exact (eq_trans (f_equal (option_map u_role) Hu) (f_equal Some Hr)).
Defined.

Lemma reachable_rivals : reachable rivals.
Proof. apply reachable_run, reachable_listed. Qed.

Lemma reachable_staffed : reachable staffed.
Proof. apply reachable_run, reachable_listed. Qed.

Lemma admin_routes_gated_witness :
  handle listed (PatchAdminAdvertise (Some "vendor@x.io") (Some 1%nat)) =
  (listed, mkResponse 403 (MessageRole "Admin only Actions!" (JStr "vendor"))).
Proof.
  refine (admin_routes_gated listed (PatchAdminAdvertise (Some "vendor@x.io") (Some 1%nat))
            "vendor@x.io" eq_refl eq_refl _).
  intros H. vm_compute in H. discriminate H.
Defined.

Lemma vendor_routes_gated_witness :
  handle staffed (DeleteTicket (Some "root@x.io") (Some 1%nat)) =
    (staffed, mkResponse 403 (MessageRole "Vendor only Actions!" (JStr "admin"))) /\
  handle rivals (DeleteTicket (Some "other@x.io") (Some 1%nat)) =
    (rivals, reply 403 "Not authorized").
Proof.
  split.
  - refine (proj1 (vendor_routes_gated staffed
                     (DeleteTicket (Some "root@x.io") (Some 1%nat)) "root@x.io"
                     eq_refl eq_refl) _).
    intros H. vm_compute in H. discriminate H.
  - refine (proj2 (vendor_routes_gated rivals
                     (DeleteTicket (Some "other@x.io") (Some 1%nat)) "other@x.io"
                     eq_refl eq_refl) 1%nat _ eq_refl eq_refl eq_refl _).
    intros H. vm_compute in H. discriminate H.
Defined.

Lemma user_emails_unique_witness :
  List.NoDup (List.map u_email (users rivals)).
Proof. exact (user_emails_unique rivals reachable_rivals). Defined.

(** ** Identifiers *)

Section FreshIds.
Context {A : Type} (id : A -> ObjectId).

Lemma fresh_ids_mono n m l :
  (n <= m)%nat -> fresh_ids id n l -> fresh_ids id m l.
Proof.
  intros Hnm [F N]. split; [|done].
  eapply Forall_impl; [exact F|]. simpl. intros; lia.
Qed.

Lemma fresh_ids_snoc n l x :
  id x = n -> fresh_ids id n l -> fresh_ids id (S n) (l ++ [x]).
Proof.
  intros Hx [F N]. split.
  - apply Forall_app. split.
    + eapply Forall_impl; [exact F|]. simpl. intros; lia.
    + constructor; [lia|constructor].
  - rewrite List.map_app. apply List.NoDup_app; [done|repeat constructor; by intros []|].
    intros i Hi [<-|[]]. apply List.in_map_iff in Hi as (y & E & Hy).
    rewrite List.Forall_forall in F. specialize (F _ Hy). lia.
Qed.

Lemma fresh_ids_map n l l' :
  List.map id l' = List.map id l -> fresh_ids id n l -> fresh_ids id n l'.
Proof.
  intros E [F N]. split; [|by rewrite E].
  apply (proj1 (List.Forall_map id (fun i => (i < n)%nat) l')).
  rewrite E. by apply (proj2 (List.Forall_map id (fun i => (i < n)%nat) l)).
Qed.

Lemma In_deleteOne q (l : list A) y : In y (deleteOne q l) -> In y l.
Proof.
  induction l as [|x l IH]; simpl; [done|].
  destruct (q x); simpl; [auto|]. intros [->|H]; auto.
Qed.

Lemma fresh_ids_deleteOne n q l :
  fresh_ids id n l -> fresh_ids id n (deleteOne q l).
Proof.
  intros [F N]. split.
  - apply List.Forall_forall. intros x Hx. apply In_deleteOne in Hx.
    rewrite List.Forall_forall in F. auto.
  - induction l as [|x l IH]; simpl; [constructor|].
    simpl in N. apply List.NoDup_cons_iff in N as [Hx N].
    apply Forall_cons in F as [_ F].
    destruct (q x); [done|]. simpl. constructor; [|by apply IH].
    intros Hin. apply Hx. apply List.in_map_iff in Hin as (y & E & Hy).
    apply List.in_map_iff. exists y. split; [done|]. by apply In_deleteOne in Hy.
Qed.

End FreshIds.

Lemma map_updateMany {A B} (f : A -> B) q u (l : list A) :
  (forall x, f (u x) = f x) -> List.map f (updateMany q u l) = List.map f l.
Proof.
  intros Hf. unfold updateMany. rewrite List.map_map. apply List.map_ext.
  intros x. by destruct (q x).
Qed.

Lemma fold_applyTicketSet_id data : forall t,
  t_id (fold_left applyTicketSet data t) = t_id t.
Proof.
  induction data as [|k data IH]; intros t; simpl; [done|].
  rewrite IH. by destruct k.
Qed.

(** The ids of tickets, users and payments stay distinct and below the
    counter. *)
Lemma handle_fresh_ids s r :
  fresh_ids t_id (nextId s) (tickets s) /\
  fresh_ids u_id (nextId s) (users s) /\
  fresh_ids p_id (nextId s) (payments s) ->
  fresh_ids t_id (nextId (handle s r).1) (tickets (handle s r).1) /\
  fresh_ids u_id (nextId (handle s r).1) (users (handle s r).1) /\
  fresh_ids p_id (nextId (handle s r).1) (payments (handle s r).1).
Proof.
  intros (Ht & Hu & Hp).
  assert (forall (f : User -> User) q,
            (forall x, u_id (f x) = u_id x) ->
            fresh_ids u_id (nextId s) (updateOne q f (users s))) as Huu.
  { intros f q Hf. eapply fresh_ids_map; [|exact Hu]. by apply map_updateOne. }
  assert (forall (f : Ticket -> Ticket) q,
            (forall x, t_id (f x) = t_id x) ->
            fresh_ids t_id (nextId s) (updateOne q f (tickets s))) as Htt.
  { intros f q Hf. eapply fresh_ids_map; [|exact Ht]. by apply map_updateOne. }
  pose proof (fun A id l => @fresh_ids_mono A id (nextId s) (S (nextId s)) l
                              (Nat.le_succ_diag_r _)) as Hmono.
  destruct r; cbn [handle]; try done;
    first [ unfold_handler | unfold recordPayment ]; cbv zeta;
    repeat case_match; cbn [fst]; try done;
    cbn [bump with_tickets with_users with_bookings with_payments
         tickets users payments nextId];
    (split; [|split]);
    first [ done | by apply Huu | by apply Htt | by apply Hmono
          | by apply fresh_ids_snoc | by apply Hmono, Htt
          | by apply fresh_ids_deleteOne
          | apply Htt; intros; apply fold_applyTicketSet_id
          | eapply fresh_ids_map; [|exact Ht]; by apply map_updateMany ].
Qed.

Lemma reachable_fresh_ids s :
  reachable s ->
  fresh_ids t_id (nextId s) (tickets s) /\
  fresh_ids u_id (nextId s) (users s) /\
  fresh_ids p_id (nextId s) (payments s).
Proof.
  induction 1 as [|s r Hs IH].
  - repeat split; constructor.
  - by apply handle_fresh_ids.
Qed.

(** ** Tickets that disappear *)

Lemma deleteOne_split {A} (q : A -> bool) l b :
  findOne q l = Some b ->
  exists l1 l2, l = l1 ++ b :: l2 /\ Forall (fun x => q x = false) l1 /\
                deleteOne q l = l1 ++ l2.
Proof.
  unfold findOne. induction l as [|x l IH]; simpl; [done|].
  destruct (q x) eqn:E.
  - intros [= ->]. exists [], l. split; [done|]. split; [constructor|done].
  - intros H. destruct (IH H) as (l1 & l2 & -> & F & D).
    exists (x :: l1), l2. split; [done|]. split; [by constructor|].
    simpl. by rewrite D.
Qed.

Lemma lookupTicket_deleteOne s tid ticket :
  List.NoDup (List.map t_id (tickets s)) -> lookupTicket tid s = Some ticket ->
  findOne (byTicketId tid) (deleteOne (byTicketId tid) (tickets s)) = None /\
  forall tid', tid' <> tid ->
    findOne (byTicketId tid') (deleteOne (byTicketId tid) (tickets s)) =
    lookupTicket tid' s.
Proof.
  unfold lookupTicket. intros Hnd Ht.
  pose proof (findOne_Some _ _ _ Ht) as [_ Hid].
  apply bool_decide_eq_true in Hid.
  destruct (deleteOne_split _ _ _ Ht) as (l1 & l2 & El & F1 & ->).
  rewrite El in Hnd |- *. rewrite List.map_app in Hnd. simpl in Hnd.
  apply List.NoDup_remove_2 in Hnd.
  assert (Forall (fun x => byTicketId tid x = false) l2) as F2.
  { apply List.Forall_forall. intros x Hx. apply bool_decide_eq_false.
    intros E. apply Hnd, in_or_app. right. rewrite Hid, <- E. by apply List.in_map. }
  split.
  - apply findOne_none_iff, Forall_app. by split.
  - intros tid' Hne. rewrite !findOne_app. destruct (findOne _ l1); [done|].
    unfold findOne. simpl. unfold byTicketId at 2.
    rewrite bool_decide_eq_false_2; [done|congruence].
Qed.

(** X12: when the vendor who owns a ticket deletes it, the ticket can no
    longer be looked up, every other ticket is untouched, and its bookings
    and payments stay in place. *)
Theorem deleteTicket_removes s e tid ticket :
  reachable s -> roleOf e s = JStr "vendor" ->
  lookupTicket tid s = Some ticket -> t_vendorEmail ticket = e ->
  let r := deleteTicket s (Some e) (Some tid) in
  r.2 = send (DeleteResult 1) /\
  lookupTicket tid r.1 = None /\
  (forall tid', tid' <> tid -> lookupTicket tid' r.1 = lookupTicket tid' s) /\
  bookings r.1 = bookings s /\ payments r.1 = payments s /\ users r.1 = users s.
Proof.
  intros Hs Hrole Ht Hown r.
  destruct (reachable_fresh_ids s Hs) as ((_ & Hnd) & _).
  destruct (lookupTicket_deleteOne s tid ticket Hnd Ht) as [Hgone Hrest].
  unfold r, deleteTicket, verifyVENDOR, strict_eq. rewrite Hrole.
  rewrite bool_decide_eq_true_2 by done.
  unfold lookupTicket in Ht. rewrite Ht.
  rewrite bool_decide_eq_true_2 by done. cbn [negb fst snd].
  split; [done|]. split; [exact Hgone|]. split; [exact Hrest|done].
Qed.

Lemma deleteTicket_removes_witness :
  lookupTicket 1%nat (deleteTicket listed (Some "vendor@x.io") (Some 1%nat)).1 = None.
Proof.
  destruct (deleteTicket_removes listed "vendor@x.io" 1%nat _ reachable_listed
              eq_refl eq_refl eq_refl) as (_ & H & _).
  exact H.
Defined.

(** X13: a booking whose ticket is gone can still be settled and cancelled;
    both requests succeed and no ticket quantity changes. *)
Theorem ticketless_booking s requester bid b :
  bookingById bid s = Some b -> lookupTicket (b_ticketId b) s = None ->
  (forall txn method d,
     b_status b <> StPaid -> seat_taken_by_other b s = false ->
     let r := recordPayment s (Some requester) (Some bid) txn
                            (JNum (b_totalPrice b)) method d in
     r.2 = send Success /\ tickets r.1 = tickets s /\
     lifecycle bid r.1 = Some Confirmed) /\
  (forall t1 t2,
     b_userEmail b = requester ->
     let r := cancelBooking s (Some requester) (Some bid) t1 t2 in
     r.2 = mkResponse 200 (SuccessMessage "Booking cancelled successfully") /\
     tickets r.1 = tickets s /\ lifecycle bid r.1 = Some Cancelled).
Proof.
  intros Hb Ht. unfold lookupTicket in Ht. split.
  - intros txn method d Hp Hs r. unfold r.
    rewrite (recordPayment_match _ _ _ _ _ _ _ Hb Hp), Hs. cbn [fst snd].
    split; [done|]. split.
    + unfold settle. cbn [tickets]. by apply updateOne_miss.
    + unfold lifecycle. by rewrite (bookingById_settle _ _ _ _ _ _ _ _ Hb).
  - intros t1 t2 <- r. unfold r.
    rewrite (cancelBooking_owner _ _ _ _ _ Hb). cbn [fst snd].
    split; [done|]. split.
    + destruct (wasPaid b); [|done]. cbn [with_tickets with_bookings tickets].
      by apply updateOne_miss.
    + assert (lifecycle bid
                (with_bookings s
                   (updateOne (byBookingId bid) (markCancelled t1 t2) (bookings s)))
              = Some Cancelled) as H
        by (by rewrite (lifecycle_update _ _ _ _ Hb)).
      by destruct (wasPaid b).
Qed.

Lemma ticketless_booking_witness :
  (recordPayment orphaned (Some "ann@x.io") (Some 2%nat) (JStr "tx") (JNum 40)
                 JUndef "d").2 = send Success /\
  tickets (recordPayment orphaned (Some "ann@x.io") (Some 2%nat) (JStr "tx")
                         (JNum 40) JUndef "d").1 = [].
Proof.
  destruct (ticketless_booking orphaned "ann@x.io" 2%nat _ eq_refl eq_refl)
    as [Hpay _].
  destruct (Hpay (JStr "tx") JUndef "d" ltac:(done) eq_refl) as (Hok & Ht & _).
  split; [exact Hok|exact Ht].
Defined.

(** ** The public catalogue *)

(** What the three catalogue lists return. *)
Lemma catalogue_lists_public s :
  (forall t, In t (returned (ticketsAll s).2) -> In t (tickets s) /\ public t) /\
  (forall t, In t (returned (ticketsLatest s).2) -> In t (tickets s) /\ public t) /\
  (forall t, In t (returned (ticketsAdvertisedHome s).2) ->
             In t (tickets s) /\ public t /\ t_isAdvertised t = JBool true).
Proof.
  split; [|split].
  - intros t. unfold ticketsAll, returned. simpl.
    by rewrite In_sortDesc, List.filter_In, publicFilter_public.
  - intros t. unfold ticketsLatest, returned. simpl. intros H.
    apply In_take, In_sortDesc, List.filter_In in H.
    by rewrite <- publicFilter_public.
  - intros t. unfold ticketsAdvertisedHome, returned. simpl. intros H.
    apply In_take, List.filter_In in H as [Hin H].
    apply andb_true_iff in H as [Ha Hp].
    apply bool_decide_eq_true in Ha. by apply publicFilter_public in Hp.
Qed.

Lemma catalogue_lists_public_all s t :
  In t (tickets s) /\ public t -> In t (returned (ticketsAll s).2).
Proof.
  intros H. unfold ticketsAll, returned. simpl.
  by rewrite In_sortDesc, List.filter_In, publicFilter_public.
Qed.

Lemma In_updateMany {A} (q : A -> bool) (u : A -> A) l y :
  In y (updateMany q u l) ->
  exists x, In x l /\ y = (if q x then u x else x).
Proof.
  unfold updateMany. intros H. apply List.in_map_iff in H as (x & E & Hx). eauto.
Qed.

(** X15: once an administrator has marked a vendor as fraudulent, none of the
    three catalogue lists shows a ticket of that vendor. *)
Theorem fraud_hides_tickets s admin e :
  verifyADMIN admin s = None ->
  let r := adminMarkFraud s (Some admin) e in
  r.2 = send Success /\
  (forall t, In t (tickets r.1) -> t_vendorEmail t = e -> t_isHidden t = JBool true) /\
  (forall t, In t (returned (ticketsAll r.1).2) -> t_vendorEmail t <> e) /\
  (forall t, In t (returned (ticketsLatest r.1).2) -> t_vendorEmail t <> e) /\
  (forall t, In t (returned (ticketsAdvertisedHome r.1).2) -> t_vendorEmail t <> e).
Proof.
  intros Hv r. unfold r, adminMarkFraud. rewrite Hv. cbn [fst snd].
  set (s' := with_tickets _ _).
  assert (forall t, In t (tickets s') -> t_vendorEmail t = e ->
                    t_isHidden t = JBool true) as Hhid.
  { intros t Ht He. unfold s' in Ht. cbn [with_tickets with_users tickets] in Ht.
    apply In_updateMany in Ht as (x & _ & ->).
    case_bool_decide as Hx; [done|]. by destruct Hx. }
  assert (forall t, In t (tickets s') /\ public t -> t_vendorEmail t <> e) as Hpub.
  { intros t [Ht [_ Hp]] He. by apply Hp, Hhid. }
  destruct catalogue_lists_public with (s := s') as (Hall & Hlatest & Hadv).
  split; [done|]. split; [exact Hhid|]. split; [|split].
  - intros t Ht. by apply Hpub, Hall.
  - intros t Ht. by apply Hpub, Hlatest.
  - intros t Ht. apply Hpub. by destruct (Hadv t Ht) as (? & ? & _).
Qed.

Lemma fraud_hides_tickets_witness :
  Forall (fun t => t_vendorEmail t <> "vendor@x.io")
         (returned (ticketsAll (adminMarkFraud capped (Some "root@x.io")
                                               "vendor@x.io").1).2).
Proof.
  assert (verifyADMIN "root@x.io" capped = None) as Hv
    by (vm_compute; reflexivity).
  destruct (fraud_hides_tickets capped "root@x.io" "vendor@x.io" Hv)
    as (_ & _ & Hall & _).
  apply List.Forall_forall. exact Hall.
Defined.

(** X16: a ticket a vendor posts is stored as pending and not advertised,
    whatever the body says, and none of the three catalogue lists changes. *)
Theorem posted_ticket_not_public s e ticketData t :
  roleOf e s = JStr "vendor" ->
  let r := postTicket s (Some e) ticketData t in
  r.2 = send (InsertResult (nextId s)) /\
  (exists doc,
     tickets r.1 = tickets s ++ [doc] /\ t_id doc = nextId s /\
     t_vendorEmail doc = e /\ t_verificationStatus doc = JStr "pending" /\
     t_isAdvertised doc = JBool false /\ t_price doc = tb_price ticketData /\
     t_quantity doc = tb_quantity ticketData) /\
  returned (ticketsAll r.1).2 = returned (ticketsAll s).2 /\
  returned (ticketsLatest r.1).2 = returned (ticketsLatest s).2 /\
  returned (ticketsAdvertisedHome r.1).2 = returned (ticketsAdvertisedHome s).2.
Proof.
  intros Hrole r. unfold r, postTicket, verifyVENDOR, strict_eq. rewrite Hrole.
  rewrite bool_decide_eq_true_2 by done. cbn [fst snd].
  split; [done|]. split; [eexists; split; [reflexivity|done]|].
  unfold ticketsAll, ticketsLatest, ticketsAdvertisedHome, returned.
  cbn [snd body send bump with_tickets tickets].
  rewrite !List.filter_app. simpl. by rewrite !app_nil_r.
Qed.

Lemma posted_ticket_not_public_witness :
  returned (ticketsAll listed).2 = [].
Proof.
  destruct (posted_ticket_not_public
              (run emptyStore
                 [PostUser vendorBody "2026-01-01T09:00:00.000Z"
                           "2026-01-01T09:00:00.000Z"])
              "vendor@x.io" dhakaBody "2026-01-01T09:30:00.000Z" eq_refl)
    as (_ & _ & Hall & _).
  exact Hall.
Defined.

Lemma split_ticket_by_id s tid ticket :
  List.NoDup (List.map t_id (tickets s)) -> lookupTicket tid s = Some ticket ->
  exists l1 l2,
    tickets s = l1 ++ ticket :: l2 /\ t_id ticket = tid /\
    Forall (fun x => t_id x <> tid) l1 /\ Forall (fun x => t_id x <> tid) l2 /\
    forall u, updateOne (byTicketId tid) u (tickets s) = l1 ++ u ticket :: l2.
Proof.
  unfold lookupTicket. intros Hnd Ht.
  destruct (updateOne_split _ _ _ Ht) as (l1 & l2 & El & F1 & Hq & Hu).
  apply bool_decide_eq_true in Hq.
  exists l1, l2. split; [done|]. split; [done|]. split; [|split; [|done]].
  - eapply Forall_impl; [exact F1|]. simpl. intros x Hx.
    by apply bool_decide_eq_false in Hx.
  - rewrite El, List.map_app in Hnd. simpl in Hnd.
    apply List.NoDup_remove_2 in Hnd.
    apply List.Forall_forall. intros x Hx E.
    apply Hnd, in_or_app. right. rewrite Hq, <- E. by apply List.in_map.
Qed.

(** X17: the administrator's decision settles whether a ticket is listed:
    once approved, a ticket that is not hidden is in [GET /tickets/all]; once
    rejected it is in none of the lists; any other decision value is refused
    with 400. *)
Theorem verification_decides_listing s admin tid ticket :
  reachable s -> verifyADMIN admin s = None ->
  lookupTicket tid s = Some ticket ->
  (t_isHidden ticket <> JBool true ->
     In (setVerificationStatus (JStr "approved") ticket)
        (returned (ticketsAll
                     (adminVerifyTicket s (Some admin) (Some tid) "approved").1).2)) /\
  (let s' := (adminVerifyTicket s (Some admin) (Some tid) "rejected").1 in
   forall t,
     In t (returned (ticketsAll s').2) \/ In t (returned (ticketsLatest s').2) \/
     In t (returned (ticketsAdvertisedHome s').2) -> t_id t <> tid) /\
  (forall v, v <> "approved" -> v <> "rejected" ->
             adminVerifyTicket s (Some admin) (Some tid) v =
             (s, reply 400 "Invalid stats")).
Proof.
  intros Hs Hv Ht.
  destruct (reachable_fresh_ids s Hs) as ((_ & Hnd) & _).
  destruct (split_ticket_by_id s tid ticket Hnd Ht)
    as (l1 & l2 & El & Eid & F1 & F2 & Hu).
  split; [|split].
  - intros Hh. apply catalogue_lists_public_all.
    unfold adminVerifyTicket. rewrite Hv. simpl. rewrite Hu. split.
    + apply in_or_app. right. by left.
    + by split.
  - intros s' t Hin.
    assert (In t (tickets s') /\ public t) as [Hin' [Hp _]].
    { destruct (catalogue_lists_public s') as (Ha & Hl & Hd).
      destruct Hin as [H|[H|H]]; [by apply Ha|by apply Hl|].
      by destruct (Hd t H) as (? & ? & _). }
    unfold s', adminVerifyTicket in Hin'. rewrite Hv in Hin'. simpl in Hin'.
    rewrite Hu in Hin'. apply in_app_or in Hin' as [H|[<-|H]].
    + rewrite List.Forall_forall in F1. by apply F1.
    + done.
    + rewrite List.Forall_forall in F2. by apply F2.
  - intros v H1 H2. unfold adminVerifyTicket. rewrite Hv.
    by rewrite !bool_decide_eq_false_2.
Qed.

Lemma verification_decides_listing_witness :
  exists t,
    lookupTicket 1%nat staffed = Some t /\
    In (setVerificationStatus (JStr "approved") t)
       (returned (ticketsAll
                    (adminVerifyTicket staffed (Some "root@x.io") (Some 1%nat)
                                       "approved").1).2).
Proof.
  eexists. split; [reflexivity|].
  refine (proj1 (verification_decides_listing staffed "root@x.io" 1%nat _
                   reachable_staffed eq_refl eq_refl) _).
  done.
Defined.

Lemma countDocuments_updateOne_exact {A} (p q : A -> bool) u l b :
  findOne q l = Some b ->
  (countDocuments p (updateOne q u l) + (if p b then 1 else 0) =
   countDocuments p l + (if p (u b) then 1 else 0))%nat.
Proof.
  intros Hb. destruct (updateOne_split _ _ _ Hb) as (l1 & l2 & -> & _ & _ & Hu).
  rewrite Hu, !countDocuments_app, !countDocuments_cons. lia.
Qed.

(** X18: [PATCH /tickets/:id] writes the whole body into the vendor's own
    ticket, the moderation fields included: with a body setting
    [verificationStatus] to approved and [isAdvertised] to true the ticket is
    published and advertised without any administrator and without the cap
    of six being consulted. *)
Theorem vendor_self_publish s e tid ticket :
  roleOf e s = JStr "vendor" -> lookupTicket tid s = Some ticket ->
  t_vendorEmail ticket = e ->
  let r := patchTicket s (Some e) (Some tid) selfPublish in
  let ticket' :=
    setIsAdvertised (JBool true) (setVerificationStatus (JStr "approved") ticket) in
  r.2 = send (UpdateResult 1 None) /\
  lookupTicket tid r.1 = Some ticket' /\
  (advertisedFilter ticket = false ->
     advertisedCount r.1 = S (advertisedCount s)) /\
  (t_isHidden ticket <> JBool true ->
     In ticket' (returned (ticketsAll r.1).2) /\
     In ticket' (tickets r.1) /\ advertisedFilter ticket' = true /\
     publicFilter ticket' = true).
Proof.
  intros Hrole Ht Hown r ticket'.
  unfold r, patchTicket, verifyVENDOR, strict_eq. rewrite Hrole.
  rewrite bool_decide_eq_true_2 by done.
  pose proof Ht as Ht'. unfold lookupTicket in Ht'. rewrite Ht'.
  rewrite bool_decide_eq_true_2 by done. cbn [negb fst snd].
  assert (lookupTicket tid
            (with_tickets s
               (updateOne (byTicketId tid)
                          (fun t => fold_left applyTicketSet selfPublish t)
                          (tickets s))) = Some ticket') as Hl.
  { unfold lookupTicket. cbn [with_tickets tickets].
    rewrite findOne_updateOne_same by done. by rewrite Ht'. }
  split; [done|]. split; [exact Hl|]. split.
  - intros Hf. unfold advertisedCount. cbn [with_tickets tickets].
    pose proof (countDocuments_updateOne_exact advertisedFilter (byTicketId tid)
                  (fun t => fold_left applyTicketSet selfPublish t) _ _ Ht') as E.
    cbv beta in E.
    change (fold_left applyTicketSet selfPublish ticket) with ticket' in E.
    assert (advertisedFilter ticket' = true) as Hadv by done.
    rewrite Hf, Hadv in E. lia.
  - intros Hh. apply findOne_Some in Hl as [Hin _].
    assert (publicFilter ticket' = true) as Hp.
    { apply publicFilter_public. by split. }
    split; [|done]. apply catalogue_lists_public_all. split; [done|].
    by apply publicFilter_public.
Qed.

Lemma vendor_self_publish_witness :
  advertisedCount capped = 6%nat /\
  advertisedCount
    (patchTicket capped (Some "vendor@x.io") (Some 8%nat) selfPublish).1 = 7%nat.
Proof.
  assert (advertisedCount capped = 6%nat) as Hc by (vm_compute; reflexivity).
  split; [exact Hc|].
  assert (roleOf "vendor@x.io" capped = JStr "vendor") as Hrole
    by (vm_compute; reflexivity).
  destruct (lookupTicket 8%nat capped) as [tk|] eqn:Ht;
    [|vm_compute in Ht; discriminate Ht].
  pose proof Ht as Etk. vm_compute in Etk. injection Etk as Etk.
  assert (t_vendorEmail tk = "vendor@x.io") as Hown by (by rewrite <- Etk).
  assert (advertisedFilter tk = false) as Hf by (by rewrite <- Etk).
  destruct (vendor_self_publish capped "vendor@x.io" 8%nat tk Hrole Ht Hown)
    as (_ & _ & Hcount & _).
  exact (eq_trans (Hcount Hf) (f_equal S Hc)).
Defined.

(** X19: switching an approved ticket on and then off again, with room under
    the cap, answers true then false and brings the advertised count back to
    what it was. *)
Theorem toggle_twice s admin tid ticket :
  verifyADMIN admin s = None -> lookupTicket tid s = Some ticket ->
  t_verificationStatus ticket = JStr "approved" ->
  truthy (t_isAdvertised ticket) = false -> (advertisedCount s < 6)%nat ->
  let r1 := toggleAdvertise s (Some admin) (Some tid) in
  let r2 := toggleAdvertise r1.1 (Some admin) (Some tid) in
  r1.2 = send (Toggled "Toggled advertise" true) /\
  advertisedCount r1.1 = S (advertisedCount s) /\
  r2.2 = send (Toggled "Toggled advertise" false) /\
  lookupTicket tid r2.1 = Some (setIsAdvertised (JBool false) ticket) /\
  advertisedCount r2.1 = advertisedCount s.
Proof.
  intros Hv Ht Happ Hoff Hcap r1 r2.
  assert (r1 = (with_tickets s
                  (updateOne (byTicketId tid) (setIsAdvertised (JBool true))
                             (tickets s)),
                send (Toggled "Toggled advertise" true))) as E1.
  { unfold r1. rewrite (toggleAdvertise_admin _ _ _ _ Hv Ht), Happ, Hoff.
    unfold strict_eq. rewrite bool_decide_eq_true_2 by done. cbn [negb andb].
    apply Nat.leb_gt in Hcap. by rewrite Hcap. }
  set (ticket1 := setIsAdvertised (JBool true) ticket).
  assert (lookupTicket tid r1.1 = Some ticket1) as Ht1.
  { rewrite E1. unfold lookupTicket in *. cbn [fst with_tickets tickets].
    rewrite findOne_updateOne_same by done. by rewrite Ht. }
  assert (advertisedFilter ticket = false) as Hf.
  { unfold advertisedFilter. rewrite bool_decide_eq_false_2; [done|].
    intros E. rewrite E in Hoff. done. }
  assert (advertisedCount r1.1 = S (advertisedCount s)) as Hc1.
  { rewrite E1. unfold advertisedCount. cbn [fst with_tickets tickets].
    pose proof (countDocuments_updateOne_exact advertisedFilter (byTicketId tid)
                  (setIsAdvertised (JBool true)) _ _ Ht) as E.
    assert (advertisedFilter (setIsAdvertised (JBool true) ticket) = true)
      as Hadv by (unfold advertisedFilter; simpl; by rewrite Happ).
    rewrite Hf, Hadv in E. lia. }
  assert (r2 = (with_tickets r1.1
                  (updateOne (byTicketId tid) (setIsAdvertised (JBool false))
                             (tickets r1.1)),
                send (Toggled "Toggled advertise" false))) as E2.
  { unfold r2. assert (verifyADMIN admin r1.1 = None) as Hv1 by (by rewrite E1).
    rewrite (toggleAdvertise_admin _ _ _ _ Hv1 Ht1). unfold ticket1. simpl.
    rewrite Happ. unfold strict_eq. by rewrite bool_decide_eq_true_2. }
  split; [by rewrite E1|]. split; [done|]. split; [by rewrite E2|].
  split.
  - rewrite E2. unfold lookupTicket in *. cbn [fst with_tickets tickets].
    rewrite findOne_updateOne_same by done. by rewrite Ht1.
  - rewrite E2. unfold advertisedCount in *. cbn [fst with_tickets tickets].
    pose proof (countDocuments_updateOne_exact advertisedFilter (byTicketId tid)
                  (setIsAdvertised (JBool false)) _ _ Ht1) as E.
    assert (advertisedFilter ticket1 = true)
      as Hadv by (unfold advertisedFilter; simpl; by rewrite Happ).
    assert (advertisedFilter (setIsAdvertised (JBool false) ticket1) = false)
      as Hadv' by done.
    rewrite Hadv, Hadv', Hc1 in E. unfold advertisedCount in E. lia.
Qed.

Lemma toggle_twice_witness :
  advertisedCount
    (toggleAdvertise (toggleAdvertise fleet (Some "root@x.io") (Some 1%nat)).1
                     (Some "root@x.io") (Some 1%nat)).1 =
  advertisedCount fleet.
Proof.
  assert (verifyADMIN "root@x.io" fleet = None) as Hv by (vm_compute; reflexivity).
  destruct (lookupTicket 1%nat fleet) as [tk|] eqn:Ht;
    [|vm_compute in Ht; discriminate Ht].
  pose proof Ht as Etk. vm_compute in Etk. injection Etk as Etk.
  assert (t_verificationStatus tk = JStr "approved") as Happ by (by rewrite <- Etk).
  assert (truthy (t_isAdvertised tk) = false) as Hoff by (by rewrite <- Etk).
  assert (advertisedCount fleet < 6)%nat as Hcap by (vm_compute; lia).
  destruct (toggle_twice fleet "root@x.io" 1%nat tk Hv Ht Happ Hoff Hcap)
    as (_ & _ & _ & _ & H).
  exact H.
Defined.

(** ** Settlement followed by cancellation *)

Lemma updateOne_twice {A} (q : A -> bool) (f g : A -> A) l :
  (forall x, q x = true -> q (f x) = true) ->
  updateOne q g (updateOne q f l) = updateOne q (fun x => g (f x)) l.
Proof.
  intros Hq. induction l as [|x l IH]; simpl; [done|].
  destruct (q x) eqn:E; simpl.
  - by rewrite (Hq _ E).
  - by rewrite E, IH.
Qed.

Lemma updateOne_id {A} (q : A -> bool) (f : A -> A) l :
  (forall x, findOne q l = Some x -> f x = x) -> updateOne q f l = l.
Proof.
  unfold findOne. induction l as [|x l IH]; simpl; [done|].
  destruct (q x); intros Hf; [by rewrite Hf|by rewrite IH].
Qed.

(** Within the safe range a decrement followed by the same increment gives
    the quantity back. *)
Lemma incQuantity_back d t :
  safe (t_quantity t) -> safe (t_quantity t - d) ->
  incQuantity d (incQuantity (- d) t) = t.
Proof.
  intros H1 H2. destruct t. unfold incQuantity. simpl in *.
  rewrite (js_add_safe _ (- d)) by (by replace (t_quantity0 + - d) with (t_quantity0 - d) by lia).
  rewrite js_add_safe by (by replace (t_quantity0 + - d + d) with t_quantity0 by lia).
  f_equal. lia.
Qed.

(** X20: settling a pending booking and then cancelling it brings every ticket
    back to what it was, provided the ticket's quantity before and after the
    decrement is within the safe range; the booking ends cancelled and the
    payment record stays in the history. *)
Theorem settle_then_cancel s payer bid b txn method d t1 t2 :
  reachable s -> bookingById bid s = Some b -> b_bookingStatus b = Pending ->
  (forall ticket,
     lookupTicket (b_ticketId b) s = Some ticket ->
     safe (t_quantity ticket) /\ safe (t_quantity ticket - b_quantity b)) ->
  let r1 := recordPayment s (Some payer) (Some bid) txn (JNum (b_totalPrice b))
                          method d in
  let r2 := cancelBooking r1.1 (Some (b_userEmail b)) (Some bid) t1 t2 in
  r1.2 = send Success /\
  quantityOf (b_ticketId b) r1.1 =
    option_map (fun q => q - b_quantity b) (quantityOf (b_ticketId b) s) /\
  r2.2 = mkResponse 200 (SuccessMessage "Booking cancelled successfully") /\
  tickets r2.1 = tickets s /\
  lifecycle bid r2.1 = Some Cancelled /\
  payments r2.1 =
    payments s ++
    [newPayment (nextId s) payer bid b txn (JNum (b_totalPrice b)) method d].
Proof.
  intros Hs Hb Hpend Hsafe r1 r2. apply reachable_Inv in Hs.
  pose proof (bookingById_consistent _ _ _ Hs Hb) as Hc.
  assert (b_status b <> StPaid) as Hp.
  { intros E. unfold consistent in Hc. rewrite E, Hpend in Hc. done. }
  assert (active b = true) as Ha by (unfold active; by rewrite Hpend).
  pose proof (active_not_taken _ _ _ Hs Hb Ha) as Hfree.
  assert (r1 = (settle s payer bid b txn (JNum (b_totalPrice b)) method d,
                send Success)) as E1.
  { unfold r1. by rewrite (recordPayment_match _ _ _ _ _ _ _ Hb Hp), Hfree. }
  pose proof (bookingById_settle s payer bid b txn (JNum (b_totalPrice b))
                method d Hb) as Hb1.
  assert (r2 = cancelBooking (settle s payer bid b txn (JNum (b_totalPrice b))
                                     method d)
                 (Some (b_userEmail (markPaid txn method d b))) (Some bid) t1 t2)
    as E2 by (unfold r2; by rewrite E1).
  rewrite (cancelBooking_owner _ _ _ _ _ Hb1) in E2. cbn zeta in E2.
  replace (wasPaid (markPaid txn method d b)) with true in E2 by done.
  rewrite E1, E2. cbn [fst snd].
  split; [done|]. split.
  { rewrite quantityOf_settle. unfold quantityOf.
    destruct (lookupTicket (b_ticketId b) s) as [ticket|] eqn:Ht; [|done].
    simpl. f_equal. destruct (Hsafe ticket eq_refl) as [_ H2].
    rewrite js_add_safe; [lia|].
    by replace (t_quantity ticket + - b_quantity b)
         with (t_quantity ticket - b_quantity b) by lia. }
  split; [done|].
  split; [|split; [|done]].
  - cbn [with_tickets tickets settle].
    change (b_ticketId (markPaid txn method d b)) with (b_ticketId b).
    change (b_quantity (markPaid txn method d b)) with (b_quantity b).
    rewrite updateOne_twice by done.
    apply updateOne_id. intros t Ht.
    destruct (Hsafe t Ht) as [H1 H2]. by apply incQuantity_back.
  - unfold lifecycle, bookingById. cbn [with_tickets with_bookings bookings settle].
    rewrite !findOne_updateOne_same by done.
    unfold bookingById in Hb. by rewrite Hb.
Qed.

Lemma settle_then_cancel_witness :
  tickets
    (cancelBooking
       (recordPayment booked (Some "bob@x.io") (Some 2%nat) (JStr "tx") (JNum 40)
                      JUndef "d").1
       (Some "ann@x.io") (Some 2%nat) "t1" "t2").1 = tickets booked.
Proof.
  destruct (settle_then_cancel booked "bob@x.io" 2%nat _ (JStr "tx") JUndef "d"
              "t1" "t2" reachable_booked eq_refl eq_refl)
    as (_ & _ & _ & H & _).
  - intros ticket Ht. vm_compute in Ht. injection Ht as <-.
    unfold safe. simpl. lia.
  - exact H.
Defined.

(** ** Error paths of the booking routes *)

(** [PATCH /bookings/:id/status] never looks at who asks: for any two
    authenticated requesters the outcome is the same.  A malformed id or a
    status outside the five accepted words is refused with 400, and an id
    that names no booking is answered 200 with [matchedCount] 0; none of
    these writes anything. *)
Theorem updateBookingStatus_edges s e id status t :
  (forall e', updateBookingStatus s (Some e') id status t =
              updateBookingStatus s (Some e) id status t) /\
  (id = None ->
     updateBookingStatus s (Some e) id status t = (s, reply 400 "Invalid booking ID")) /\
  (forall bid, id = Some bid -> parseStatus status = None ->
     updateBookingStatus s (Some e) id status t = (s, reply 400 "Invalid status")) /\
  (forall bid st, id = Some bid -> parseStatus status = Some st ->
     bookingById bid s = None ->
     updateBookingStatus s (Some e) id status t = (s, send (UpdateResult 0 None))).
Proof.
  split; [done|]. split; [by intros ->|]. split.
  - intros bid -> Hst. unfold updateBookingStatus. by rewrite Hst.
  - intros bid st -> Hst Hb. unfold bookingById in Hb.
    unfold updateBookingStatus, updateBooking, matchedCount.
    rewrite Hst, Hb. by destruct s.
Qed.

(** X21: [DELETE /bookings/:id] is for the owner only: a requester whose
    email differs from the booking's [userEmail] is answered 403, an id that
    names no booking 404, a malformed id 400; in each case nothing is
    written. *)
Theorem cancelBooking_refusals s e id t1 t2 :
  (id = None ->
     cancelBooking s (Some e) id t1 t2 = (s, reply 400 "Invalid booking ID")) /\
  (forall bid, id = Some bid -> bookingById bid s = None ->
     cancelBooking s (Some e) id t1 t2 = (s, reply 404 "Booking not found")) /\
  (forall bid b, id = Some bid -> bookingById bid s = Some b ->
     b_userEmail b <> e ->
     cancelBooking s (Some e) id t1 t2 = (s, reply 403 "Not authorized")).
Proof.
  split; [by intros ->|]. split.
  - intros bid -> Hb. unfold bookingById in Hb. unfold cancelBooking. by rewrite Hb.
  - intros bid b -> Hb Hne. unfold bookingById in Hb. unfold cancelBooking.
    rewrite Hb. by rewrite bool_decide_eq_false_2.
Qed.

Lemma cancelBooking_refusals_witness :
  cancelBooking booked (Some "bob@x.io") (Some 2%nat) "t1" "t2" =
    (booked, reply 403 "Not authorized") /\
  cancelBooking booked (Some "ann@x.io") (Some 7%nat) "t1" "t2" =
    (booked, reply 404 "Booking not found").
Proof.
  split.
  - refine (proj2 (proj2 (cancelBooking_refusals booked "bob@x.io" (Some 2%nat)
                            "t1" "t2")) 2%nat _ eq_refl eq_refl _).
    done.
  - exact (proj1 (proj2 (cancelBooking_refusals booked "ann@x.io" (Some 7%nat)
                           "t1" "t2")) 7%nat eq_refl eq_refl).
Defined.

Lemma updateBookingStatus_edges_witness :
  updateBookingStatus booked (Some "bob@x.io") (Some 2%nat) "refunded" "t" =
    (booked, reply 400 "Invalid status") /\
  updateBookingStatus booked (Some "bob@x.io") (Some 7%nat) "paid" "t" =
    (booked, send (UpdateResult 0 None)).
Proof.
  destruct (updateBookingStatus_edges booked "bob@x.io" (Some 2%nat) "refunded" "t")
    as (_ & _ & Hbad & _).
  destruct (updateBookingStatus_edges booked "bob@x.io" (Some 7%nat) "paid" "t")
    as (_ & _ & _ & Hmiss).
  split.
  - exact (Hbad 2%nat eq_refl eq_refl).
  - exact (Hmiss 7%nat StPaid eq_refl eq_refl eq_refl).
Defined.

(** ** The generated seat and reference *)

(** The floor of a draw scaled by [n] is one of [0 .. n - 1], although the
    product is rounded before the floor is taken. *)
Lemma floor_scaled_bounds r n :
  unit_draw r -> 0 < n -> 0 <= floor_scaled r n < n.
Proof.
  intros (Hm & Hlt & Hk) Hn. unfold floor_scaled.
  destruct (round53_bounds (mantissa r * n)) as [H0 Hup]; [nia|].
  rewrite Z.shiftr_div_pow2 by lia.
  assert (0 < 2 ^ scale r) as Hpos by (apply Z.pow_pos_nonneg; lia).
  set (R := round53 (mantissa r * n)) in *.
  set (P := 2 ^ 53) in *. set (K := 2 ^ scale r) in *.
  split; [apply Z.div_pos; lia|].
  apply Z.div_lt_upper_bound; [lia|].
  assert (R * P < (mantissa r + 1) * n * P) as Hlt' by nia.
  assert (R < (mantissa r + 1) * n) as HR by nia.
  nia.
Qed.

(** X22: for draws in [0, 1) the generated seat is a row number from 1 to 50
    followed by one letter from A to F. *)
Theorem generateSeatNumber_format (r1 r2 : Draw) :
  unit_draw r1 -> unit_draw r2 ->
  exists (row col : N),
    generateSeatNumber r1 r2 =
      decimal row +:+ String (ascii_of_N (65 + col)) "" /\
    (1 <= row <= 50)%N /\ (col <= 5)%N.
Proof.
  intros H1 H2.
  pose proof (floor_scaled_bounds r1 50 H1 ltac:(lia)) as Hr.
  pose proof (floor_scaled_bounds r2 6 H2 ltac:(lia)) as Hc.
  exists (Z.to_N (floor_scaled r1 50 + 1)), (Z.to_N (floor_scaled r2 6)).
  split; [|lia]. unfold generateSeatNumber. cbv zeta.
  do 3 f_equal. lia.
Qed.

(** At the draw 0.7, whose product with 50 rounds up to 35, the seat is in
    row 36. *)
Lemma generateSeatNumber_format_witness :
  generateSeatNumber (mkDraw 6305039478318694 53) (mkDraw 6305039478318694 53) =
    "36E" /\
  exists (row col : N),
    generateSeatNumber (mkDraw 6305039478318694 53) (mkDraw 6305039478318694 53) =
      decimal row +:+ String (ascii_of_N (65 + col)) "" /\
    (1 <= row <= 50)%N /\ (col <= 5)%N.
Proof.
  split; [reflexivity|].
  apply generateSeatNumber_format; unfold unit_draw; simpl; lia.
Defined.

Lemma length_substring n m s : (String.length (substring n m s) <= m)%nat.
Proof.
  revert n m. induction s as [|c s IH]; intros [|n] [|m]; simpl; try lia.
  - specialize (IH 0%nat m). lia.
  - apply IH.
  - apply IH.
Qed.

Lemma length_map_string f s : String.length (map_string f s) = String.length s.
Proof. induction s; simpl; congruence. Qed.

Lemma upper_ascii_not_lower c : is_lower (upper_ascii c) = false.
Proof.
  destruct c as [b0 b1 b2 b3 b4 b5 b6 b7].
  destruct b0, b1, b2, b3, b4, b5, b6, b7; reflexivity.
Qed.

Lemma toUpperCase_no_lower s :
  all_chars (fun c => negb (is_lower c)) (toUpperCase s) = true.
Proof.
  unfold toUpperCase. induction s as [|c s IH]; [done|].
  cbn [map_string all_chars]. by rewrite upper_ascii_not_lower, IH.
Qed.

Lemma string_of_uint_digits d :
  all_chars is_digit (NilEmpty.string_of_uint d) = true.
Proof. induction d; cbn [NilEmpty.string_of_uint all_chars]; try done. Qed.

(** A booking reference is "BK", the decimal digits of the clock reading
    and at most six further characters, none of them a lower-case letter. *)
Theorem generateBookingReference_format now rand36 :
  exists suffix,
    generateBookingReference now rand36 = "BK" +:+ decimal now +:+ suffix /\
    all_chars is_digit (decimal now) = true /\
    (String.length suffix <= 6)%nat /\
    all_chars (fun c => negb (is_lower c)) suffix = true.
Proof.
  exists (toUpperCase (substring 2 6 rand36)).
  split; [done|]. split; [apply string_of_uint_digits|]. split.
  - unfold toUpperCase. rewrite length_map_string. apply length_substring.
  - apply toUpperCase_no_lower.
Qed.

(** ** Vendor revenue *)

Lemma revenueOf_total b : revenueOf b = b_totalPrice b.
Proof.
  unfold revenueOf, js_or. cbn [truthy].
  destruct (b_totalPrice b =? 0) eqn:E; cbn [negb truthy].
  - apply Z.eqb_eq in E. rewrite E. done.
  - by rewrite E.
Qed.

Lemma magnitude_nonneg {A} (f : A -> Z) l : 0 <= magnitude f l.
Proof. induction l as [|x l IH]; [done|]. change (0 <= Z.abs (f x) + magnitude f l). lia. Qed.

Lemma magnitude_cons {A} (f : A -> Z) x l :
  magnitude f (x :: l) = Z.abs (f x) + magnitude f l.
Proof. done. Qed.

Lemma fold_sum_exact {A} (f : A -> Z) l : forall a,
  Z.abs a + magnitude f l <= 2 ^ 53 ->
  fold_left (fun sum b => js_add sum (f b)) l a =
  a + fold_right (fun b r => f b + r) 0 l.
Proof.
  induction l as [|x l IH]; intros a Ha; [simpl; lia|].
  rewrite magnitude_cons in Ha. pose proof (magnitude_nonneg f l) as Hn.
  cbn [fold_left fold_right].
  rewrite js_add_safe by (unfold safe; lia). rewrite IH by lia. lia.
Qed.

(** Within the safe range [reduceSum] is the sum of the terms. *)
Lemma reduceSum_exact {A} (f : A -> Z) l :
  magnitude f l <= 2 ^ 53 ->
  reduceSum f l = fold_right (fun b r => f b + r) 0 l.
Proof.
  intros H. unfold reduceSum. rewrite fold_sum_exact by (cbn [Z.abs]; lia). lia.
Qed.

Lemma magnitude_app {A} (f : A -> Z) l1 l2 :
  magnitude f (l1 ++ l2) = magnitude f l1 + magnitude f l2.
Proof.
  induction l1 as [|x l1 IH]; [done|].
  cbn [app]. rewrite !magnitude_cons, IH. lia.
Qed.

Lemma magnitude_ext {A} (f g : A -> Z) l :
  (forall x, f x = g x) -> magnitude f l = magnitude g l.
Proof.
  intros E. induction l as [|x l IH]; [done|].
  by rewrite !magnitude_cons, E, IH.
Qed.

Lemma sum_app {A} (f : A -> Z) l1 l2 :
  fold_right (fun b r => f b + r) 0 (l1 ++ l2) =
  fold_right (fun b r => f b + r) 0 l1 + fold_right (fun b r => f b + r) 0 l2.
Proof. induction l1 as [|x l1 IH]; simpl; [done|]. rewrite IH. lia. Qed.

(** Putting one more term into a list, or taking one out, moves the sum by
    that term as long as the larger list stays within the safe range. *)
Lemma reduceSum_insert {A} (f : A -> Z) l1 l2 x :
  magnitude f (l1 ++ l2) + Z.abs (f x) <= 2 ^ 53 ->
  reduceSum f (l1 ++ x :: l2) = reduceSum f (l1 ++ l2) + f x.
Proof.
  intros H. pose proof (magnitude_nonneg f l1). pose proof (magnitude_nonneg f l2).
  rewrite magnitude_app in H.
  rewrite !reduceSum_exact
    by (rewrite ?magnitude_app, ?magnitude_cons; change (magnitude f []) with 0; lia).
  rewrite !sum_app. cbn [fold_right]. lia.
Qed.

Lemma revenueOf_magnitude l : magnitude revenueOf l = magnitude b_totalPrice l.
Proof. apply magnitude_ext, revenueOf_total. Qed.

Lemma vendor_tickets_inc email tid d l :
  List.map t_id
    (List.filter (fun t => bool_decide (t_vendorEmail t = email))
                 (updateOne (byTicketId tid) (incQuantity d) l)) =
  List.map t_id (List.filter (fun t => bool_decide (t_vendorEmail t = email)) l).
Proof.
  induction l as [|x l IH]; simpl; [done|].
  destruct (byTicketId tid x); simpl;
    destruct (bool_decide (t_vendorEmail x = email)); simpl; by rewrite ?IH.
Qed.

Lemma length_map_eq {A B} (f : A -> B) l1 l2 :
  List.map f l1 = List.map f l2 -> length l1 = length l2.
Proof. intros E. by rewrite <- (length_map f l1), E, length_map. Qed.

(** The paid bookings of a vendor before and after one booking is rewritten. *)
Lemma paid_bookings_update ids bid u l b :
  findOne (byBookingId bid) l = Some b ->
  exists l1 l2,
    List.filter (paidBookingOf ids) l =
      l1 ++ (if paidBookingOf ids b then [b] else []) ++ l2 /\
    List.filter (paidBookingOf ids) (updateOne (byBookingId bid) u l) =
      l1 ++ (if paidBookingOf ids (u b) then [u b] else []) ++ l2.
Proof.
  intros Hb. destruct (updateOne_split _ _ _ Hb) as (l1 & l2 & -> & _ & _ & Hu).
  exists (List.filter (paidBookingOf ids) l1), (List.filter (paidBookingOf ids) l2).
  rewrite Hu, !List.filter_app. simpl.
  split; by destruct (paidBookingOf ids _).
Qed.

Lemma owned_ticket_listed email tid s ticket :
  lookupTicket tid s = Some ticket -> t_vendorEmail ticket = email ->
  existsb (fun i => bool_decide (tid = i))
    (List.map t_id
       (List.filter (fun t => bool_decide (t_vendorEmail t = email)) (tickets s)))
  = true.
Proof.
  intros Ht Hv. apply findOne_Some in Ht as [Hin Hid].
  apply bool_decide_eq_true in Hid.
  apply existsb_exists. exists (t_id ticket). split.
  - apply List.in_map, List.filter_In. split; [done|by apply bool_decide_eq_true].
  - by apply bool_decide_eq_true.
Qed.

(** X23: the revenue report follows settlements and cancellations, as long
    as its sums stay within the safe range.  Settling a booking that was not
    yet counted raises the ticket owner's [totalRevenue] by the booking's
    total and [totalTicketsSold] by its quantity; the owner's cancellation of
    a counted booking lowers them by the same amounts; [totalTicketsAdded]
    stays the number of the vendor's tickets. *)
Theorem revenue_follows_bookings s bid b ticket :
  bookingById bid s = Some b -> lookupTicket (b_ticketId b) s = Some ticket ->
  let v := t_vendorEmail ticket in
  (forall payer txn method d,
     wasPaid b = false -> seat_taken_by_other b s = false ->
     magnitude b_totalPrice (paidBookings v s) + Z.abs (b_totalPrice b) <= 2 ^ 53 ->
     magnitude b_quantity (paidBookings v s) + Z.abs (b_quantity b) <= 2 ^ 53 ->
     let s' := (recordPayment s (Some payer) (Some bid) txn
                              (JNum (b_totalPrice b)) method d).1 in
     totalRevenue (vendorRevenue v s') =
       totalRevenue (vendorRevenue v s) + b_totalPrice b /\
     totalTicketsSold (vendorRevenue v s') =
       totalTicketsSold (vendorRevenue v s) + b_quantity b /\
     totalTicketsAdded (vendorRevenue v s') =
       totalTicketsAdded (vendorRevenue v s)) /\
  (forall t1 t2,
     wasPaid b = true ->
     magnitude b_totalPrice (paidBookings v s) <= 2 ^ 53 ->
     magnitude b_quantity (paidBookings v s) <= 2 ^ 53 ->
     let s' := (cancelBooking s (Some (b_userEmail b)) (Some bid) t1 t2).1 in
     totalRevenue (vendorRevenue v s') =
       totalRevenue (vendorRevenue v s) - b_totalPrice b /\
     totalTicketsSold (vendorRevenue v s') =
       totalTicketsSold (vendorRevenue v s) - b_quantity b /\
     totalTicketsAdded (vendorRevenue v s') =
       totalTicketsAdded (vendorRevenue v s)).
Proof.
  intros Hb Ht v.
  pose proof (owned_ticket_listed v _ s ticket Ht eq_refl) as Hown.
  set (ids := List.map t_id
                (List.filter (fun t => bool_decide (t_vendorEmail t = v))
                             (tickets s))) in *.
  assert (forall d,
            List.map t_id
              (List.filter (fun t => bool_decide (t_vendorEmail t = v))
                 (updateOne (byTicketId (b_ticketId b)) (incQuantity d) (tickets s)))
            = ids) as Hids by (intros; apply vendor_tickets_inc).
  split.
  - intros payer txn method d Hw Hfree Mt Mq s'.
    assert (b_status b <> StPaid) as Hp.
    { intros E. unfold wasPaid in Hw. by rewrite E in Hw. }
    assert (s' = settle s payer bid b txn (JNum (b_totalPrice b)) method d) as ->.
    { unfold s'. by rewrite (recordPayment_match _ _ _ _ _ _ _ Hb Hp), Hfree. }
    unfold vendorRevenue, paidBookings, vendorTickets, settle in *.
    cbn [tickets bookings totalRevenue totalTicketsSold totalTicketsAdded] in *.
    rewrite (Hids (- b_quantity b)). fold ids in Mt, Mq |- *.
    destruct (paid_bookings_update ids bid (markPaid txn method d) _ _ Hb)
      as (l1 & l2 & E1 & E2).
    rewrite E1 in Mt, Mq |- *. rewrite E2.
    assert (paidBookingOf ids b = false) as E3
      by (unfold paidBookingOf; by rewrite Hw, andb_false_r).
    assert (paidBookingOf ids (markPaid txn method d b) = true) as ->.
    { unfold paidBookingOf. simpl. by rewrite Hown. }
    rewrite E3 in Mt, Mq |- *. cbn [app] in Mt, Mq |- *.
    rewrite (reduceSum_insert revenueOf l1 l2 (markPaid txn method d b))
      by (rewrite revenueOf_magnitude, revenueOf_total; exact Mt).
    rewrite (reduceSum_insert b_quantity l1 l2 (markPaid txn method d b)) by done.
    rewrite revenueOf_total.
    split; [done|]. split; [done|].
    apply (length_map_eq t_id). apply Hids.
  - intros t1 t2 Hw Mt Mq s'.
    assert (s' = with_tickets
                   (with_bookings s
                      (updateOne (byBookingId bid) (markCancelled t1 t2) (bookings s)))
                   (updateOne (byTicketId (b_ticketId b))
                              (incQuantity (b_quantity b)) (tickets s))) as ->.
    { unfold s'. rewrite (cancelBooking_owner _ _ _ _ _ Hb). cbn [fst].
      by rewrite Hw. }
    unfold vendorRevenue, paidBookings, vendorTickets in *.
    cbn [with_tickets with_bookings tickets bookings
      totalRevenue totalTicketsSold totalTicketsAdded] in *.
    rewrite (Hids (b_quantity b)). fold ids in Mt, Mq |- *.
    destruct (paid_bookings_update ids bid (markCancelled t1 t2) _ _ Hb)
      as (l1 & l2 & E1 & E2).
    rewrite E1 in Mt, Mq |- *. rewrite E2.
    assert (paidBookingOf ids b = true) as E3
      by (unfold paidBookingOf; by rewrite Hw, Hown).
    assert (paidBookingOf ids (markCancelled t1 t2 b) = false) as ->.
    { unfold paidBookingOf. simpl. by rewrite andb_false_r. }
    rewrite E3 in Mt, Mq |- *. cbn [app] in Mt, Mq |- *.
    rewrite !magnitude_app, !magnitude_cons in Mt, Mq.
    rewrite (reduceSum_insert revenueOf l1 l2 b)
      by (rewrite revenueOf_magnitude, revenueOf_total, magnitude_app; lia).
    rewrite (reduceSum_insert b_quantity l1 l2 b)
      by (rewrite magnitude_app; lia).
    rewrite revenueOf_total.
    split; [lia|]. split; [lia|].
    apply (length_map_eq t_id). apply Hids.
Qed.

Lemma revenue_follows_bookings_witness :
  totalRevenue (vendorRevenue "vendor@x.io" settled) = 40 /\
  totalTicketsSold (vendorRevenue "vendor@x.io" settled) = 2.
Proof.
  destruct (revenue_follows_bookings booked 2%nat _ _ eq_refl eq_refl) as [Hpay _].
  destruct (Hpay "ann@x.io" (JStr "tx_1") JUndef "2026-01-02T08:00:00.000Z"
                 eq_refl eq_refl) as (Hr & Hs & _).
  - vm_compute. discriminate.
  - vm_compute. discriminate.
  - split; [exact Hr|exact Hs].
Defined.

(** X24: the revenue report counts a booking as sold as soon as its lifecycle
    status is confirmed: after [PATCH /bookings/:id/status] with "accepted"
    the ticket owner's revenue grows by the booking's total (the sums staying
    within the safe range) although no payment record has been written. *)
Theorem revenue_counts_accepted s e bid b ticket t :
  bookingById bid s = Some b -> lookupTicket (b_ticketId b) s = Some ticket ->
  wasPaid b = false -> seat_taken_by_other b s = false ->
  let v := t_vendorEmail ticket in
  magnitude b_totalPrice (paidBookings v s) + Z.abs (b_totalPrice b) <= 2 ^ 53 ->
  magnitude b_quantity (paidBookings v s) + Z.abs (b_quantity b) <= 2 ^ 53 ->
  let r := updateBookingStatus s (Some e) (Some bid) "accepted" t in
  r.2 = send (UpdateResult 1 None) /\
  payments r.1 = payments s /\
  In (setStatus StAccepted Confirmed t b) (paidBookings v r.1) /\
  totalRevenue (vendorRevenue v r.1) =
    totalRevenue (vendorRevenue v s) + b_totalPrice b /\
  totalTicketsSold (vendorRevenue v r.1) =
    totalTicketsSold (vendorRevenue v s) + b_quantity b.
Proof.
  intros Hb Ht Hw Hfree v Mt Mq r.
  pose proof (owned_ticket_listed v _ s ticket Ht eq_refl) as Hown.
  assert (parseStatus "accepted" = Some StAccepted) as Hst by done.
  unfold r. rewrite (updateBookingStatus_found _ _ _ _ _ _ _ Hb Hst), Hfree.
  rewrite andb_false_r. cbn [fst snd].
  split; [done|]. split; [done|].
  unfold vendorRevenue, paidBookings, vendorTickets in *.
  cbn [with_bookings tickets bookings totalRevenue totalTicketsSold] in *.
  set (ids := List.map t_id
                (List.filter (fun t => bool_decide (t_vendorEmail t = v))
                             (tickets s))) in *.
  destruct (paid_bookings_update ids bid
              (setStatus StAccepted (statusMap StAccepted) t) _ _ Hb)
    as (l1 & l2 & E1 & E2).
  rewrite E1 in Mt, Mq |- *. rewrite E2.
  assert (paidBookingOf ids b = false) as E3
    by (unfold paidBookingOf; by rewrite Hw, andb_false_r).
  assert (paidBookingOf ids (setStatus StAccepted (statusMap StAccepted) t b) = true)
    as ->.
  { unfold paidBookingOf. simpl. by rewrite Hown. }
  rewrite E3 in Mt, Mq |- *. cbn [app] in Mt, Mq |- *.
  split.
  { apply in_or_app. right. by left. }
  rewrite (reduceSum_insert revenueOf l1 l2
             (setStatus StAccepted (statusMap StAccepted) t b))
    by (rewrite revenueOf_magnitude, revenueOf_total; exact Mt).
  rewrite (reduceSum_insert b_quantity l1 l2
             (setStatus StAccepted (statusMap StAccepted) t b)) by done.
  rewrite revenueOf_total. done.
Qed.

Lemma revenue_counts_accepted_witness :
  let r := updateBookingStatus booked (Some "vendor@x.io") (Some 2%nat)
                               "accepted" "t" in
  payments r.1 = [] /\ totalRevenue (vendorRevenue "vendor@x.io" r.1) = 40.
Proof.
  destruct (revenue_counts_accepted booked "vendor@x.io" 2%nat _ _ "t"
              eq_refl eq_refl eq_refl eq_refl) as (_ & Hp & _ & Hr & _).
  - vm_compute. discriminate.
  - vm_compute. discriminate.
  - split; [exact Hp|exact Hr].
Defined.

(** ** Profile updates *)

Lemma js_trim_inr v x : js_trim v = inr x -> exists n, v = JStr n /\ x = trim n.
Proof. destruct v; simpl; intros [= <-]; eauto. Qed.

Lemma opt_trim_inr v x :
  opt_trim v = inr x ->
  (truthy v = false /\ x = "") \/
  (exists p, v = JStr p /\ x = trim p).
Proof.
  destruct v as [| |b|z|p]; simpl; intros H; try discriminate H.
  - left. by injection H as <-.
  - left. by injection H as <-.
  - right. injection H as <-. eauto.
Qed.

(** X25: for a body whose strings are ASCII, [PUT /user/profile] writes
    nothing unless it answers 200, and then the stored name is the trimmed
    name of the body, at least two characters long, the stored phone is the
    trimmed phone of the body, which matches the phone pattern, or the empty
    string, and the record's [_id], email, role and fraud flag are
    untouched. *)
Theorem putUserProfile_outcome s e name phone location file imageURL t :
  ascii_value name -> ascii_value phone -> ascii_value location ->
  let r := putUserProfile s (Some e) name phone location file imageURL t in
  (code r.2 <> 200%nat -> r.1 = s) /\
  (truthy name = false ->
     r = (s, reply 400 "Name must be at least 2 characters")) /\
  (code r.2 = 200%nat ->
     exists u u' n,
       userByEmail e s = Some u /\ userByEmail e r.1 = Some u' /\
       r.2 = send (UserDoc u') /\
       name = JStr n /\ u_name u' = JStr (trim n) /\
       (2 <= String.length (trim n))%nat /\
       (u_phone u' = JStr "" \/
        exists p, phone = JStr p /\ phone_regex p = true /\
                  u_phone u' = JStr (trim p)) /\
       u_id u' = u_id u /\ u_email u' = u_email u /\ u_role u' = u_role u /\
       u_isFraud u' = u_isFraud u).
Proof.
  intros _ _ _ r. unfold r, putUserProfile.
  destruct (truthy name) eqn:Hname; cbn [negb].
  2:{ split; [done|]. split; [done|]. simpl. intros H. discriminate H. }
  split; [|split; [done|]].
  - repeat case_match; simpl; try done. all: intros H; by destruct H.
  - destruct (js_trim name) as [?|trimmed] eqn:Hn; [simpl; intros H; discriminate H|].
    apply js_trim_inr in Hn as (n & -> & ->).
    destruct (String.length (trim n) <? 2)%nat eqn:Hlen;
      [simpl; intros H; discriminate H|].
    apply Nat.ltb_ge in Hlen.
    destruct (truthy phone && negb (phone_test phone))%bool eqn:Hph;
      [simpl; intros H; discriminate H|].
    destruct (opt_trim phone) as [?|ph] eqn:Hp; [simpl; intros H; discriminate H|].
    destruct (opt_trim location) as [?|loc] eqn:Hl; [simpl; intros H; discriminate H|].
    destruct (findOne (byEmail e) (users s)) as [u|] eqn:Hu;
      [|simpl; intros H; discriminate H].
    intros _. cbn [fst snd].
    eexists u, _, n. split; [done|]. split.
    { unfold userByEmail. cbn [with_users users].
      rewrite findOne_updateOne_same by done. by rewrite Hu. }
    split; [done|]. split; [done|]. split; [done|]. split; [done|].
    split; [|done]. cbn [u_phone].
    apply opt_trim_inr in Hp as [[_ ->]|(p & -> & ->)]; [by left|].
    simpl in Hph. apply andb_false_iff in Hph as [Hph|Hph].
    + apply negb_false_iff, bool_decide_eq_true in Hph. subst p. by left.
    + apply negb_false_iff in Hph. right. by exists p.
Qed.

Lemma putUserProfile_outcome_witness :
  let r := putUserProfile listed (Some "vendor@x.io") (JStr "  Vera B ")
                          (JStr "+880 (17) 123-456") JUndef false JUndef "t" in
  code r.2 = 200%nat /\
  option_map u_name (userByEmail "vendor@x.io" r.1) = Some (JStr "Vera B") /\
  option_map u_role (userByEmail "vendor@x.io" r.1) = Some (JStr "vendor") /\
  (putUserProfile listed (Some "vendor@x.io") (JStr " V ") JUndef JUndef false
                  JUndef "t").1 = listed.
Proof.
  split; [reflexivity|].
  destruct (putUserProfile_outcome listed "vendor@x.io" (JStr "  Vera B ")
              (JStr "+880 (17) 123-456") JUndef false JUndef "t"
              eq_refl eq_refl I)
    as (_ & _ & H).
  destruct (H eq_refl) as (u & u' & n & Hu & Hu' & _ & Hn & Hname & _ & _ & _ & _ & Hrole & _).
  injection Hn as <-. injection Hu as <-.
  split; [exact (eq_trans (f_equal (option_map u_name) Hu') (f_equal Some Hname))|].
  split; [exact (eq_trans (f_equal (option_map u_role) Hu') (f_equal Some Hrole))|].
  refine (proj1 (putUserProfile_outcome listed "vendor@x.io" (JStr " V ") JUndef
                   JUndef false JUndef "t" eq_refl I I) _).
  intros E. vm_compute in E. discriminate E.
Defined.

(** ** Earlier revisions *)

(** X26: in the revisions of [part_001] and [part_002], signing in again
    overwrites the stored role with the role of the body, or with "customer"
    when the body has none: the role is not preserved. *)
Theorem postUser_overwriting_resets_role s userData t1 t2 u :
  ub_email userData <> "" -> userByEmail (ub_email userData) s = Some u ->
  option_map u_role
    (userByEmail (ub_email userData) (postUser_overwriting s userData t1 t2).1) =
  Some (if truthy (ub_role userData) then ub_role userData else JStr "customer").
Proof.
  intros He Hu. unfold postUser_overwriting.
  rewrite bool_decide_eq_false_2 by done. cbv zeta.
  unfold userByEmail in *. rewrite Hu. cbn [fst with_users users].
  rewrite findOne_updateOne_same.
  - rewrite Hu. simpl. f_equal. unfold js_or.
    destruct (truthy (ub_role userData)) eqn:E; [|done].
    apply bson_id. intros Hr. by rewrite Hr in E.
  - intros x Hx. unfold byEmail. simpl. by rewrite bool_decide_eq_true_2.
Qed.

Lemma postUser_overwriting_resets_role_witness :
  option_map u_role (userByEmail "root@x.io" staffed) = Some (JStr "admin") /\
  option_map u_role
    (userByEmail "root@x.io"
       (postUser_overwriting staffed
          (mkUserBody "root@x.io" JUndef JUndef JUndef JUndef) "t" "t").1) =
  Some (JStr "customer").
Proof.
  split; [reflexivity|].
  exact (postUser_overwriting_resets_role staffed
           (mkUserBody "root@x.io" JUndef JUndef JUndef JUndef) "t" "t" _
           ltac:(done) eq_refl).
Defined.

(** X27: in the revision of [part_000] the first sign-in always creates a
    customer, whatever role the body asks for, and a later sign-in keeps the
    stored role. *)
Theorem postUser_customer_first_roles s userData t1 t2 :
  ub_email userData <> "" ->
  let r := postUser_customer_first s userData t1 t2 in
  (userByEmail (ub_email userData) s = None ->
     option_map u_role (userByEmail (ub_email userData) r.1) =
     Some (JStr "customer")) /\
  (forall u, userByEmail (ub_email userData) s = Some u -> u_role u <> JUndef ->
     option_map u_role (userByEmail (ub_email userData) r.1) = Some (u_role u)).
Proof.
  intros He r. unfold r, postUser_customer_first.
  rewrite bool_decide_eq_false_2 by done. cbv zeta.
  unfold userByEmail. split.
  - intros Hu. rewrite Hu. cbn [fst bump with_users users].
    rewrite findOne_app, Hu. unfold findOne. simpl.
    unfold byEmail. simpl. by rewrite bool_decide_eq_true_2.
  - intros u Hu Hr. rewrite Hu. cbn [fst with_users users].
    rewrite findOne_updateOne_same.
    + rewrite Hu. simpl. by rewrite bson_id.
    + intros x Hx. unfold byEmail. simpl. by rewrite bool_decide_eq_true_2.
Qed.

Lemma postUser_customer_first_roles_witness :
  option_map u_role
    (userByEmail "eve@x.io"
       (postUser_customer_first emptyStore
          (mkUserBody "eve@x.io" (JStr "admin") JUndef JUndef JUndef) "t" "t").1) =
  Some (JStr "customer").
Proof.
  exact (proj1 (postUser_customer_first_roles emptyStore
                  (mkUserBody "eve@x.io" (JStr "admin") JUndef JUndef JUndef)
                  "t" "t" ltac:(done)) eq_refl).
Defined.

(** X28: the stock check of the earlier [POST /bookings] refuses exactly the
    quantities above the ticket's stock; every other quantity, zero and
    negative ones included, is booked, with [totalPrice = price * quantity]
    when the factors and the product are within the safe range.
    The ticket's stock is not reserved, so a second booking within the stock
    is accepted as well, even when the two together exceed it. *)
Theorem createBooking_strict_stock s e tid ticket q now :
  findOne (byTicketId tid) (ls_tickets s) = Some ticket ->
  let r := createBooking_strict s (Some e) (Some tid) q now in
  (t_quantity ticket < q ->
     r = (s, reply 400 "Not enough tickets available")) /\
  (q <= t_quantity ticket ->
     r.2 = send (InsertResult (ls_nextId s)) /\
     ls_tickets r.1 = ls_tickets s /\
     (exists b, ls_bookings r.1 = ls_bookings s ++ [b] /\
                lb_quantity b = q /\
                (safe (t_price ticket) -> safe q -> safe (t_price ticket * q) ->
                 lb_totalPrice b = t_price ticket * q) /\
                lb_status b = "pending" /\ lb_userEmail b = e) /\
     forall e' q' now',
       q' <= t_quantity ticket ->
       (createBooking_strict r.1 (Some e') (Some tid) q' now').2 =
       send (InsertResult (S (ls_nextId s)))).
Proof.
  intros Ht r. unfold r, createBooking_strict. rewrite Ht. split.
  - intros Hlt. apply Z.ltb_lt in Hlt. by rewrite Hlt.
  - intros Hle. apply Z.ltb_ge in Hle. rewrite Hle. cbn [fst snd].
    split; [done|]. split; [done|]. split.
    { eexists. split; [reflexivity|]. cbn [lb_quantity lb_totalPrice].
      split; [done|]. split; [|done].
      intros _ _ Hsafe. by apply js_mul_safe. }
    intros e' q' now' Hle'. cbn [ls_tickets ls_nextId]. rewrite Ht.
    apply Z.ltb_ge in Hle'. by rewrite Hle'.
Qed.

Lemma createBooking_strict_stock_witness :
  let s := mkLegacyStore (tickets listed) [] 2%nat in
  createBooking_strict s (Some "ann@x.io") (Some 1%nat) 11 "t" =
    (s, reply 400 "Not enough tickets available") /\
  (createBooking_strict s (Some "ann@x.io") (Some 1%nat) (-3) "t").2 =
    send (InsertResult 2%nat) /\
  (createBooking_strict
     (createBooking_strict s (Some "ann@x.io") (Some 1%nat) 10 "t").1
     (Some "bob@x.io") (Some 1%nat) 10 "t").2 = send (InsertResult 3%nat).
Proof.
  intros s.
  split; [|split].
  - refine (proj1 (createBooking_strict_stock s "ann@x.io" 1%nat _ 11 "t" eq_refl) _).
    simpl. lia.
  - refine (proj1 (proj2 (createBooking_strict_stock s "ann@x.io" 1%nat _ (-3) "t"
                            eq_refl) _)).
    simpl. lia.
  - refine (proj2 (proj2 (proj2 (proj2
              (createBooking_strict_stock s "ann@x.io" 1%nat _ 10 "t" eq_refl) _)))
              "bob@x.io" 10 "t" _); simpl; lia.
Defined.

(** ** Partial settlement and refused bookings *)

(** X29: the three writes of a settlement are not atomic.  When the booking
    being paid is no longer active and another active booking holds its seat,
    [POST /payments] answers 500 after the payment record has been inserted:
    the record stays, the booking is not confirmed and no ticket changes, and
    the same call can be repeated with the same effect. *)
Theorem payment_without_settlement s payer bid b txn method d :
  bookingById bid s = Some b -> b_status b <> StPaid ->
  seat_taken_by_other b s = true ->
  let r := recordPayment s (Some payer) (Some bid) txn (JNum (b_totalPrice b))
                         method d in
  r.2 = reply 500 "Server error" /\
  payments r.1 =
    payments s ++
    [newPayment (nextId s) payer bid b txn (JNum (b_totalPrice b)) method d] /\
  bookings r.1 = bookings s /\ tickets r.1 = tickets s /\
  forall payer' txn' method' d',
    let r' := recordPayment r.1 (Some payer') (Some bid) txn'
                            (JNum (b_totalPrice b)) method' d' in
    r'.2 = reply 500 "Server error" /\
    length (payments r'.1) = S (S (length (payments s))).
Proof.
  intros Hb Hp Hs r. unfold r.
  rewrite (recordPayment_match _ _ _ _ _ _ _ Hb Hp), Hs. cbn [fst snd].
  split; [done|]. split; [done|]. split; [done|]. split; [done|].
  intros payer' txn' method' d'.
  set (s1 := bump (with_payments s _)).
  assert (bookingById bid s1 = Some b) as Hb1 by done.
  assert (seat_taken_by_other b s1 = true) as Hs1 by done.
  cbv zeta. rewrite (recordPayment_match _ _ _ _ _ _ _ Hb1 Hp), Hs1.
  cbn [fst snd]. split; [done|].
  unfold s1. cbn [bump with_payments payments]. rewrite !length_app. simpl. lia.
Qed.

Lemma reachable_rebooked : reachable rebooked.
Proof. apply reachable_run, reachable_cancelled. Qed.

Lemma payment_without_settlement_witness :
  reachable rebooked /\
  let r := recordPayment rebooked (Some "ann@x.io") (Some 2%nat) (JStr "tx")
                         (JNum 40) JUndef "d" in
  r.2 = reply 500 "Server error" /\ length (payments r.1) = 1%nat /\
  lifecycle 2%nat r.1 = Some Cancelled.
Proof.
  split; [apply reachable_rebooked|].
  destruct (payment_without_settlement rebooked "ann@x.io" 2%nat _ (JStr "tx")
              JUndef "d" eq_refl ltac:(done) eq_refl)
    as (Hr & Hp & Hbk & _).
  split; [exact Hr|]. split.
  - exact (f_equal (@length Payment) Hp).
  - exact (f_equal (fun l => option_map b_bookingStatus (findOne (byBookingId 2%nat) l))
                   Hbk).
Defined.

(** X30: [POST /bookings] writes nothing when it does not answer 201: a
    malformed ticket id is refused with 400, an id that names no ticket with
    404, and a ticket whose transport type is neither absent nor a string
    makes the handler fail with 500. *)
Theorem createBooking_refusals s e ticketId quantity seatNumber env :
  let r := createBooking s (Some e) ticketId quantity seatNumber env in
  (code r.2 <> 201%nat -> r.1 = s) /\
  (ticketId = None -> r = (s, reply 400 "Invalid ticket ID")) /\
  (forall tid, ticketId = Some tid -> lookupTicket tid s = None ->
     r = (s, reply 404 "Ticket not found")) /\
  (forall tid ticket, ticketId = Some tid -> lookupTicket tid s = Some ticket ->
     ticketTypeOf ticket = inl TypeError -> r = (s, reply 500 "Server error")).
Proof.
  intros r. unfold r. split; [|split; [|split]].
  - destruct ticketId as [tid|]; [|done].
    destruct (lookupTicket tid s) as [ticket|] eqn:Ht.
    2:{ unfold lookupTicket in Ht. unfold createBooking. by rewrite Ht. }
    destruct (ticketTypeOf ticket) as [x|ty] eqn:Hty.
    { unfold lookupTicket in Ht. unfold createBooking. rewrite Ht, Hty.
      destruct x; repeat case_match; done. }
    rewrite (createBooking_resolved _ _ _ _ _ _ _ _ Ht Hty).
    destruct (existsb _ _); [done|]. simpl. intros H. by destruct H.
  - by intros ->.
  - intros tid -> Ht. unfold lookupTicket in Ht. unfold createBooking. by rewrite Ht.
  - intros tid ticket -> Ht Hty. unfold lookupTicket in Ht.
    unfold createBooking. by rewrite Ht, Hty.
Qed.

Lemma createBooking_refusals_witness :
  createBooking listed (Some "ann@x.io") (Some 9%nat) 1 JUndef env0 =
    (listed, reply 404 "Ticket not found") /\
  let s := (patchTicket listed (Some "vendor@x.io") (Some 1%nat)
                        [SetTransportType (JNum 7)]).1 in
  createBooking s (Some "ann@x.io") (Some 1%nat) 1 JUndef env0 =
    (s, reply 500 "Server error").
Proof.
  split.
  - exact (proj1 (proj2 (proj2 (createBooking_refusals listed "ann@x.io"
                                  (Some 9%nat) 1 JUndef env0)))
                 9%nat eq_refl eq_refl).
  - intros s.
    exact (proj2 (proj2 (proj2 (createBooking_refusals s "ann@x.io"
                                  (Some 1%nat) 1 JUndef env0)))
                 1%nat _ eq_refl eq_refl eq_refl).
Defined.
